(** * AI4Chat assistant backend: intent routing and templated replies

    A shallow embedding of [src/backend/server.js]: the keyword
    classifiers, the product answer formatter, the knowledge-base search
    wrapper and the [/api/chat] and [/api/track-order] handlers, followed
    by the properties of the routing and synthesis pipeline.

    Conventions of the embedding.
    - A JavaScript string is a Rocq [string].  Literals are UTF-8 encoded,
      so substring tests agree with JavaScript on well-formed text; the
      case mapping, the white space set and the counting of characters in
      [slice]/[substring] are those of JavaScript on ASCII text.
    - A property that may be [undefined] is an [option]; [truthy] and
      [orElse] are JavaScript's truthiness and [||] on such a property.
    - Objects that the server shares by reference (the sessions held in
      [userSessions]) live in an explicit heap.
    - The search subprocess, the clock and [Math.random] are oracles of
      the environment, indexed by the number of earlier uses.
    - The body of a request and the documents printed by the search
      script have the types of the data model: a message and a session
      identifier are texts when they are there, and so are the text
      fields of a document.  What a handler does with another JSON value
      in their place is not modelled.
    - [chat] and [trackOrder] run a handler from the arrival of its
      request to its answer as one step, as when no other request is
      handled meanwhile.  The handlers of requests that overlap interleave
      at their [await]s: [resume] and [schedule] give the steps of the
      chat handler between its [await]s.  The properties of the stored
      history of a session that are stated on [chat] are about requests
      that do not overlap. *)

From Stdlib Require Import ZArith QArith Ascii String List Bool Sorted Lia.
From stdpp Require Import base option list gmap strings.

Import ListNotations.
Local Open Scope string_scope.
Local Open Scope list_scope.

(** ** JavaScript string primitives *)

Module Js.

Definition isUpper (c : ascii) : bool :=
  let n := N_of_ascii c in (65 <=? n)%N && (n <=? 90)%N.

Definition lowerChar (c : ascii) : ascii :=
  if isUpper c then ascii_of_N (N_of_ascii c + 32) else c.

(** [String.prototype.toLowerCase]. *)
Fixpoint toLowerCase (s : string) : string :=
  match s with
  | EmptyString => EmptyString
  | String c s' => String (lowerChar c) (toLowerCase s')
  end.

(** [stripPrefix p s] is what follows [p] when [s] starts with [p]. *)
Fixpoint stripPrefix (p s : string) : option string :=
  match p, s with
  | EmptyString, _ => Some s
  | String _ _, EmptyString => None
  | String a p', String b s' =>
      if Ascii.eqb a b then stripPrefix p' s' else None
  end.

Definition startsWith (s p : string) : bool :=
  match stripPrefix p s with Some _ => true | None => false end.

(** [String.prototype.includes]. *)
Fixpoint includes (s p : string) : bool :=
  startsWith s p ||
  match s with
  | EmptyString => false
  | String _ s' => includes s' p
  end.

(** [Array.prototype.some] over a list of keywords. *)
Definition some {A} (f : A -> bool) (l : list A) : bool := existsb f l.

(** A regular expression that is an alternation of literals, tested on an
    already lower-cased string: [/(a|b|c)/i.test(lower)]. *)
Definition testAny (alts : list string) (lower : string) : bool :=
  some (fun a => includes lower a) alts.

(** Word characters of [\b]: letters, digits and the underscore. *)
Definition isWordChar (c : ascii) : bool :=
  let n := N_of_ascii c in
  ((97 <=? n)%N && (n <=? 122)%N) || ((65 <=? n)%N && (n <=? 90)%N) ||
  ((48 <=? n)%N && (n <=? 57)%N) || (n =? 95)%N.

Definition isWordOpt (c : option ascii) : bool :=
  match c with Some c => isWordChar c | None => false end.

Definition headChar (s : string) : option ascii :=
  match s with EmptyString => None | String c _ => Some c end.

(** [\b] between the character [prev] and the text [rest]. *)
Definition wordBoundary (prev : option ascii) (rest : string) : bool :=
  xorb (isWordOpt prev) (isWordOpt (headChar rest)).

Fixpoint lastChar (prev : option ascii) (s : string) : option ascii :=
  match s with
  | EmptyString => prev
  | String c s' => lastChar (Some c) s'
  end.

(** One alternative of [/\b(a|b|c)\b/] tried at the current position. *)
Definition matchWordAt (prev : option ascii) (s alt : string) : bool :=
  wordBoundary prev s &&
  match stripPrefix alt s with
  | Some rest => wordBoundary (lastChar prev alt) rest
  | None => false
  end.

(** [(s.match(/\b(a|b|c)\b/) || [])[1]]: the leftmost position at which
    an alternative matches as a whole word, alternatives in order. *)
Fixpoint matchWordFrom (alts : list string) (prev : option ascii) (s : string)
  : option string :=
  match List.find (matchWordAt prev s) alts with
  | Some a => Some a
  | None =>
      match s with
      | EmptyString => None
      | String c s' => matchWordFrom alts (Some c) s'
      end
  end.

Definition matchWord (alts : list string) (s : string) : option string :=
  matchWordFrom alts None s.

(** [String.prototype.replace] with a string pattern: first occurrence. *)
Fixpoint replace (pat rep s : string) : string :=
  match stripPrefix pat s with
  | Some rest => String.append rep rest
  | None =>
      match s with
      | EmptyString => EmptyString
      | String c s' => String c (replace pat rep s')
      end
  end.

Definition isSpace (c : ascii) : bool :=
  let n := N_of_ascii c in ((9 <=? n)%N && (n <=? 13)%N) || (n =? 32)%N.

Fixpoint trimStart (s : string) : string :=
  match s with
  | EmptyString => EmptyString
  | String c s' => if isSpace c then trimStart s' else s
  end.

Fixpoint trimEnd (s : string) : string :=
  match s with
  | EmptyString => EmptyString
  | String c s' =>
      match trimEnd s' with
      | EmptyString => if isSpace c then EmptyString else String c EmptyString
      | t => String c t
      end
  end.

(** [String.prototype.trim]. *)
Definition trim (s : string) : string := trimEnd (trimStart s).

(** [s.slice(0, n)] and [s.substring(0, n)]. *)
Fixpoint take (n : nat) (s : string) : string :=
  match n, s with
  | O, _ => EmptyString
  | S _, EmptyString => EmptyString
  | S n', String c s' => String c (take n' s')
  end.

(** [Array.prototype.join]. *)
Fixpoint join (sep : string) (l : list string) : string :=
  match l with
  | [] => EmptyString
  | [x] => x
  | x :: rest => String.append x (String.append sep (join sep rest))
  end.

(** Truthiness of a property that holds a string when present. *)
Definition truthy (o : option string) : bool :=
  match o with
  | Some s => negb (String.eqb s EmptyString)
  | None => false
  end.

(** [o || d] for such a property. *)
Definition orElse (o : option string) (d : string) : string :=
  match o with
  | Some s => if String.eqb s EmptyString then d else s
  | None => d
  end.

(** [[...new Set(l)]]: first occurrences, in order. *)
Fixpoint uniq (seen l : list string) : list string :=
  match l with
  | [] => []
  | x :: rest =>
      if existsb (String.eqb x) seen then uniq seen rest
      else x :: uniq (x :: seen) rest
  end.

Definition nl : string := String (ascii_of_N 10) EmptyString.

End Js.

(** ** Intent classifiers *)

Definition personalKeywords : list string :=
  [ "my order"; "my refund"; "my account"; "my purchase";
    "my delivery"; "my package"; "my return"; "my payment";
    "my shipping"; "i ordered"; "i bought"; "i purchased";
    "i paid"; "i returned" ].

Definition isPersonalizedQuery (message : string) : bool :=
  let lowerMessage := Js.toLowerCase message in
  Js.some (fun keyword => Js.includes lowerMessage keyword) personalKeywords.

Definition orderDisclaimer : string :=
  "To check your order status, please provide your order number. If you don't have it, you can find it in your order confirmation email.".

Definition refundDisclaimer : string :=
  "To check your refund status, please provide your order number and the date of your refund request. You can also check your refund status in your account dashboard.".

Definition returnDisclaimer : string :=
  "For return status, please provide your return authorization number. You can find this in your return confirmation email.".

Definition paymentDisclaimer : string :=
  "For payment-related queries, please check your order confirmation email or your account dashboard. For security reasons, I can't access specific payment details here.".

Definition genericDisclaimer : string :=
  "I notice you're asking about your personal information. To help you better, please provide relevant details like your order number or reference number. Alternatively, you can check your account dashboard for this information.".

Definition handlePersonalizedQuery (message : string) : string :=
  let lowerMessage := Js.toLowerCase message in
  if Js.includes lowerMessage "order" || Js.includes lowerMessage "delivery"
     || Js.includes lowerMessage "package" then orderDisclaimer
  else if Js.includes lowerMessage "refund" then refundDisclaimer
  else if Js.includes lowerMessage "return" then returnDisclaimer
  else if Js.includes lowerMessage "payment" then paymentDisclaimer
  else genericDisclaimer.

Definition trackingKeywords : list string :=
  [ "track"; "order"; "tracking"; "status"; "where is my order";
    "shipment"; "delivery"; "shipped"; "delivered" ].

Definition isOrderTrackingQuery (message : string) : bool :=
  let lowerMessage := Js.toLowerCase message in
  Js.some (fun keyword => Js.includes lowerMessage keyword) trackingKeywords.

Definition productKeywords : list string :=
  [ "price"; "cost"; "material"; "size"; "color"; "product";
    "buy"; "purchase"; "available"; "stock"; "features" ].

Definition isProductQuery (message : string) : bool :=
  let lowerMessage := Js.toLowerCase message in
  Js.some (fun keyword => Js.includes lowerMessage keyword) productKeywords.

(** ** Data model

    The records follow the JSON the search script prints; every property
    may be missing.  Only the properties the server reads are kept. *)

(** A relevance score is a number on the retriever's scale.  The server
    only copies it, so no arithmetic on it is modelled. *)
Definition Score := Q.

Module Variant.
Record t := mk {
  color : option string;
  size : option string;
  price : option string;
  compare_at_price : option string;
  available : option bool;
  weight : option string;
  weight_unit : option string }.
End Variant.

Module Image.
Record t := mk {
  src : option string;
  url : option string;
  image : option string }.
End Image.

Module ProductInfo.
Record t := mk {
  best_price : option string;
  price_range : option string;
  materials : option string;
  care : option string;
  warranty : option string;
  shipping_info : option string;
  variants : option (list Variant.t);
  images : option (list Image.t) }.

(** The [{}] of [h.product_info || {}]. *)
Definition empty : t := mk None None None None None None None None.
End ProductInfo.

Module Document.
Record t := mk {
  text : option string;
  title : option string;
  url : option string;
  score : option Score;
  product_info : option ProductInfo.t }.
End Document.

(** A property value of an object the server builds. *)
Inductive JsValue :=
  | JUndefined
  | JString (s : string)
  | JNumber (q : Score).

(** An object literal: its own properties, in the order written. *)
Definition JsObject := list (string * JsValue).

Definition strValue (o : option string) : JsValue :=
  match o with Some s => JString s | None => JUndefined end.

Definition numValue (o : option Score) : JsValue :=
  match o with Some q => JNumber q | None => JUndefined end.

(** [o[key]]. *)
Fixpoint prop (o : JsObject) (key : string) : JsValue :=
  match o with
  | [] => JUndefined
  | (k, v) :: rest => if String.eqb k key then v else prop rest key
  end.

(** [Object.keys(o)]. *)
Definition keys (o : JsObject) : list string := map fst o.

(** The arrow function [r => ({title: r.title, url: r.url, score: r.score})]. *)
Definition toSource (r : Document.t) : JsObject :=
  [ ("title", strValue (Document.title r));
    ("url", strValue (Document.url r));
    ("score", numValue (Document.score r)) ].

(** ** Attribute filter *)

(** [!attr || test(attr)]. *)
Definition unlessAbsent (attr : option string) (test : string -> bool) : bool :=
  match attr with
  | Some a => if String.eqb a EmptyString then true else test a
  | None => true
  end.

(** The predicate given to [variants.some] and [variants.find]. *)
Definition variantMatches (color size : option string) (v : Variant.t) : bool :=
  unlessAbsent color
    (fun c => String.eqb (Js.toLowerCase (Js.orElse (Variant.color v) "")) c) &&
  unlessAbsent size
    (fun s => String.eqb (Js.toLowerCase (Js.orElse (Variant.size v) "")) s).

(** [Array.isArray(pi.variants) ? pi.variants : []] with
    [pi = h.product_info || {}]. *)
Definition variantsOf (h : Document.t) : list Variant.t :=
  let pi := default ProductInfo.empty (Document.product_info h) in
  default [] (ProductInfo.variants pi).

Definition hasVariant (color size : option string) (h : Document.t) : bool :=
  Js.some (variantMatches color size) (variantsOf h).

Definition okText (color size : option string) (h : Document.t) : bool :=
  let text := Js.toLowerCase (Js.orElse (Document.text h) "") in
  unlessAbsent color (fun c => Js.includes text c) &&
  unlessAbsent size (fun s => Js.includes text s).

(** The [for (const h of hits)] loop, [pick] being the array pushed to. *)
Fixpoint filterLoop (color size : option string)
    (hits pick : list Document.t) : list Document.t :=
  match hits with
  | [] => pick
  | h :: rest =>
      if hasVariant color size h || okText color size h
      then filterLoop color size rest (pick ++ [h])
      else filterLoop color size rest pick
  end.

Definition filterByAttributes (hits : list Document.t)
    (color size : option string) : list Document.t :=
  if negb (Js.truthy color) && negb (Js.truthy size) then hits
  else
    let pick := filterLoop color size hits [] in
    match pick with
    | [] => hits
    | _ :: _ => pick
    end.

(** ** URL de-duplication *)

(** The loop of [dedupeByUrl], which [formatProductAnswer] repeats inline:
    [seen] is the [Set] of URLs, [out] the array pushed to. *)
Fixpoint dedupeLoop (hits : list Document.t) (seen : gset string)
    (out : list Document.t) : list Document.t :=
  match hits with
  | [] => out
  | h :: rest =>
      match Document.url h with
      | Some u =>
          if negb (String.eqb u EmptyString) && negb (bool_decide (u ∈ seen))
          then dedupeLoop rest ({[u]} ∪ seen) (out ++ [h])
          else dedupeLoop rest seen out
      | None => dedupeLoop rest seen out
      end
  end.

Definition dedupeByUrl (hits : list Document.t) : list Document.t :=
  dedupeLoop hits ∅ [].

(** ** Product answers *)

(** The eight intent flags of [formatProductAnswer]. *)
Record Intents := mkIntents {
  priceIntent : bool;
  availabilityIntent : bool;
  materialIntent : bool;
  optionsIntent : bool;
  shippingIntent : bool;
  warrantyIntent : bool;
  imageIntent : bool;
  weightIntent : bool }.

Definition intentsOf (lower : string) : Intents :=
  {| priceIntent := Js.testAny ["price"; "cost"; "how much"; "₹"; "$"] lower;
     availabilityIntent :=
       Js.testAny ["available"; "in stock"; "out of stock"; "stock"] lower;
     materialIntent :=
       Js.testAny ["material"; "quality"; "fabric"; "cotton"; "leather";
                   "steel"; "wash"; "care"; "durable"; "handmade"] lower;
     optionsIntent :=
       Js.testAny ["size"; "sizes"; "color"; "colour"; "colors"; "options";
                   "variants"] lower;
     shippingIntent :=
       Js.testAny ["shipping"; "delivery"; "returns"; "refund";
                   "warranty policy"; "return policy"] lower;
     warrantyIntent := Js.testAny ["warranty"; "guarantee"] lower;
     imageIntent := Js.testAny ["image"; "photo"; "picture"] lower;
     weightIntent := Js.testAny ["weight"; "heavy"; "light"] lower |}.

Definition colorNames : list string :=
  ["blue"; "green"; "purple"; "red"; "black"; "white"; "gold"; "silver"].

Definition sizeNames : list string :=
  ["xs"; "s"; "m"; "l"; "xl"; "xxl"; "small"; "medium"; "large"].

Definition colorOf (lower : string) : option string :=
  Js.matchWord colorNames lower.

Definition sizeOf (lower : string) : option string :=
  match Js.matchWord sizeNames lower with
  | Some sizeRaw =>
      Some (Js.replace "large" "l"
             (Js.replace "medium" "m" (Js.replace "small" "s" sizeRaw)))
  | None => None
  end.

(** [cond ? lines.push(line) : nothing]. *)
Definition pushIf (cond : bool) (lines : list string) (line : string)
  : list string :=
  if cond then lines ++ [line] else lines.

Definition isTrue (o : option bool) : bool :=
  match o with Some true => true | _ => false end.

Definition stockWord (v : Variant.t) : string :=
  if isTrue (Variant.available v) then "in stock" else "out of stock".

Definition nonEmpty (s : string) : bool := negb (String.eqb s "").

(** The blocks of the loop body of [formatProductAnswer], in the order of
    the source; each takes the lines pushed so far and gives them back
    with its own. *)

(** Price and discount handling. *)
Definition pricePart (i : Intents) (pi : ProductInfo.t)
    (vMatch : option Variant.t) (lines : list string) : list string :=
  let priceFrom :=
    if Js.truthy (ProductInfo.best_price pi) then
      let range := Js.trim (Js.orElse (ProductInfo.price_range pi) "") in
      lines ++ ["Price from: " +:+
                (if nonEmpty range then range
                 else Js.orElse (ProductInfo.best_price pi) "")]
    else lines in
  if priceIntent i && (bool_decide (is_Some vMatch)
                       || Js.truthy (ProductInfo.best_price pi)) then
    match vMatch with
    | Some v =>
        if Js.truthy (Variant.price v) then
          let cur := Js.orElse (Variant.price v) "" in
          let was := Js.trim (Js.orElse (Variant.compare_at_price v) "") in
          let avail := if isTrue (Variant.available v)
                       then "(in stock)" else "(out of stock)" in
          if nonEmpty was
          then lines ++ ["Price: " +:+ cur +:+ " (was " +:+ was +:+ ") " +:+ avail]
          else lines ++ ["Price: " +:+ cur +:+ " " +:+ avail]
        else priceFrom
    | None => priceFrom
    end
  else lines.

(** Availability handling. *)
Definition availabilityPart (i : Intents) (vMatch : option Variant.t)
    (lines : list string) : list string :=
  match vMatch with
  | Some v =>
      if availabilityIntent i then
        let lines := lines ++ ["Availability: " +:+ stockWord v] in
        if Js.truthy (Variant.price v) then
          let was := Js.trim (Js.orElse (Variant.compare_at_price v) "") in
          lines ++ ["Price: " +:+ Js.orElse (Variant.price v) "" +:+
                    (if nonEmpty was then " (was " +:+ was +:+ ")" else "")]
        else lines
      else lines
  | None => lines
  end.

(** Materials / Care. *)
Definition materialsPart (i : Intents) (materials care snippet : string)
    (lines : list string) : list string :=
  if materialIntent i then
    let lines := pushIf (nonEmpty materials) lines ("Materials: " +:+ materials) in
    let lines := pushIf (nonEmpty care) lines ("Care: " +:+ care) in
    pushIf (negb (nonEmpty materials) && negb (nonEmpty care)) lines
      (snippet +:+ "…")
  else lines.

(** Options: the lists of colors and sizes. *)
Definition optionsPart (i : Intents) (variants : list Variant.t)
    (snippet : string) (lines : list string) : list string :=
  if optionsIntent i then
    match variants with
    | _ :: _ =>
        let colors :=
          Js.uniq [] (List.filter nonEmpty
            (map (fun v => Js.trim (Js.orElse (Variant.color v) "")) variants)) in
        let sizes :=
          Js.uniq [] (List.filter nonEmpty
            (map (fun v => Js.trim (Js.orElse (Variant.size v) "")) variants)) in
        let lines :=
          pushIf (negb (Nat.eqb (length colors) 0)) lines
            ("Colors: " +:+ Js.join ", " colors) in
        pushIf (negb (Nat.eqb (length sizes) 0)) lines
          ("Sizes: " +:+ Js.join ", " sizes)
    | [] => lines ++ [snippet +:+ "…"]
    end
  else lines.

(** Warranty. *)
Definition warrantyPart (i : Intents) (warranty : string)
    (lines : list string) : list string :=
  if warrantyIntent i then
    if nonEmpty warranty then lines ++ ["Warranty: " +:+ warranty]
    else lines ++ ["Warranty details not specified on the product page."]
  else lines.

(** Shipping / Returns policy. *)
Definition shippingPart (i : Intents) (shippingInfo : string)
    (lines : list string) : list string :=
  if shippingIntent i then
    if nonEmpty shippingInfo then lines ++ ["Shipping: " +:+ shippingInfo]
    else lines ++ ["Shipping/returns details not specified here. Check the store policy page via the link below."]
  else lines.

(** Image. *)
Definition imagePart (i : Intents) (mainImageSrc : string)
    (lines : list string) : list string :=
  if imageIntent i then
    if nonEmpty mainImageSrc then lines ++ ["Image: " +:+ mainImageSrc]
    else lines ++ ["No image found in metadata; see product page."]
  else lines.

(** Weight. *)
Definition weightPart (i : Intents) (vMatch : option Variant.t)
    (lines : list string) : list string :=
  match vMatch with
  | Some v =>
      if weightIntent i then
        let wu := Js.trim (Js.orElse (Variant.weight_unit v) "") in
        if Js.truthy (Variant.weight v) then
          lines ++ ["Weight: " +:+ Js.orElse (Variant.weight v) "" +:+
                    (if nonEmpty wu then " " +:+ wu else "")]
        else lines ++ ["Weight not specified for this variant."]
      else lines
  | None => lines
  end.

(** General fallback when no specific intent triggered. *)
Definition generalPart (i : Intents) (pi : ProductInfo.t)
    (variants : list Variant.t) (vMatch : option Variant.t)
    (materials care snippet : string) (lines : list string) : list string :=
  if negb (priceIntent i) && negb (availabilityIntent i)
     && negb (materialIntent i) && negb (optionsIntent i)
     && negb (warrantyIntent i) && negb (shippingIntent i)
     && negb (imageIntent i) && negb (weightIntent i) then
    let lines :=
      pushIf (Js.truthy (ProductInfo.best_price pi)) lines
        ("Price from: " +:+ Js.orElse (ProductInfo.best_price pi) "") in
    let lines := pushIf (nonEmpty materials) lines ("Materials: " +:+ materials) in
    let lines := pushIf (nonEmpty care) lines ("Care: " +:+ care) in
    let lines :=
      match variants, vMatch with
      | _ :: _, Some v =>
          match Variant.available v with
          | Some _ => lines ++ ["Availability: " +:+ stockWord v]
          | None => lines
          end
      | _, _ => lines
      end in
    pushIf (Nat.eqb (length lines) 1) lines (snippet +:+ "…")
  else lines.

(** The body of the [for (const r of picked)] loop: the lines of one
    product answer. *)
Definition productLines (i : Intents) (color size : option string)
    (r : Document.t) : list string :=
  let pi := default ProductInfo.empty (Document.product_info r) in
  let title := Js.orElse (Document.title r) "Product" in
  let url := Js.orElse (Document.url r) "" in
  let snippet := Js.trim (Js.take 220 (Js.orElse (Document.text r) "")) in
  let variants := default [] (ProductInfo.variants pi) in
  let vMatch :=
    match List.find (variantMatches color size) variants with
    | Some v => Some v
    | None => head variants
    end in
  (* primary image if present *)
  let images := default [] (ProductInfo.images pi) in
  let mainImage := head images in
  let mainImageSrc :=
    match mainImage with
    | Some im =>
        Js.orElse (Image.src im)
          (Js.orElse (Image.url im) (Js.orElse (Image.image im) ""))
    | None => ""
    end in
  (* facts from new fields *)
  let warranty := Js.trim (Js.orElse (ProductInfo.warranty pi) "") in
  let shippingInfo := Js.trim (Js.orElse (ProductInfo.shipping_info pi) "") in
  let materials := Js.trim (Js.orElse (ProductInfo.materials pi) "") in
  let care := Js.trim (Js.orElse (ProductInfo.care pi) "") in
  (* build response lines *)
  let lines := [title] in
  let lines := pricePart i pi vMatch lines in
  let lines := availabilityPart i vMatch lines in
  let lines := materialsPart i materials care snippet lines in
  let lines := optionsPart i variants snippet lines in
  let lines := warrantyPart i warranty lines in
  let lines := shippingPart i shippingInfo lines in
  let lines := imagePart i mainImageSrc lines in
  let lines := weightPart i vMatch lines in
  let lines := generalPart i pi variants vMatch materials care snippet lines in
  lines ++ ["More details: " +:+ url].

Definition formatProductAnswer (query : string) (hits : list Document.t)
  : string :=
  let lower := Js.toLowerCase query in
  let intents := intentsOf lower in
  let color := colorOf lower in
  let size := sizeOf lower in
  (* dedupe by URL *)
  let unique := dedupeLoop hits ∅ [] in
  (* filter by requested attributes, then take one best *)
  let filtered := filterByAttributes unique color size in
  let picked := firstn 1 filtered in
  let out := map (fun r => Js.join Js.nl (productLines intents color size r)) picked in
  Js.join (Js.nl +:+ Js.nl) out.

(** ** Response synthesis *)

Definition notFoundReply : string :=
  "I'm sorry, I couldn't find specific information about that. Could you please rephrase your question or ask about something else I might be able to help with?".

(** What [JSON.parse] made of the script's output: an array of documents,
    or some other JSON value. *)
Inductive Json :=
  | JArray (docs : list Document.t)
  | JOther.

(** [Array.isArray(x) ? x : []]. *)
Definition arrayOrEmpty (x : Json) : list Document.t :=
  match x with
  | JArray docs => docs
  | JOther => []
  end.

(** [generateResponse(message, results, session)]; the function never
    reads its [session] argument, which is left out. *)
Definition generateResponse (message : string) (results : Json) : string :=
  if isPersonalizedQuery message then handlePersonalizedQuery message
  else
    let top := firstn 3 (arrayOrEmpty results) in
    if Nat.eqb (length top) 0 then notFoundReply
    else if isProductQuery message then formatProductAnswer message top
    else
      let context :=
        Js.join (Js.nl +:+ Js.nl)
          (map (fun r => Js.take 300 (Js.orElse (Document.text r) "")) top) in
      "Based on the information I found:" +:+ Js.nl +:+ Js.nl +:+ context
      +:+ Js.nl +:+ Js.nl
      +:+ "Would you like me to provide more specific details about any particular aspect?".

(** ** Sessions, the store and the environment *)

Inductive Role := user | assistant.

(** A time stamp is the clock reading that [toISOString] renders, in
    milliseconds. *)
Definition Timestamp := Z.

Module Message.
Record t := mk {
  role : Role;
  content : string;
  timestamp : Timestamp;
  searchResults : option (list JsObject) }.
End Message.

Record Context := mkContext {
  orderId : option string;
  customerInfo : option string }.

Module Session.
Record t := mk {
  id : string;
  createdAt : Timestamp;
  context : Context;
  messages : list Message.t }.
End Session.

Record TrackingInfo := mkTracking {
  trackStatus : string;
  details : string }.

(** What the search subprocess did: its exit code, what [JSON.parse] makes
    of its standard output (the parse error message when it throws) and
    its standard error. *)
Record ProcResult := mkProc {
  exitCode : Z;
  parsed : Json + string;
  errorOutput : string }.

(** The environment: the [n]-th run of the search script on a query and a
    limit, the [n]-th reading of the clock, the [n]-th value of
    [Math.floor(Math.random() * 5)]. *)
Record Env := mkEnv {
  runSearch : nat -> string -> nat -> ProcResult;
  now : nat -> Timestamp;
  randomIndex : nat -> nat }.

(** The state of the server: session objects by address, the
    [userSessions] map from identifier to address, and what has been
    consumed of the environment ([searchLog] lists the calls of
    [searchKnowledgeBase]). *)
Record World := mkWorld {
  heap : list Session.t;
  userSessions : gmap string nat;
  searchLog : list (string * nat);
  clockReads : nat;
  randomDraws : nat }.

Definition initialWorld : World := mkWorld [] ∅ [] 0 0.

(** Computations on the world that return or throw. *)
Definition M (A : Type) : Type := World -> (A + string) * World.

Definition ret {A} (a : A) : M A := fun w => (inl a, w).

Definition throw {A} (err : string) : M A := fun w => (inr err, w).

Definition bind {A B} (c : M A) (k : A -> M B) : M B :=
  fun w =>
    match c w with
    | (inl a, w') => k a w'
    | (inr err, w') => (inr err, w')
    end.

Notation "x <- c ;; k" := (bind c (fun x => k))
  (at level 62, c at next level, right associativity).

(** [try { c } catch (e) { h(e) }]. *)
Definition tryCatch {A} (c : M A) (h : string -> M A) : M A :=
  fun w =>
    match c w with
    | (inl a, w') => (inl a, w')
    | (inr err, w') => h err w'
    end.

(** [new Date().toISOString()]. *)
Definition readClock (env : Env) : M Timestamp :=
  fun w =>
    (inl (now env (clockReads w)),
     mkWorld (heap w) (userSessions w) (searchLog w) (S (clockReads w))
       (randomDraws w)).

Definition drawRandom (env : Env) : M nat :=
  fun w =>
    (inl (randomIndex env (randomDraws w) mod 5),
     mkWorld (heap w) (userSessions w) (searchLog w) (clockReads w)
       (S (randomDraws w))).

(** A new session object, reachable only through the returned address. *)
Definition alloc (s : Session.t) : M nat :=
  fun w =>
    (inl (length (heap w)),
     mkWorld (heap w ++ [s]) (userSessions w) (searchLog w) (clockReads w)
       (randomDraws w)).

(** Reading through a reference. *)
Definition deref (l : nat) : M Session.t :=
  fun w =>
    match heap w !! l with
    | Some s => (inl s, w)
    | None => (inr "TypeError: Cannot read properties of undefined", w)
    end.

(** Updating the object a reference points to, in place. *)
Definition mutate (l : nat) (f : Session.t -> Session.t) : M unit :=
  fun w =>
    (inl tt,
     mkWorld (alter f l (heap w)) (userSessions w) (searchLog w)
       (clockReads w) (randomDraws w)).

(** [userSessions.set(sessionId, session)]. *)
Definition setSession (sessionId : string) (l : nat) : M unit :=
  fun w =>
    (inl tt,
     mkWorld (heap w) (<[sessionId := l]> (userSessions w)) (searchLog w)
       (clockReads w) (randomDraws w)).

(** [userSessions.get(sessionId) || { id, createdAt, context: {},
    messages: [] }]: the stored object itself, or a new one. *)
Definition getOrCreate (env : Env) (sessionId : string) : M nat :=
  fun w =>
    match userSessions w !! sessionId with
    | Some l => (inl l, w)
    | None =>
        (t <- readClock env ;;
         alloc (Session.mk sessionId t (mkContext None None) [])) w
    end.

(** [session.messages.push(m)]. *)
Definition pushMessage (l : nat) (m : Message.t) : M unit :=
  mutate l (fun s =>
    Session.mk (Session.id s) (Session.createdAt s) (Session.context s)
      (Session.messages s ++ [m])).

(** ** Knowledge-base search *)

Definition searchKnowledgeBase (env : Env) (query : string) (topK : nat)
  : M Json :=
  fun w =>
    let p := runSearch env (length (searchLog w)) query topK in
    let w' := mkWorld (heap w) (userSessions w) (searchLog w ++ [(query, topK)])
                (clockReads w) (randomDraws w) in
    if (exitCode p =? 0)%Z then
      match parsed p with
      | inl results => (inl results, w')
      | inr msg => (inr ("Failed to parse search results: " +:+ msg), w')
      end
    else (inr ("Search failed: " +:+ errorOutput p), w').

(** ** Order tracking *)

Definition statuses : list TrackingInfo :=
  [ mkTracking "Processing" "Your order is being prepared for shipment.";
    mkTracking "Shipped" "Your order has been shipped and is on its way to you.";
    mkTracking "In Transit" "Your package is currently in transit to your delivery address.";
    mkTracking "Out for Delivery" "Your package is out for delivery and should arrive today.";
    mkTracking "Delivered" "Your order has been delivered successfully." ].

Definition generateMockTrackingInfo (env : Env) (orderId : string)
  : M TrackingInfo :=
  i <- drawRandom env ;;
  ret (nth i statuses (mkTracking "" "")).

Definition askForOrderId : string :=
  "I'd be happy to help you track your order! Please provide your order ID or order number.".

Definition handleOrderTracking (env : Env) (message : string) (session : nat)
  : M string :=
  s <- deref session ;;
  if Js.truthy (orderId (Session.context s)) then
    let oid := Js.orElse (orderId (Session.context s)) "" in
    trackingInfo <- generateMockTrackingInfo env oid ;;
    ret ("Your order " +:+ oid +:+ " status: " +:+ trackStatus trackingInfo
         +:+ ". " +:+ details trackingInfo)
  else ret askForOrderId.

(** ** HTTP handlers *)

Inductive Body :=
  | ErrorBody (error : string) (message : option string)
  | ChatBody (response : string) (sessionId : string)
      (sources : option (list JsObject))
  | TrackBody (success : bool) (orderId : string) (trackingInfo : TrackingInfo).

Record HttpResponse := mkResponse {
  status : nat;
  body : Body }.

Record ChatRequest := mkChatRequest {
  reqMessage : option string;
  reqSessionId : option string }.

Definition searchTrouble : string :=
  "I'm having trouble searching the knowledge base right now. Please try again shortly.".

(** The [try] block of [app.post('/api/chat')]. *)
Definition chatTry (env : Env) (req : ChatRequest) : M HttpResponse :=
  if negb (Js.truthy (reqMessage req)) || negb (Js.truthy (reqSessionId req))
  then ret (mkResponse 400 (ErrorBody "Message and sessionId are required" None))
  else
    let message := Js.orElse (reqMessage req) "" in
    let sessionId := Js.orElse (reqSessionId req) "" in
    (* get or create user session *)
    session <- getOrCreate env sessionId ;;
    (* add user message to session *)
    t <- readClock env ;;
    _ <- pushMessage session (Message.mk user message t None) ;;
    (* the reply computed here is overwritten below *)
    _ <- (if isOrderTrackingQuery message
          then handleOrderTracking env message session
          else (searchResults <- searchKnowledgeBase env message 5 ;;
                ret (generateResponse message searchResults))) ;;
    caught <- tryCatch
                (rawResults <- searchKnowledgeBase env message 5 ;;
                 ret (Some rawResults))
                (fun _ => ret None) ;;
    match caught with
    | None =>
        (* early graceful reply *)
        ret (mkResponse 200 (ChatBody searchTrouble sessionId None))
    | Some rawResults =>
        let normResults := arrayOrEmpty rawResults in
        let response := generateResponse message (JArray normResults) in
        (* add assistant response to session *)
        t' <- readClock env ;;
        _ <- pushMessage session
               (Message.mk assistant response t'
                  (Some (map toSource normResults))) ;;
        (* update session *)
        _ <- setSession sessionId session ;;
        ret (mkResponse 200
               (ChatBody response sessionId
                  (Some (map toSource (firstn 3 normResults)))))
    end.

(** [app.post('/api/chat')]: the [try] block, and the [catch] that
    answers 500.  The handler is run from the arrival of the request to
    its answer with no other request handled in between; [resume] gives
    its steps between the [await]s, and [alone_chat] relates the two. *)
Definition chat (env : Env) (req : ChatRequest) (w : World)
  : HttpResponse * World :=
  match chatTry env req w with
  | (inl res, w') => (res, w')
  | (inr _, w') =>
      (mkResponse 500
         (ErrorBody "Internal server error"
            (Some "Failed to process your message. Please try again.")), w')
  end.

Record TrackRequest := mkTrackRequest {
  trkOrderId : option string;
  trkSessionId : option string;
  trkCustomerInfo : option string }.

Definition trackOrderTry (env : Env) (req : TrackRequest) : M HttpResponse :=
  if negb (Js.truthy (trkOrderId req)) || negb (Js.truthy (trkSessionId req))
  then ret (mkResponse 400 (ErrorBody "Order ID and session ID are required" None))
  else
    let oid := Js.orElse (trkOrderId req) "" in
    let sessionId := Js.orElse (trkSessionId req) "" in
    session <- getOrCreate env sessionId ;;
    (* store order info in session *)
    _ <- mutate session (fun s =>
           Session.mk (Session.id s) (Session.createdAt s)
             (mkContext (Some oid)
                (if Js.truthy (trkCustomerInfo req) then trkCustomerInfo req
                 else customerInfo (Session.context s)))
             (Session.messages s)) ;;
    _ <- setSession sessionId session ;;
    trackingInfo <- generateMockTrackingInfo env oid ;;
    ret (mkResponse 200 (TrackBody true oid trackingInfo)).

(** [app.post('/api/track-order')]. *)
Definition trackOrder (env : Env) (req : TrackRequest) (w : World)
  : HttpResponse * World :=
  match trackOrderTry env req w with
  | (inl res, w') => (res, w')
  | (inr _, w') =>
      (mkResponse 500
         (ErrorBody "Failed to track order"
            (Some "Please try again or contact customer support.")), w')
  end.

(** The messages of the session stored under an identifier. *)
Definition storedMessages (w : World) (sessionId : string)
  : option (list Message.t) :=
  match userSessions w !! sessionId with
  | Some l =>
      match heap w !! l with
      | Some s => Some (Session.messages s)
      | None => None
      end
  | None => None
  end.

(** * Vocabulary of the properties *)

(** The test of the filter loop on one document. *)
Definition attributeMatch (color size : option string) (h : Document.t) : bool :=
  hasVariant color size h || okText color size h.

(** A retrieved document that the answer passes over when it looks for
    the one at URL [u]: it has no URL, or it has another URL and neither
    a variant nor a text for the requested color and size. *)
Definition passedOver (color size : option string) (u : string)
    (p : Document.t) : bool :=
  negb (Js.truthy (Document.url p)) ||
  (negb (String.eqb (Js.orElse (Document.url p) "") u)
   && negb (attributeMatch color size p)).

(** The five disclaimer templates. *)
Definition disclaimers : list string :=
  [orderDisclaimer; refundDisclaimer; returnDisclaimer; paymentDisclaimer;
   genericDisclaimer].

(** Every stored identifier points to a session object. *)
Definition wfWorld (w : World) : Prop :=
  forall sid l, userSessions w !! sid = Some l -> l < length (heap w).

(** The [n]-th run of the search script exits with code 0 and prints the
    JSON value [raw]. *)
Definition searchYields (env : Env) (n : nat) (query : string) (raw : Json)
  : Prop :=
  exitCode (runSearch env n query 5) = 0%Z /\
  parsed (runSearch env n query 5) = inl raw.

(** The [n]-th run of the search script fails: a non-zero exit code, or an
    output that [JSON.parse] rejects. *)
Definition searchFails (env : Env) (n : nat) (query : string) : Prop :=
  exitCode (runSearch env n query 5) <> 0%Z \/
  exists msg, parsed (runSearch env n query 5) = inr msg.

(** The world after one more call of [searchKnowledgeBase]. *)
Definition logSearch (w : World) (query : string) : World :=
  mkWorld (heap w) (userSessions w) (searchLog w ++ [(query, 5)])
    (clockReads w) (randomDraws w).

(** Two worlds with the same session objects, the same store and the same
    clock. *)
Definition sameStore (w1 w2 : World) : Prop :=
  heap w2 = heap w1 /\ userSessions w2 = userSessions w1 /\
  clockReads w2 = clockReads w1.

(** The session address and the world once the user message is pushed. *)
Definition entered (env : Env) (sessionId message : string) (w : World)
  : nat * World :=
  match userSessions w !! sessionId with
  | Some l =>
      (l, mkWorld
            (alter (fun s => Session.mk (Session.id s) (Session.createdAt s)
                               (Session.context s)
                               (Session.messages s ++
                                  [Message.mk user message (now env (clockReads w)) None]))
               l (heap w))
            (userSessions w) (searchLog w) (S (clockReads w)) (randomDraws w))
  | None =>
      (length (heap w),
       mkWorld
         (heap w ++
            [Session.mk sessionId (now env (clockReads w)) (mkContext None None)
               [Message.mk user message (now env (S (clockReads w))) None]])
         (userSessions w) (searchLog w) (S (S (clockReads w))) (randomDraws w))
  end.

(** The world once the assistant message is pushed and the session is
    stored. *)
Definition answered (env : Env) (sessionId : string) (session : nat)
    (response : string) (normResults : list Document.t) (w : World) : World :=
  mkWorld
    (alter (fun s => Session.mk (Session.id s) (Session.createdAt s)
                       (Session.context s)
                       (Session.messages s ++
                          [Message.mk assistant response (now env (clockReads w))
                             (Some (map toSource normResults))]))
       session (heap w))
    (<[sessionId := session]> (userSessions w)) (searchLog w)
    (S (clockReads w)) (randomDraws w).

(** The first reply of the [try] block of the chat handler, which the
    second half overwrites. *)
Definition firstHalf (env : Env) (message : string) (session : nat) : M string :=
  if isOrderTrackingQuery message
  then handleOrderTracking env message session
  else (searchResults <- searchKnowledgeBase env message 5 ;;
        ret (generateResponse message searchResults)).

(** The rest of the [try] block: the search in its own [try], then the
    reply, the session update and the answer. *)
Definition secondHalf (env : Env) (message sessionId : string) (session : nat)
  : M HttpResponse :=
  caught <- tryCatch
              (rawResults <- searchKnowledgeBase env message 5 ;;
               ret (Some rawResults))
              (fun _ => ret None) ;;
  match caught with
  | None => ret (mkResponse 200 (ChatBody searchTrouble sessionId None))
  | Some rawResults =>
      let normResults := arrayOrEmpty rawResults in
      let response := generateResponse message (JArray normResults) in
      t' <- readClock env ;;
      _ <- pushMessage session
             (Message.mk assistant response t'
                (Some (map toSource normResults))) ;;
      _ <- setSession sessionId session ;;
      ret (mkResponse 200
             (ChatBody response sessionId
                (Some (map toSource (firstn 3 normResults)))))
  end.

(** The answer of the outer [catch]. *)
Definition internalError : HttpResponse :=
  mkResponse 500
    (ErrorBody "Internal server error"
       (Some "Failed to process your message. Please try again.")).

Definition chatRequest (message sessionId : string) : ChatRequest :=
  mkChatRequest (Some message) (Some sessionId).

(** An environment in which every run of the search script ends well. *)
Definition healthy (env : Env) : Prop :=
  forall n query, exists raw, searchYields env n query raw.

(** The world after a sequence of turns of one session, each turn
    answered before the next request arrives. *)
Fixpoint turns (env : Env) (sessionId : string) (msgs : list string)
    (w : World) : World :=
  match msgs with
  | [] => w
  | m :: rest =>
      turns env sessionId rest (snd (chat env (chatRequest m sessionId) w))
  end.

(** The roles of the messages of [n] turns. *)
Fixpoint turnRoles (n : nat) : list Role :=
  match n with
  | O => []
  | S n' => user :: assistant :: turnRoles n'
  end.

(** ** Sample data *)

Definition hoodieQuestion : string :=
  "What is the price of the blue hoodie in size M?".

Definition blue : option string := Some "blue".
Definition sizeM : option string := Some "m".

(** The intent flags of the hoodie question: price and options. *)
Definition hoodieIntents : Intents :=
  mkIntents true false false true false false false false.

Definition hoodieVariant : Variant.t :=
  Variant.mk (Some "blue") (Some "m") (Some "$40") None (Some true) None None.

Definition hoodie : Document.t :=
  Document.mk (Some "Soft cotton hoodie") (Some "Classic Hoodie")
    (Some "https://shop.example/products/hoodie") (Some (9 # 10))
    (Some (ProductInfo.mk (Some "$40") None None None None None
             (Some [hoodieVariant]) None)).

Definition hoodieNoUrl : Document.t :=
  Document.mk (Document.text hoodie) (Document.title hoodie) None
    (Document.score hoodie) (Document.product_info hoodie).

Definition hoodieEmptyUrl : Document.t :=
  Document.mk (Document.text hoodie) (Document.title hoodie) (Some "")
    (Document.score hoodie) (Document.product_info hoodie).

Definition mug : Document.t :=
  Document.mk (Some "A ceramic mug") (Some "Mug")
    (Some "https://shop.example/products/mug") (Some (1 # 2)) None.

Definition scarf : Document.t :=
  Document.mk (Some "Blue merino scarf, medium weight") (Some "Wool scarf")
    (Some "https://shop.example/products/scarf") (Some (19 # 20)) None.

Definition fourDocs : list Document.t :=
  [hoodie; mug; hoodieNoUrl; hoodieEmptyUrl].

Definition sampleClock (n : nat) : Timestamp :=
  (1700000000000 + Z.of_nat n)%Z.

(** An environment whose searches all end well with the given documents. *)
Definition searchReturns (docs : list Document.t) : Env :=
  mkEnv (fun _ _ _ => mkProc 0 (inl (JArray docs)) "") sampleClock (fun _ => 0).

Definition searchFailure : ProcResult :=
  mkProc 1 (inr "Unexpected end of JSON input") "No module named faiss".

(** An environment whose searches all exit with code 1. *)
Definition searchDown : Env :=
  mkEnv (fun _ _ _ => searchFailure) sampleClock (fun _ => 0).

(** An environment in which only the first search of the server's life
    ends well. *)
Definition searchOnce : Env :=
  mkEnv (fun n _ _ =>
           if Nat.eqb n 0 then mkProc 0 (inl (JArray [])) "" else searchFailure)
    sampleClock (fun _ => 0).

(** * The chat widget

    The class [AIAssistantWidget] of the widget script.  Of the page only
    what [sendMessage], [addMessage] and [showTyping] read and write is
    kept: the value of the input, the flag of the send button, the typing
    indicator and the message elements appended to the messages
    container.  The answer of [fetch] and the clock are given from
    outside; a send runs without another one in between. *)

Module Widget.

(** A source as the widget reads it: [source.url] and [source.title]. *)
Record Source := mkSource {
  title : option string;
  url : option string }.

(** An element of [this.messages]. *)
Record Entry := mkEntry {
  role : Role;
  content : string;
  sources : list Source;
  timestamp : Timestamp }.

(** The JSON body of an answer: [data.response] and [data.sources]. *)
Record Data := mkData {
  response : option string;
  dataSources : option (list Source) }.

(** What [fetch] and [response.json()] give: a rejected promise, or a
    status with the parsed body ([None] when [json()] rejects). *)
Inductive Fetched :=
  | NetworkError
  | Answered (status : nat) (json : option Data).

(** The call of [fetch]: the URL and the body
    [JSON.stringify({message, sessionId})]. *)
Record Request := mkRequest {
  target : string;
  payload : ChatRequest }.

(** A message element: its class name and its [innerHTML]. *)
Record Bubble := mkBubble {
  className : string;
  innerHTML : string }.

Record State := mkState {
  sessionId : string;
  apiUrl : string;
  apiBaseUrl : option string;
  messages : list Entry;
  inputValue : string;
  sendDisabled : bool;
  typingShown : bool;
  bubbles : list Bubble;
  clock : nat }.

(** [s.substr(start, len)]. *)
Fixpoint drop (n : nat) (s : string) : string :=
  match n, s with
  | O, _ => s
  | S _, EmptyString => EmptyString
  | S n', String _ s' => drop n' s'
  end.

Definition substr (start len : nat) (s : string) : string :=
  Js.take len (drop start s).

(** [generateSessionId]: [random36] is the text of
    [Math.random().toString(36)], [nowText] the text of [Date.now()]. *)
Definition generateSessionId (random36 nowText : string) : string :=
  "session_" +:+ substr 2 9 random36 +:+ "_" +:+ nowText.

(** What the constructor sets before [init]: [apiBaseUrl] is not
    assigned. *)
Definition construct (random36 nowText : string) : State :=
  mkState (generateSessionId random36 nowText) "/api/chat" None [] "" false
    false [] 0.

(** A value inside a template literal. *)
Definition interpolate (o : option string) : string :=
  match o with Some s => s | None => "undefined" end.

(** [content.replace(/\n/g, '<br>')]. *)
Fixpoint breakLines (s : string) : string :=
  match s with
  | EmptyString => EmptyString
  | String c s' =>
      if Ascii.eqb c (ascii_of_N 10) then "<br>" +:+ breakLines s'
      else String c (breakLines s')
  end.

Definition roleName (r : Role) : string :=
  match r with user => "user" | assistant => "assistant" end.

(** The double quote of the HTML attributes. *)
Definition dq : string := String (ascii_of_N 34) EmptyString.

Fixpoint spaces (n : nat) : string :=
  match n with
  | O => EmptyString
  | S n' => String (ascii_of_N 32) (spaces n')
  end.

(** The anchor of one source. *)
Definition sourceLink (source : Source) : string :=
  "<a href=" +:+ dq +:+ interpolate (url source) +:+ dq
  +:+ " target=" +:+ dq +:+ "_blank" +:+ dq
  +:+ " class=" +:+ dq +:+ "ai-widget-source" +:+ dq +:+ ">"
  +:+ interpolate (title source) +:+ "</a>".

Definition sourcesHtml (sources : list Source) : string :=
  if Nat.ltb 0 (length sources) then
    "<div class=" +:+ dq +:+ "ai-widget-sources" +:+ dq +:+ ">Sources:<br>"
    +:+ Js.join "" (map sourceLink sources) +:+ "</div>"
  else "".

(** The template assigned to [messageDiv.innerHTML]. *)
Definition messageHtml (text : string) (sources : list Source) : string :=
  Js.nl +:+ spaces 16
  +:+ "<div class=" +:+ dq +:+ "ai-widget-message-content" +:+ dq +:+ ">"
  +:+ Js.nl +:+ spaces 20 +:+ breakLines text
  +:+ Js.nl +:+ spaces 20 +:+ sourcesHtml sources
  +:+ Js.nl +:+ spaces 16 +:+ "</div>"
  +:+ Js.nl +:+ spaces 12.

(** [addMessage(role, content, sources = [])]; [None] is the [TypeError]
    of [content.replace] when [content] is not there, thrown before
    anything is appended. *)
Definition addMessage (now : nat -> Timestamp) (r : Role)
    (content : option string) (sources : option (list Source)) (st : State)
  : option State :=
  match content with
  | None => None
  | Some text =>
      let sources := default [] sources in
      let messageDiv :=
        mkBubble ("ai-widget-message " +:+ roleName r) (messageHtml text sources) in
      Some (mkState (sessionId st) (apiUrl st) (apiBaseUrl st)
              (messages st ++ [mkEntry r text sources (now (clock st))])
              (inputValue st) (sendDisabled st) (typingShown st)
              (bubbles st ++ [messageDiv]) (S (clock st)))
  end.

(** [showTyping(show)]. *)
Definition showTyping (show : bool) (st : State) : State :=
  mkState (sessionId st) (apiUrl st) (apiBaseUrl st) (messages st)
    (inputValue st) (sendDisabled st) show (bubbles st) (clock st).

Definition fallbackText : string :=
  "I'm sorry, I'm having trouble connecting right now. Please try again in a moment.".

(** [response.ok]. *)
Definition ok (status : nat) : bool := Nat.leb 200 status && Nat.leb status 299.

(** The [catch] of [sendMessage]. *)
Definition connectionTrouble (now : nat -> Timestamp) (st : State) : State :=
  match addMessage now assistant (Some fallbackText) None st with
  | Some st' => st'
  | None => st
  end.

(** [sendMessage]: the new state and the request made, if any. *)
Definition sendMessage (now : nat -> Timestamp) (fetch : Request -> Fetched)
    (st : State) : State * option Request :=
  let message := Js.trim (inputValue st) in
  if String.eqb message "" then (st, None)
  else
    (* add user message to UI *)
    let st :=
      match addMessage now user (Some message) None st with
      | Some st' => st'
      | None => st
      end in
    let st :=
      mkState (sessionId st) (apiUrl st) (apiBaseUrl st) (messages st)
        "" true (typingShown st) (bubbles st) (clock st) in
    (* show typing indicator *)
    let st := showTyping true st in
    let request :=
      mkRequest (interpolate (apiBaseUrl st))
        (mkChatRequest (Some message) (Some (sessionId st))) in
    let st :=
      match fetch request with
      | NetworkError => connectionTrouble now st
      | Answered status json =>
          if ok status then
            match json with
            | Some data =>
                (* add assistant response to UI *)
                match addMessage now assistant (response data) (dataSources data) st with
                | Some st' => st'
                | None => connectionTrouble now st
                end
            | None => connectionTrouble now st
            end
          else connectionTrouble now st
      end in
    (showTyping false st, Some request).

(** The listener of the [input] event, after the edit gave [value]. *)
Definition onInput (value : string) (st : State) : State :=
  mkState (sessionId st) (apiUrl st) (apiBaseUrl st) (messages st)
    value (String.eqb (Js.trim value) "") (typingShown st) (bubbles st)
    (clock st).

End Widget.

(** * More vocabulary *)

(** The session object stored under an identifier. *)
Definition storedSession (w : World) (sessionId : string) : option Session.t :=
  match userSessions w !! sessionId with
  | Some l => heap w !! l
  | None => None
  end.

(** No two identifiers share a session object. *)
Definition distinctSessions (w : World) : Prop :=
  forall a b l,
    userSessions w !! a = Some l -> userSessions w !! b = Some l -> a = b.

(** The store as the handlers keep it. *)
Definition goodStore (w : World) : Prop := wfWorld w /\ distinctSessions w.

(** The session address that a handler works on, and the world once it
    has it. *)
Definition located (env : Env) (sessionId : string) (w : World) : nat * World :=
  match userSessions w !! sessionId with
  | Some l => (l, w)
  | None =>
      (length (heap w),
       mkWorld
         (heap w ++
            [Session.mk sessionId (now env (clockReads w)) (mkContext None None) []])
         (userSessions w) (searchLog w) (S (clockReads w)) (randomDraws w))
  end.

(** The context that [/api/track-order] leaves in the session. *)
Definition trackedContext (req : TrackRequest) (s : Session.t) : Context :=
  mkContext (Some (Js.orElse (trkOrderId req) ""))
    (if Js.truthy (trkCustomerInfo req) then trkCustomerInfo req
     else customerInfo (Session.context s)).

(** The world that a complete [/api/track-order] request leaves. *)
Definition tracked (env : Env) (req : TrackRequest) (w : World) : World :=
  let sessionId := Js.orElse (trkSessionId req) "" in
  let l := fst (located env sessionId w) in
  let w1 := snd (located env sessionId w) in
  mkWorld
    (alter (fun s => Session.mk (Session.id s) (Session.createdAt s)
                       (trackedContext req s) (Session.messages s))
       l (heap w1))
    (<[sessionId := l]> (userSessions w1)) (searchLog w1) (clockReads w1)
    (S (randomDraws w1)).

(** The status line of [handleOrderTracking]. *)
Definition statusLine (oid : string) (info : TrackingInfo) : string :=
  "Your order " +:+ oid +:+ " status: " +:+ trackStatus info
  +:+ ". " +:+ details info.

(** The successful outcome of one run of the search script. *)
Definition searchResult (env : Env) (n : nat) (query : string) : option Json :=
  let p := runSearch env n query 5 in
  if (exitCode p =? 0)%Z then
    match parsed p with inl raw => Some raw | inr _ => None end
  else None.

(** The number of searches of a turn with a message and a session
    identifier. *)
Definition searchesOfTurn (env : Env) (message : string) (w : World) : nat :=
  if isOrderTrackingQuery message then 1
  else match searchResult env (length (searchLog w)) message with
       | Some _ => 2
       | None => 1
       end.

(** The session with one more message. *)
Definition pushed (m : Message.t) (s : Session.t) : Session.t :=
  Session.mk (Session.id s) (Session.createdAt s) (Session.context s)
    (Session.messages s ++ [m]).

(** An address that only one identifier leads to. *)
Definition owns (w : World) (sessionId : string) (l : nat) : Prop :=
  forall sid, userSessions w !! sid = Some l -> sid = sessionId.

(** The sizes after normalisation. *)
Definition normalSizes : list string := ["xs"; "s"; "m"; "l"; "xl"; "xxl"].

(** The longest reply to a message that is neither personalized nor about
    a product. *)
Definition generalReplyBound : nat := 1020.

Definition trackA1001 : TrackRequest :=
  mkTrackRequest (Some "A-1001") (Some "s1") None.

(** What the widget shows of an answer of [fetch]: the reply and its
    sources when the answer is usable, the apology otherwise. *)
Definition shown (f : Widget.Fetched) : string * list Widget.Source :=
  match f with
  | Widget.Answered status (Some data) =>
      if Widget.ok status then
        match Widget.response data with
        | Some reply => (reply, default [] (Widget.dataSources data))
        | None => (Widget.fallbackText, [])
        end
      else (Widget.fallbackText, [])
  | _ => (Widget.fallbackText, [])
  end.

(** Closes a goal of the form [exists added, f lines = lines ++ added] by
    cases on the tests of [f]. *)
Ltac appends_by_cases :=
  repeat match goal with
         | |- context [match ?x with _ => _ end] => destruct x
         end;
  solve [ eexists; rewrite <- ?app_assoc; reflexivity
        | exists []; rewrite app_nil_r; reflexivity ].

(** The widget after each value of a list is typed and sent in turn, the
    answer of [fetch] being given with each value. *)
Fixpoint typedAndSent (now : nat -> Timestamp)
    (sends : list (string * (Widget.Request -> Widget.Fetched)))
    (st : Widget.State) : Widget.State :=
  match sends with
  | [] => st
  | (value, fetch) :: rest =>
      typedAndSent now rest
        (fst (Widget.sendMessage now fetch (Widget.onInput value st)))
  end.

(** The values of a list that are not blank. *)
Definition nonBlank (sends : list (string * (Widget.Request -> Widget.Fetched)))
  : list string :=
  List.filter (fun v => negb (String.eqb v ""))
    (map (fun p => Js.trim (fst p)) sends).

(** A widget with a question typed in, and answers of [fetch]. *)
Definition sampleWidget : Widget.State :=
  Widget.onInput "  Do you ship abroad?  "
    (Widget.construct "0.4fzyo82mvyr" "1700000000000").

Definition fetchAnswers (reply : string) : Widget.Request -> Widget.Fetched :=
  fun _ => Widget.Answered 200
             (Some (Widget.mkData (Some reply)
                      (Some [Widget.mkSource (Some "Shipping") (Some "https://shop.example/shipping")]))).

Definition fetchBroken : Widget.Request -> Widget.Fetched :=
  fun _ => Widget.Answered 500 None.

(** ** What the attribute filter looks for

    The wording of the filter, stated on the fields of a document and not
    through the tests of the loop. *)

(** One of the variants listed in the [product_info] of the document has
    the requested color and the requested size, the case of the variant's
    own values being ignored; an attribute that is not requested is not
    looked at. *)
Definition requestedVariant (color size : option string) (d : Document.t)
  : Prop :=
  exists pi vs v,
    Document.product_info d = Some pi /\
    ProductInfo.variants pi = Some vs /\
    In v vs /\
    (forall c, color = Some c -> c <> "" ->
       exists vc, Variant.color v = Some vc /\ Js.toLowerCase vc = c) /\
    (forall s, size = Some s -> s <> "" ->
       exists vs', Variant.size v = Some vs' /\ Js.toLowerCase vs' = s).

(** The text of the document, in lower case, contains each requested
    token. *)
Definition requestedText (color size : option string) (d : Document.t)
  : Prop :=
  (forall c, color = Some c -> c <> "" ->
     exists t, Document.text d = Some t /\
       Js.includes (Js.toLowerCase t) c = true) /\
  (forall s, size = Some s -> s <> "" ->
     exists t, Document.text d = Some t /\
       Js.includes (Js.toLowerCase t) s = true).

(** A hoodie that exists in red only, in size M. *)
Definition redHoodie : Document.t :=
  Document.mk (Some "Red cotton hoodie") (Some "Red Hoodie")
    (Some "https://shop.example/products/red-hoodie") (Some (4 # 5))
    (Some (ProductInfo.mk (Some "$42") None None None None None
             (Some [Variant.mk (Some "Red") (Some "M") (Some "$42") None
                      (Some true) None None]) None)).

(** ** What the caller receives of a source *)

(** [JSON.stringify] on an object, as [res.json] applies it: a property
    whose value is [undefined] is left out. *)
Definition stringified (o : JsObject) : JsObject :=
  List.filter
    (fun kv => match snd kv with JUndefined => false | _ => true end) o.

(** ** The chat handler between its awaits

    The handler of [/api/chat] is suspended while a search runs, and the
    handler of another request can run meanwhile.  A request under way
    is at one of three points: arrived; suspended at the first [await] of
    the [try] block (on [handleOrderTracking], or on the first search and
    the reply made from it); suspended on the search made in its own
    [try].  What the awaited promise settles to is fixed once the call is
    made (the search subprocess is an oracle), so it is kept with the
    suspended request.  The [await]s on [generateResponse] are not
    separate steps: that function reads and writes nothing of the
    server. *)

Inductive Flight :=
  | Arrived (req : ChatRequest)
  | AwaitsFirst (message sessionId : string) (session : nat)
      (first : string + string)
  | AwaitsSecond (message sessionId : string) (session : nat)
      (second : Json + string)
  | Answered (res : HttpResponse).

(** The handler runs from where it is to its next [await] or to its
    answer. *)
Definition resume (env : Env) (f : Flight) (w : World) : Flight * World :=
  match f with
  | Arrived req =>
      if negb (Js.truthy (reqMessage req)) || negb (Js.truthy (reqSessionId req))
      then (Answered
              (mkResponse 400 (ErrorBody "Message and sessionId are required" None)),
            w)
      else
        let message := Js.orElse (reqMessage req) "" in
        let sessionId := Js.orElse (reqSessionId req) "" in
        let entry := entered env sessionId message w in
        let half := firstHalf env message (fst entry) (snd entry) in
        (AwaitsFirst message sessionId (fst entry) (fst half), snd half)
  | AwaitsFirst message sessionId session first =>
      match first with
      | inr _ => (Answered internalError, w)
      | inl _ =>
          let search := searchKnowledgeBase env message 5 w in
          (AwaitsSecond message sessionId session (fst search), snd search)
      end
  | AwaitsSecond message sessionId session second =>
      match second with
      | inr _ =>
          (Answered (mkResponse 200 (ChatBody searchTrouble sessionId None)), w)
      | inl raw =>
          let normResults := arrayOrEmpty raw in
          let reply := generateResponse message (JArray normResults) in
          (Answered
             (mkResponse 200
                (ChatBody reply sessionId
                   (Some (map toSource (firstn 3 normResults))))),
           answered env sessionId session reply normResults w)
      end
  | Answered res => (Answered res, w)
  end.

(** The requests under way, and the order in which their handlers are
    resumed: [picks] names, step after step, the request that runs. *)
Fixpoint schedule (env : Env) (picks : list nat) (pool : list Flight)
    (w : World) : list Flight * World :=
  match picks with
  | [] => (pool, w)
  | i :: rest =>
      match pool !! i with
      | Some f =>
          schedule env rest (<[i := fst (resume env f w)]> pool)
            (snd (resume env f w))
      | None => schedule env rest pool w
      end
  end.

(** A request handled alone, from its arrival to its answer. *)
Definition alone (env : Env) (req : ChatRequest) (w : World)
  : list Flight * World :=
  schedule env [0; 0; 0] [Arrived req] w.


(** A session object that was only appended to. *)
Definition extends (s s' : Session.t) : Prop :=
  Session.id s' = Session.id s /\
  Session.createdAt s' = Session.createdAt s /\
  Session.context s' = Session.context s /\
  exists more, Session.messages s' = Session.messages s ++ more.

(** Every session object of the first world is in the second, at the
    same address, and was only appended to. *)
Definition grown (w w' : World) : Prop :=
  forall l s, heap w !! l = Some s ->
    exists s', heap w' !! l = Some s' /\ extends s s'.

(** * Properties *)

(** ** Strings *)

Lemma append_cons (c : ascii) (a b : string) :
  String c a +:+ b = String c (a +:+ b).
Proof. reflexivity. Qed.

Lemma append_assoc (a b c : string) : (a +:+ b) +:+ c = a +:+ (b +:+ c).
Proof.
  induction a as [|x a IH]; [reflexivity | now rewrite !append_cons, IH].
Qed.

Lemma join_cons2 (sep x y : string) (l : list string) :
  Js.join sep (x :: y :: l) = x +:+ sep +:+ Js.join sep (y :: l).
Proof. reflexivity. Qed.

Lemma join_snoc (sep : string) (l : list string) (x y : string) :
  Js.join sep ((x :: l) ++ [y]) = Js.join sep (x :: l) +:+ sep +:+ y.
Proof.
  revert x. induction l as [|z l IH]; intros x.
  - reflexivity.
  - change (Js.join sep (x :: ((z :: l) ++ [y]))
            = Js.join sep (x :: z :: l) +:+ sep +:+ y).
    change ((z :: l) ++ [y]) with (z :: (l ++ [y])) at 1.
    rewrite !join_cons2. change (z :: (l ++ [y])) with ((z :: l) ++ [y]).
    rewrite IH, !append_assoc. reflexivity.
Qed.

Lemma truthy_Some (s : string) : s <> "" -> Js.truthy (Some s) = true.
Proof.
  intros H. simpl. destruct (String.eqb_spec s ""); [contradiction | reflexivity].
Qed.

Lemma orElse_Some (s d : string) : s <> "" -> Js.orElse (Some s) d = s.
Proof.
  intros H. simpl. destruct (String.eqb_spec s ""); [contradiction | reflexivity].
Qed.

Example classify_track_my_order :
  isOrderTrackingQuery "Track my order" = true /\
  isPersonalizedQuery "Track my order" = true /\
  isProductQuery "Track my order" = false.
Proof. repeat split; reflexivity. Qed.

Example size_is_a_whole_word :
  sizeOf "what is the price of the blue hoodie in size m?" = Some "m" /\
  sizeOf "a medium mug" = Some "m" /\
  sizeOf "some mugs" = None.
Proof. repeat split; reflexivity. Qed.

Lemma hoodieQuestion_parsed :
  intentsOf (Js.toLowerCase hoodieQuestion) = hoodieIntents /\
  colorOf (Js.toLowerCase hoodieQuestion) = blue /\
  sizeOf (Js.toLowerCase hoodieQuestion) = sizeM.
Proof. repeat split; vm_compute; reflexivity. Qed.

Lemma hoodieQuestion_routed :
  isOrderTrackingQuery hoodieQuestion = false /\
  isPersonalizedQuery hoodieQuestion = false /\
  isProductQuery hoodieQuestion = true.
Proof. repeat split; vm_compute; reflexivity. Qed.

(** ** The attribute filter *)

Lemma filterLoop_filter color size hits pick :
  filterLoop color size hits pick
  = pick ++ List.filter (attributeMatch color size) hits.
Proof.
  revert pick. induction hits as [|h rest IH]; intros pick; simpl.
  - now rewrite app_nil_r.
  - unfold attributeMatch at 1.
    destruct (hasVariant color size h || okText color size h).
    + rewrite IH, <- app_assoc. reflexivity.
    + apply IH.
Qed.

Lemma filter_sublist {A} (f : A -> bool) (l : list A) :
  sublist (List.filter f l) l.
Proof.
  induction l as [|x l IH]; simpl.
  - constructor.
  - destruct (f x); [apply sublist_skip | apply sublist_cons]; exact IH.
Qed.

Lemma filter_none {A} (f : A -> bool) (l : list A) :
  Forall (fun x => f x = false) l -> List.filter f l = [].
Proof.
  induction 1 as [|x l Hx _ IH]; simpl; [reflexivity | now rewrite Hx].
Qed.

(** A variant passes the test when, for each requested attribute, its
    own value in lower case is the requested one. *)
Lemma variantMatches_requested (c s : string) (v : Variant.t) :
  c <> "" -> s <> "" ->
  variantMatches (Some c) (Some s) v = true <->
  Js.toLowerCase (Js.orElse (Variant.color v) "") = c /\
  Js.toLowerCase (Js.orElse (Variant.size v) "") = s.
Proof.
  intros Hc Hs. unfold variantMatches, unlessAbsent.
  destruct (String.eqb_spec c ""); [contradiction|].
  destruct (String.eqb_spec s ""); [contradiction|].
  rewrite andb_true_iff, !String.eqb_eq. reflexivity.
Qed.

(** A document has a matching variant exactly when one of its variants
    passes the test. *)
Lemma hasVariant_iff color size h :
  hasVariant color size h = true <->
  exists v, In v (variantsOf h) /\ variantMatches color size v = true.
Proof.
  unfold hasVariant, Js.some. rewrite existsb_exists. reflexivity.
Qed.

(** The text of a document passes the test when it contains each
    requested token, in lower case. *)
Lemma okText_requested (c s : string) (h : Document.t) :
  c <> "" -> s <> "" ->
  okText (Some c) (Some s) h
  = Js.includes (Js.toLowerCase (Js.orElse (Document.text h) "")) c
    && Js.includes (Js.toLowerCase (Js.orElse (Document.text h) "")) s.
Proof.
  intros Hc Hs. unfold okText, unlessAbsent.
  destruct (String.eqb_spec c ""); [contradiction|].
  destruct (String.eqb_spec s ""); [contradiction|].
  reflexivity.
Qed.

Lemma find_hasVariant color size d v :
  List.find (variantMatches color size) (variantsOf d) = Some v ->
  attributeMatch color size d = true.
Proof.
  intros H. apply List.find_some in H as [Hin Hv].
  unfold attributeMatch. apply orb_true_iff. left.
  apply hasVariant_iff. eauto.
Qed.

(** An attribute that is requested is one that is there and not empty. *)
Lemma unlessAbsent_iff (attr : option string) (test : string -> bool) :
  unlessAbsent attr test = true <->
  (forall a, attr = Some a -> a <> "" -> test a = true).
Proof.
  unfold unlessAbsent. destruct attr as [a|].
  - destruct (String.eqb_spec a "") as [E|E].
    + split; [intros _ a' [= <-] Hne; contradiction | reflexivity].
    + split; [intros H a' [= <-] _; exact H | intros H; apply H; auto].
  - split; [intros _ a [=] | reflexivity].
Qed.

(** [(x || '').toLowerCase() === c] for a token [c] that is not empty. *)
Lemma lower_is_token (o : option string) (c : string) :
  c <> "" ->
  String.eqb (Js.toLowerCase (Js.orElse o "")) c = true <->
  exists x, o = Some x /\ Js.toLowerCase x = c.
Proof.
  intros Hc. rewrite String.eqb_eq. unfold Js.orElse.
  destruct o as [x|].
  - destruct (String.eqb_spec x "") as [->|_].
    + split; [intros H; simpl in H; congruence|].
      intros (x & [= <-] & H). exact H.
    + split; [eauto | intros (x' & [= <-] & H); exact H].
  - split; [intros H; simpl in H; congruence | intros (x & [=] & _)].
Qed.

(** [(x || '').toLowerCase().includes(c)] for a token [c] that is not
    empty. *)
Lemma lower_has_token (o : option string) (c : string) :
  c <> "" ->
  Js.includes (Js.toLowerCase (Js.orElse o "")) c = true <->
  exists t, o = Some t /\ Js.includes (Js.toLowerCase t) c = true.
Proof.
  intros Hc.
  assert (Hempty : Js.includes "" c = false).
  { destruct c; [contradiction | reflexivity]. }
  unfold Js.orElse. destruct o as [x|].
  - destruct (String.eqb_spec x "") as [->|_].
    + split; [intros H; simpl Js.toLowerCase in H; congruence|].
      intros (x & [= <-] & H). exact H.
    + split; [eauto | intros (x' & [= <-] & H); exact H].
  - split; [intros H; simpl Js.toLowerCase in H; congruence
           | intros (x & [=] & _)].
Qed.

(** The test on a variant, on the fields of the variant. *)
Lemma variantMatches_iff (color size : option string) (v : Variant.t) :
  variantMatches color size v = true <->
  (forall c, color = Some c -> c <> "" ->
     exists vc, Variant.color v = Some vc /\ Js.toLowerCase vc = c) /\
  (forall s, size = Some s -> s <> "" ->
     exists vs, Variant.size v = Some vs /\ Js.toLowerCase vs = s).
Proof.
  unfold variantMatches. rewrite andb_true_iff, !unlessAbsent_iff.
  split; intros [Hc Hs]; split; intros a Ha Hne.
  - apply lower_is_token; auto.
  - apply lower_is_token; auto.
  - apply lower_is_token; auto.
  - apply lower_is_token; auto.
Qed.

(** The variants the loop looks at are those listed in the
    [product_info] of the document. *)
Lemma variantsOf_In (h : Document.t) (v : Variant.t) :
  In v (variantsOf h) <->
  exists pi vs,
    Document.product_info h = Some pi /\ ProductInfo.variants pi = Some vs /\
    In v vs.
Proof.
  unfold variantsOf.
  destruct (Document.product_info h) as [pi|]; simpl.
  - destruct (ProductInfo.variants pi) as [vs|] eqn:E; simpl.
    + split; [eauto|]. intros (pi' & vs' & [= <-] & E' & Hin).
      rewrite E in E'. injection E' as <-. exact Hin.
    + split; [contradiction|]. intros (pi' & vs' & [= <-] & E' & _).
      rewrite E in E'. discriminate.
  - split; [contradiction|]. intros (pi' & vs' & [=] & _).
Qed.

(** The test of the loop, on the fields of the document. *)
Lemma attributeMatch_iff (color size : option string) (d : Document.t) :
  attributeMatch color size d = true <->
  requestedVariant color size d \/ requestedText color size d.
Proof.
  unfold attributeMatch. rewrite orb_true_iff.
  assert (Hv : hasVariant color size d = true <-> requestedVariant color size d).
  { rewrite hasVariant_iff. unfold requestedVariant. split.
    - intros (v & Hin & Hv).
      apply variantsOf_In in Hin as (pi & vs & Hpi & Hvs & Hin).
      apply variantMatches_iff in Hv as [Hc Hs].
      exists pi, vs, v. auto.
    - intros (pi & vs & v & Hpi & Hvs & Hin & Hc & Hs).
      exists v. split.
      + apply variantsOf_In. eauto.
      + apply variantMatches_iff. auto. }
  assert (Ht : okText color size d = true <-> requestedText color size d).
  { unfold okText, requestedText. cbv zeta.
    rewrite andb_true_iff, !unlessAbsent_iff.
    split; intros [Hc Hs]; split; intros a Ha Hne;
      apply lower_has_token; auto. }
  tauto.
Qed.

(** C7: [filterByAttributes] on a non-empty list returns the list itself
    when neither a color nor a size is requested; otherwise the
    subsequence of the documents that pass the test of the loop, or the
    whole list when that subsequence is empty; the result is never empty.
    A document passes the test exactly when one of the variants of its
    [product_info] has the requested color and size (its own values
    taken in lower case), or its text in lower case contains each
    requested token. *)
Theorem filterByAttributes_spec (hits : list Document.t)
    (color size : option string) :
  hits <> [] ->
  (Js.truthy color = false -> Js.truthy size = false ->
     filterByAttributes hits color size = hits) /\
  (Js.truthy color = true \/ Js.truthy size = true ->
     let sub := List.filter (attributeMatch color size) hits in
     sublist sub hits /\
     (forall d, In d sub <->
        In d hits /\
        (requestedVariant color size d \/ requestedText color size d)) /\
     filterByAttributes hits color size
     = match sub with [] => hits | _ :: _ => sub end) /\
  (forall d, attributeMatch color size d = true <->
     requestedVariant color size d \/ requestedText color size d) /\
  filterByAttributes hits color size <> [].
Proof.
  intros Hne. unfold filterByAttributes.
  rewrite filterLoop_filter. simpl app.
  split; [|split; [|split]].
  - intros -> ->. reflexivity.
  - intros Hreq. split; [apply filter_sublist|]. split.
    + intros d. rewrite filter_In, attributeMatch_iff. reflexivity.
    + destruct Hreq as [-> | ->]; simpl; [reflexivity|].
      now rewrite andb_false_r.
  - apply attributeMatch_iff.
  - destruct (negb (Js.truthy color) && negb (Js.truthy size)); [exact Hne|].
    destruct (List.filter (attributeMatch color size) hits); [exact Hne | discriminate].
Qed.

Lemma filterByAttributes_spec_witness :
  filterByAttributes [redHoodie; scarf; hoodie; mug] blue sizeM
  = [scarf; hoodie] /\
  requestedText blue sizeM scarf /\
  requestedVariant blue sizeM hoodie /\
  ~ (requestedVariant blue sizeM redHoodie \/ requestedText blue sizeM redHoodie) /\
  filterByAttributes [mug; scarf] None None = [mug; scarf] /\
  filterByAttributes [mug; redHoodie] blue sizeM = [mug; redHoodie] /\
  filterByAttributes [redHoodie; scarf; hoodie; mug] blue sizeM <> [].
Proof.
  destruct (filterByAttributes_spec [redHoodie; scarf; hoodie; mug] blue sizeM)
    as (_ & Hsub & Htest & Hne); [discriminate|].
  destruct (filterByAttributes_spec [mug; scarf] None None)
    as (Hall & _ & _); [discriminate|].
  destruct (filterByAttributes_spec [mug; redHoodie] blue sizeM)
    as (_ & Hback & _); [discriminate|].
  destruct Hsub as (_ & Hin & Heq); [left; reflexivity|].
  split; [exact Heq|]. split; [|split; [|split; [|split; [|split]]]].
  - destruct (proj1 (Htest scarf) eq_refl) as [(pi & _ & _ & [=] & _) | Ht].
    exact Ht.
  - destruct (proj1 (Htest hoodie) eq_refl) as [Hv | [Hc _]]; [exact Hv|].
    destruct (Hc "blue" eq_refl) as (t & [= <-] & Hno); discriminate.
  - intros H. apply Htest in H. discriminate.
  - apply Hall; reflexivity.
  - destruct Hback as (_ & _ & ->); [left; reflexivity | reflexivity].
  - exact Hne.
Defined.

(** ** URL de-duplication *)

Lemma dedupeLoop_acc hits seen out :
  dedupeLoop hits seen out = out ++ dedupeLoop hits seen [].
Proof.
  revert seen out. induction hits as [|h rest IH]; intros seen out; simpl.
  - now rewrite app_nil_r.
  - destruct (Document.url h) as [u|]; [|apply IH].
    destruct (negb (String.eqb u "") && negb (bool_decide (u ∈ seen)));
      [|apply IH].
    rewrite IH, (IH _ ([] ++ [h])), <- app_assoc. reflexivity.
Qed.

Lemma dedupeLoop_skip h rest seen out :
  Js.truthy (Document.url h) = false ->
  dedupeLoop (h :: rest) seen out = dedupeLoop rest seen out.
Proof.
  intros Hh. simpl. destruct (Document.url h) as [u|]; [|reflexivity].
  simpl in Hh. now rewrite Hh.
Qed.

Lemma dedupeLoop_no_url hits seen out :
  Forall (fun h => Js.truthy (Document.url h) = false) hits ->
  dedupeLoop hits seen out = out.
Proof.
  intros H. revert seen out. induction H as [|h rest Hh _ IH]; intros seen out.
  - reflexivity.
  - rewrite dedupeLoop_skip by exact Hh. apply IH.
Qed.

(** Documents without a URL never reach the filter: the de-duplication
    gives the same result with and without them. *)
Lemma dedupeLoop_drops_no_url hits seen out :
  dedupeLoop hits seen out
  = dedupeLoop (List.filter (fun h => Js.truthy (Document.url h)) hits) seen out.
Proof.
  revert seen out. induction hits as [|h rest IH]; intros seen out.
  - reflexivity.
  - cbn [List.filter]. destruct (Js.truthy (Document.url h)) eqn:Hh.
    + simpl. destruct (Document.url h) as [u|]; [|apply IH].
      destruct (negb (String.eqb u "") && negb (bool_decide (u ∈ seen)));
        apply IH.
    + rewrite dedupeLoop_skip by exact Hh. apply IH.
Qed.

(** Every document that survives the de-duplication has a URL. *)
Lemma dedupeLoop_has_url hits seen out :
  Forall (fun h => Js.truthy (Document.url h) = true) out ->
  Forall (fun h => Js.truthy (Document.url h) = true) (dedupeLoop hits seen out).
Proof.
  revert seen out. induction hits as [|h rest IH]; intros seen out Hout.
  - exact Hout.
  - simpl. destruct (Document.url h) as [u|] eqn:Hu; [|apply IH, Hout].
    destruct (negb (String.eqb u "")) eqn:Hne; simpl; [|apply IH, Hout].
    destruct (bool_decide (u ∈ seen)); simpl; [apply IH, Hout|].
    apply IH, Forall_app. split; [exact Hout|].
    constructor; [|constructor]. rewrite Hu. exact Hne.
Qed.

(** De-duplication keeps the first document at URL [u], after documents
    that all fail the attribute test. *)
Lemma dedupeLoop_reaches color size u pre d post seen :
  Forall (fun p => passedOver color size u p = true) pre ->
  Document.url d = Some u -> u <> "" -> u ∉ seen ->
  exists out rest,
    dedupeLoop (pre ++ d :: post) seen [] = out ++ d :: rest /\
    Forall (fun p => attributeMatch color size p = false) out.
Proof.
  intros Hpre Hd Hu. revert seen.
  induction Hpre as [|p pre Hp _ IH]; intros seen Hseen.
  - exists [], (dedupeLoop post ({[u]} ∪ seen) []). split; [|constructor].
    simpl. rewrite Hd.
    destruct (String.eqb_spec u ""); [contradiction|].
    rewrite bool_decide_eq_false_2 by exact Hseen. simpl.
    now rewrite dedupeLoop_acc.
  - change ((p :: pre) ++ d :: post) with (p :: (pre ++ d :: post)).
    destruct (Js.truthy (Document.url p)) eqn:Hurl.
    + unfold passedOver in Hp. rewrite Hurl in Hp. simpl in Hp.
      apply andb_true_iff in Hp as [Hne Hno].
      apply negb_true_iff in Hne, Hno.
      cbn [dedupeLoop].
      destruct (Document.url p) as [u'|]; [|discriminate].
      simpl in Hurl, Hne.
      destruct (String.eqb u' "") eqn:Hempty; [discriminate|].
      simpl. destruct (bool_decide (u' ∈ seen)); simpl.
      * apply IH, Hseen.
      * destruct (IH ({[u']} ∪ seen)) as (out & rest & E & Hout).
        { apply String.eqb_neq in Hne.
          rewrite elem_of_union, elem_of_singleton.
          intros [Heq | Hin]; [congruence | contradiction]. }
        exists (p :: out), rest. split; [|constructor; assumption].
        rewrite dedupeLoop_acc, E. reflexivity.
    + rewrite dedupeLoop_skip by exact Hurl. apply IH, Hseen.
Qed.

(** ** Product answers *)

(** C10: documents whose [url] is missing or empty are dropped by the
    de-duplication, before filtering and selection; so for a non-empty
    list in which no document has a non-empty [url] the answer is the
    empty string, whatever the product data. *)
Theorem formatProductAnswer_no_url (query : string) (hits : list Document.t) :
  hits <> [] ->
  Forall (fun h => Js.truthy (Document.url h) = false) hits ->
  formatProductAnswer query hits
  = formatProductAnswer query
      (List.filter (fun h => Js.truthy (Document.url h)) hits) /\
  dedupeLoop hits ∅ [] = [] /\
  formatProductAnswer query hits = "".
Proof.
  intros _ H. unfold formatProductAnswer. split; [|split].
  - now rewrite <- dedupeLoop_drops_no_url.
  - apply dedupeLoop_no_url, H.
  - rewrite dedupeLoop_no_url by exact H.
    unfold filterByAttributes.
    destruct (negb _ && negb _); reflexivity.
Qed.

Lemma formatProductAnswer_no_url_witness :
  hasVariant blue sizeM hoodieNoUrl = true /\
  hasVariant blue sizeM hoodieEmptyUrl = true /\
  formatProductAnswer hoodieQuestion [hoodieNoUrl; hoodieEmptyUrl] = "".
Proof.
  split; [reflexivity | split; [reflexivity|]].
  apply (formatProductAnswer_no_url hoodieQuestion [hoodieNoUrl; hoodieEmptyUrl]).
  - discriminate.
  - repeat constructor.
Defined.

(** The answer is built from the first document that has a URL and
    passes the attribute test, when it is among the hits. *)
Lemma formatProductAnswer_picks query pre d post u :
  let lower := Js.toLowerCase query in
  Js.truthy (colorOf lower) = true \/ Js.truthy (sizeOf lower) = true ->
  Forall (fun p => passedOver (colorOf lower) (sizeOf lower) u p = true) pre ->
  Document.url d = Some u -> u <> "" ->
  attributeMatch (colorOf lower) (sizeOf lower) d = true ->
  formatProductAnswer query (pre ++ d :: post)
  = Js.join Js.nl
      (productLines (intentsOf lower) (colorOf lower) (sizeOf lower) d).
Proof.
  intros lower Hreq Hpre Hd Hu Hmatch. unfold formatProductAnswer. fold lower.
  destruct (dedupeLoop_reaches _ _ u pre d post ∅ Hpre Hd Hu) as
    (out & rest & -> & Hout); [apply not_elem_of_empty|].
  unfold filterByAttributes. rewrite filterLoop_filter. simpl app.
  rewrite List.filter_app, (filter_none _ _ Hout). simpl.
  rewrite Hmatch.
  replace (negb (Js.truthy (colorOf lower)) && negb (Js.truthy (sizeOf lower)))
    with false by (destruct Hreq as [-> | ->]; simpl;
                   [reflexivity | now rewrite andb_false_r]).
  reflexivity.
Qed.

(** The lines of the answer to the hoodie question for a document whose
    first blue variant of size m costs $40, is available and has no
    compare-at price. *)
Lemma productLines_hoodie d u v :
  Document.url d = Some u -> u <> "" ->
  List.find (variantMatches blue sizeM) (variantsOf d) = Some v ->
  Variant.price v = Some "$40" ->
  Variant.available v = Some true ->
  Js.trim (Js.orElse (Variant.compare_at_price v) "") = "" ->
  exists options,
    productLines hoodieIntents blue sizeM d
    = (Js.orElse (Document.title d) "Product" :: "Price: $40 (in stock)" :: options)
      ++ ["More details: " +:+ u].
Proof.
  intros Hurl Hu Hfind Hprice Havail Hwas.
  unfold productLines. cbv zeta.
  change (default [] (ProductInfo.variants
            (default ProductInfo.empty (Document.product_info d))))
    with (variantsOf d).
  rewrite Hfind, Hurl, (orElse_Some u "" Hu).
  assert (Hne : variantsOf d <> []) by (intros E; rewrite E in Hfind; discriminate).
  destruct (variantsOf d) as [|v0 vs]; [contradiction|].
  unfold generalPart, weightPart, imagePart, shippingPart, warrantyPart,
    materialsPart, availabilityPart, hoodieIntents.
  cbn [priceIntent availabilityIntent materialIntent optionsIntent
       shippingIntent warrantyIntent imageIntent weightIntent andb orb negb].
  unfold pricePart.
  cbn [priceIntent andb].
  rewrite Hprice, Havail, Hwas.
  rewrite bool_decide_eq_true_2 by eauto.
  cbn [Js.truthy Js.orElse String.eqb Ascii.eqb Bool.eqb negb orb andb isTrue
       nonEmpty].
  unfold optionsPart, pushIf. cbn [optionsIntent].
  repeat match goal with
         | |- context [if ?c then _ else _] => destruct c
         end;
    eexists; apply (f_equal (fun l => l ++ _)); reflexivity.
Qed.

Lemma generateResponse_personalized message results :
  isPersonalizedQuery message = true ->
  generateResponse message results = handlePersonalizedQuery message.
Proof. intros H. unfold generateResponse. now rewrite H. Qed.

Lemma isPersonalizedQuery_truthy (o : option string) :
  isPersonalizedQuery (Js.orElse o "") = true -> Js.truthy o = true.
Proof.
  destruct o as [s|]; simpl; [|discriminate].
  destruct (String.eqb s ""); [discriminate | reflexivity].
Qed.

Lemma handlePersonalizedQuery_template message :
  In (handlePersonalizedQuery message) disclaimers.
Proof.
  unfold handlePersonalizedQuery, disclaimers.
  destruct (_ || _); [now left|].
  destruct (Js.includes _ "refund"); [right; now left|].
  destruct (Js.includes _ "return"); [do 2 right; now left|].
  destruct (Js.includes _ "payment"); [do 3 right; now left|].
  do 4 right. now left.
Qed.

Lemma generateResponse_hoodie pre d post :
  length pre < 3 ->
  generateResponse hoodieQuestion (JArray (pre ++ d :: post))
  = formatProductAnswer hoodieQuestion
      (pre ++ d :: firstn (2 - length pre) post).
Proof.
  intros Hlen. unfold generateResponse.
  destruct hoodieQuestion_routed as (_ & -> & ->).
  simpl arrayOrEmpty.
  rewrite firstn_app, (firstn_all2 pre) by lia.
  replace (3 - length pre) with (S (2 - length pre)) by lia.
  cbn [firstn]. rewrite length_app. cbn [length].
  replace (Nat.eqb (length pre + S (length (take (2 - length pre) post))) 0)
    with false by (symmetry; apply Nat.eqb_neq; lia).
  reflexivity.
Qed.

(** ** The store *)

Lemma wfWorld_initial : wfWorld initialWorld.
Proof. intros sid l H. simpl in H. rewrite lookup_empty in H. discriminate. Qed.

Lemma sameStore_wf w1 w2 : sameStore w1 w2 -> wfWorld w1 -> wfWorld w2.
Proof.
  intros (Hh & Hu & _) Hwf sid l. rewrite Hh, Hu. apply Hwf.
Qed.

Lemma alter_snoc_last {A} (f : A -> A) (l : list A) (x : A) :
  alter f (length l) (l ++ [x]) = l ++ [f x].
Proof.
  induction l as [|y l IH]; [reflexivity|].
  simpl. f_equal. exact IH.
Qed.

(** ** One turn of the chat handler *)

Section Turn.

Variable env : Env.

Lemma searchKnowledgeBase_inv query w :
  (exists raw, searchYields env (length (searchLog w)) query raw /\
     searchKnowledgeBase env query 5 w = (inl raw, logSearch w query)) \/
  (exists err, searchFails env (length (searchLog w)) query /\
     searchKnowledgeBase env query 5 w = (inr err, logSearch w query)).
Proof.
  unfold searchKnowledgeBase, searchYields, searchFails.
  destruct (Z.eqb_spec (exitCode (runSearch env (length (searchLog w)) query 5)) 0)
    as [Hc|Hc].
  - destruct (parsed (runSearch env (length (searchLog w)) query 5)) as [raw|msg].
    + left. eauto.
    + right. eauto.
  - right. eauto.
Qed.

Lemma searchKnowledgeBase_yields query raw w :
  searchYields env (length (searchLog w)) query raw ->
  searchKnowledgeBase env query 5 w = (inl raw, logSearch w query).
Proof.
  intros [Hc Hp]. unfold searchKnowledgeBase. rewrite Hc, Hp. reflexivity.
Qed.

Lemma searchKnowledgeBase_fails query w :
  searchFails env (length (searchLog w)) query ->
  exists err, searchKnowledgeBase env query 5 w = (inr err, logSearch w query).
Proof.
  intros [Hc | [msg Hp]]; unfold searchKnowledgeBase.
  - destruct (Z.eqb_spec (exitCode (runSearch env (length (searchLog w)) query 5)) 0);
      [contradiction | eauto].
  - rewrite Hp. destruct (_ =? _)%Z; eauto.
Qed.

(** Every call of [searchKnowledgeBase] is logged, and changes nothing
    else. *)
Lemma search_logs query w :
  snd (searchKnowledgeBase env query 5 w) = logSearch w query.
Proof.
  destruct (searchKnowledgeBase_inv query w)
    as [(raw & _ & ->) | (err & _ & ->)]; reflexivity.
Qed.

(** Order tracking reads the session and at most draws a random number:
    the heap, the store, the search log and the clock are untouched. *)
Lemma handleOrderTracking_frame message l w :
  let r := handleOrderTracking env message l w in
  sameStore w (snd r) /\ searchLog (snd r) = searchLog w.
Proof.
  unfold handleOrderTracking, bind, deref, generateMockTrackingInfo, bind,
    drawRandom, ret, sameStore.
  destruct (heap w !! l) as [s|]; [|simpl; auto].
  destruct (Js.truthy (orderId (Session.context s))); simpl; auto.
Qed.

Lemma handleOrderTracking_returns message l w :
  is_Some (heap w !! l) ->
  exists r, fst (handleOrderTracking env message l w) = inl r.
Proof.
  intros [s Hs].
  unfold handleOrderTracking, bind, deref, generateMockTrackingInfo, bind,
    drawRandom, ret.
  rewrite Hs. destruct (Js.truthy (orderId (Session.context s))); simpl; eauto.
Qed.

(** Without an order identifier in the session, order tracking asks for
    one and leaves the world as it is. *)
Lemma handleOrderTracking_asks message l w s :
  heap w !! l = Some s ->
  Js.truthy (orderId (Session.context s)) = false ->
  handleOrderTracking env message l w = (inl askForOrderId, w).
Proof.
  intros Hs Ho. unfold handleOrderTracking, bind, deref, ret.
  rewrite Hs, Ho. reflexivity.
Qed.

Lemma entered_spec sessionId message w (k : nat -> M HttpResponse) :
  (session <- getOrCreate env sessionId ;;
   t <- readClock env ;;
   _ <- pushMessage session (Message.mk user message t None) ;;
   k session) w
  = k (fst (entered env sessionId message w))
      (snd (entered env sessionId message w)).
Proof.
  unfold entered, bind, getOrCreate, pushMessage, mutate, readClock, alloc, bind.
  destruct (userSessions w !! sessionId) as [l|]; simpl.
  - reflexivity.
  - rewrite alter_snoc_last. reflexivity.
Qed.

Lemma entered_log sessionId message w :
  searchLog (snd (entered env sessionId message w)) = searchLog w.
Proof. unfold entered. destruct (userSessions w !! sessionId); reflexivity. Qed.

Lemma entered_deref sessionId message w :
  wfWorld w ->
  fst (entered env sessionId message w)
  < length (heap (snd (entered env sessionId message w))).
Proof.
  intros Hwf. unfold entered.
  destruct (userSessions w !! sessionId) as [l|] eqn:Hl; simpl.
  - rewrite length_alter. eapply Hwf, Hl.
  - rewrite length_app. simpl. lia.
Qed.

Lemma entered_wf sessionId message w :
  wfWorld w -> wfWorld (snd (entered env sessionId message w)).
Proof.
  intros Hwf sid l. unfold entered.
  destruct (userSessions w !! sessionId); simpl; intros H.
  - rewrite length_alter. eapply Hwf, H.
  - rewrite length_app. apply Hwf in H. lia.
Qed.

(** The session reached holds what was stored under the identifier,
    followed by the user message, stamped with the last clock reading. *)
Lemma entered_messages sessionId message w :
  wfWorld w ->
  let w1 := snd (entered env sessionId message w) in
  exists s k,
    heap w1 !! fst (entered env sessionId message w) = Some s /\
    clockReads w <= k /\ clockReads w1 = S k /\
    Session.messages s
    = default [] (storedMessages w sessionId)
      ++ [Message.mk user message (now env k) None].
Proof.
  intros Hwf. unfold entered, storedMessages.
  destruct (userSessions w !! sessionId) as [l|] eqn:Hl; simpl.
  - destruct (lookup_lt_is_Some_2 (heap w) l (Hwf _ _ Hl)) as [s Hs].
    rewrite Hs. simpl.
    eexists _, (clockReads w). rewrite list_lookup_alter_eq, Hs. simpl.
    repeat split; reflexivity || lia.
  - eexists _, (S (clockReads w)).
    rewrite lookup_app_r by lia. rewrite Nat.sub_diag. simpl.
    repeat split; reflexivity || lia.
Qed.

Lemma chatTry_valid req w :
  Js.truthy (reqMessage req) = true ->
  Js.truthy (reqSessionId req) = true ->
  let message := Js.orElse (reqMessage req) "" in
  let sessionId := Js.orElse (reqSessionId req) "" in
  let session := fst (entered env sessionId message w) in
  chatTry env req w
  = (_ <- firstHalf env message session ;;
     secondHalf env message sessionId session)
      (snd (entered env sessionId message w)).
Proof.
  intros Hm Hs message sessionId session. unfold chatTry.
  rewrite Hm, Hs. simpl negb. simpl orb. cbv iota.
  exact (entered_spec sessionId message w
           (fun session =>
              _ <- firstHalf env message session ;;
              secondHalf env message sessionId session)).
Qed.

Lemma firstHalf_frame message session w :
  let r := firstHalf env message session w in
  sameStore w (snd r) /\
  searchLog (snd r)
  = searchLog w ++ (if isOrderTrackingQuery message then [] else [(message, 5)]).
Proof.
  unfold firstHalf.
  destruct (isOrderTrackingQuery message).
  - destruct (handleOrderTracking_frame message session w) as [Hsame Hlog].
    cbv zeta. rewrite Hlog, app_nil_r. auto.
  - unfold bind, sameStore.
    destruct (searchKnowledgeBase_inv message w)
      as [(raw & _ & ->) | (err & _ & ->)]; simpl; auto.
Qed.

(** The first half returns when the session object is there and, for a
    message that is not an order-tracking one, its search ends well. *)
Lemma firstHalf_returns message session w :
  session < length (heap w) ->
  (isOrderTrackingQuery message = false ->
     exists r0, searchYields env (length (searchLog w)) message r0) ->
  exists r, fst (firstHalf env message session w) = inl r.
Proof.
  intros Hlt Hfirst. unfold firstHalf.
  destruct (isOrderTrackingQuery message).
  - apply handleOrderTracking_returns, lookup_lt_is_Some, Hlt.
  - destruct (Hfirst eq_refl) as [r0 Hr0]. unfold bind.
    rewrite (searchKnowledgeBase_yields _ _ _ Hr0). simpl. eauto.
Qed.

(** The first half throws when the message is not an order-tracking one
    and its search fails. *)
Lemma firstHalf_throws message session w :
  isOrderTrackingQuery message = false ->
  searchFails env (length (searchLog w)) message ->
  exists err, fst (firstHalf env message session w) = inr err.
Proof.
  intros Htrack Hfail. unfold firstHalf. rewrite Htrack. unfold bind.
  destruct (searchKnowledgeBase_fails _ _ Hfail) as [err ->]. simpl. eauto.
Qed.

(** The three ways a turn with a message and a session identifier ends:
    the first half throws (500); the search of the second half fails
    (200, apology); or it ends well (200, reply and sources). *)
Lemma chat_cases req w :
  Js.truthy (reqMessage req) = true ->
  Js.truthy (reqSessionId req) = true ->
  let message := Js.orElse (reqMessage req) "" in
  let sessionId := Js.orElse (reqSessionId req) "" in
  let session := fst (entered env sessionId message w) in
  let half := firstHalf env message session (snd (entered env sessionId message w)) in
  chat env req w
  = match fst half with
    | inr _ => (internalError, snd half)
    | inl _ =>
        match fst (searchKnowledgeBase env message 5 (snd half)) with
        | inr _ =>
            (mkResponse 200 (ChatBody searchTrouble sessionId None),
             logSearch (snd half) message)
        | inl raw =>
            let reply := generateResponse message (JArray (arrayOrEmpty raw)) in
            (mkResponse 200
               (ChatBody reply sessionId
                  (Some (map toSource (firstn 3 (arrayOrEmpty raw))))),
             answered env sessionId session reply (arrayOrEmpty raw)
               (logSearch (snd half) message))
        end
    end.
Proof.
  intros Hm Hs message sessionId session half.
  unfold chat. rewrite (chatTry_valid req w Hm Hs).
  fold message sessionId session. unfold bind at 1.
  fold half. destruct half as [[r|e] w2]; [|reflexivity].
  simpl fst. simpl snd.
  pose proof (search_logs message w2) as Hlog.
  unfold secondHalf, bind, tryCatch.
  destruct (searchKnowledgeBase env message 5 w2) as [[raw|e] w3];
    simpl in Hlog; subst w3; reflexivity.
Qed.

(** A request without a message or without a session identifier is
    refused, and nothing changes. *)
Lemma chat_invalid req w :
  Js.truthy (reqMessage req) && Js.truthy (reqSessionId req) = false ->
  chat env req w
  = (mkResponse 400 (ErrorBody "Message and sessionId are required" None), w).
Proof.
  intros H. unfold chat, chatTry.
  destruct (Js.truthy (reqMessage req)), (Js.truthy (reqSessionId req));
    try discriminate; reflexivity.
Qed.

(** A turn in which every search of the turn ends well: the reply is
    synthesised from the results of the last search, whatever the first
    half computed, and the stored session gains the user message and the
    assistant message, stamped with two consecutive clock readings. *)
Lemma chat_ok req w raw :
  wfWorld w ->
  Js.truthy (reqMessage req) = true ->
  Js.truthy (reqSessionId req) = true ->
  let message := Js.orElse (reqMessage req) "" in
  let sessionId := Js.orElse (reqSessionId req) "" in
  let n := length (searchLog w) in
  let reply := generateResponse message (JArray (arrayOrEmpty raw)) in
  (isOrderTrackingQuery message = false ->
     exists r0, searchYields env n message r0) ->
  searchYields env (if isOrderTrackingQuery message then n else S n) message raw ->
  exists w' k,
    chat env req w
    = (mkResponse 200
         (ChatBody reply sessionId
            (Some (map toSource (firstn 3 (arrayOrEmpty raw))))), w') /\
    searchLog w'
    = searchLog w ++
        (if isOrderTrackingQuery message then [(message, 5)]
         else [(message, 5); (message, 5)]) /\
    (clockReads w <= k /\ clockReads w' = S (S k)) /\
    storedMessages w' sessionId
    = Some (default [] (storedMessages w sessionId)
            ++ [Message.mk user message (now env k) None;
                Message.mk assistant reply (now env (S k))
                  (Some (map toSource (arrayOrEmpty raw)))]).
Proof.
  intros Hwf Hm Hs message sessionId n reply Hfirst Hlast.
  rewrite (chat_cases req w Hm Hs). cbv zeta. fold message sessionId.
  pose proof (entered_log sessionId message w) as Hlog.
  pose proof (entered_deref sessionId message w Hwf) as Hder.
  destruct (entered_messages sessionId message w Hwf)
    as (s & k & Hs1 & Hk & Hclock & Hmsgs).
  set (session := fst (entered env sessionId message w)) in *.
  set (w1 := snd (entered env sessionId message w)) in *.
  destruct (firstHalf_frame message session w1) as [(Hheap & _ & Hc) Hlog2].
  destruct (firstHalf_returns message session w1 Hder) as [r Hr].
  { rewrite Hlog. exact Hfirst. }
  destruct (firstHalf env message session w1) as [[r'|e] w2];
    simpl in Hr, Hheap, Hc, Hlog2; [|discriminate].
  simpl fst. simpl snd. cbv iota.
  assert (Hy : searchYields env (length (searchLog w2)) message raw).
  { rewrite Hlog2, Hlog, length_app. fold n.
    destruct (isOrderTrackingQuery message); simpl.
    - rewrite Nat.add_0_r. exact Hlast.
    - replace (n + 1) with (S n) by lia. exact Hlast. }
  rewrite (searchKnowledgeBase_yields _ _ _ Hy). simpl fst. cbv iota.
  exists (answered env sessionId session reply (arrayOrEmpty raw)
            (logSearch w2 message)), k.
  split; [reflexivity|]. split; [|split; [split; [exact Hk|]|]].
  - simpl. rewrite Hlog2, Hlog, <- app_assoc.
    destruct (isOrderTrackingQuery message); reflexivity.
  - simpl. rewrite Hc, Hclock. reflexivity.
  - unfold storedMessages, answered. simpl.
    rewrite lookup_insert_eq, list_lookup_alter_eq, Hheap, Hs1. simpl.
    rewrite Hmsgs, Hc, Hclock, <- app_assoc. reflexivity.
Qed.

(** When the search made in its own [try] fails, after a first half that
    did not throw, the turn ends with the apology, status 200 and no
    sources. *)
Lemma chat_search_trouble req w :
  wfWorld w ->
  Js.truthy (reqMessage req) = true ->
  Js.truthy (reqSessionId req) = true ->
  let message := Js.orElse (reqMessage req) "" in
  let sessionId := Js.orElse (reqSessionId req) "" in
  let n := length (searchLog w) in
  (isOrderTrackingQuery message = false ->
     exists r0, searchYields env n message r0) ->
  searchFails env (if isOrderTrackingQuery message then n else S n) message ->
  fst (chat env req w)
  = mkResponse 200 (ChatBody searchTrouble sessionId None).
Proof.
  intros Hwf Hm Hs message sessionId n Hfirst Hlast.
  rewrite (chat_cases req w Hm Hs). cbv zeta. fold message sessionId.
  pose proof (entered_log sessionId message w) as Hlog.
  pose proof (entered_deref sessionId message w Hwf) as Hder.
  set (session := fst (entered env sessionId message w)) in *.
  set (w1 := snd (entered env sessionId message w)) in *.
  destruct (firstHalf_frame message session w1) as [_ Hlog2].
  destruct (firstHalf_returns message session w1 Hder) as [r Hr].
  { rewrite Hlog. exact Hfirst. }
  destruct (firstHalf env message session w1) as [[r'|e] w2];
    simpl in Hr, Hlog2; [|discriminate].
  simpl fst. simpl snd. cbv iota.
  assert (Hf : searchFails env (length (searchLog w2)) message).
  { rewrite Hlog2, Hlog, length_app. fold n.
    destruct (isOrderTrackingQuery message); simpl.
    - rewrite Nat.add_0_r. exact Hlast.
    - replace (n + 1) with (S n) by lia. exact Hlast. }
  destruct (searchKnowledgeBase_fails _ _ Hf) as [err ->]. reflexivity.
Qed.

(** When the message is not an order-tracking one, the first search of
    the turn runs outside the inner [try]: its failure reaches the outer
    [catch], which answers 500. *)
Lemma chat_first_search_fails req w :
  Js.truthy (reqMessage req) = true ->
  Js.truthy (reqSessionId req) = true ->
  let message := Js.orElse (reqMessage req) "" in
  isOrderTrackingQuery message = false ->
  searchFails env (length (searchLog w)) message ->
  fst (chat env req w) = internalError.
Proof.
  intros Hm Hs message Htrack Hfail.
  rewrite (chat_cases req w Hm Hs). cbv zeta. fold message.
  rewrite <- (entered_log (Js.orElse (reqSessionId req) "") message w) in Hfail.
  destruct (firstHalf_throws message
              (fst (entered env (Js.orElse (reqSessionId req) "") message w))
              _ Htrack Hfail) as [err ->].
  reflexivity.
Qed.

(** What a turn that answers with sources went through: the last search
    of the turn ended well, and reply and sources come from its result. *)
Lemma chat_sources_inv req w res w' reply sid sources :
  chat env req w = (res, w') ->
  body res = ChatBody reply sid (Some sources) ->
  let message := Js.orElse (reqMessage req) "" in
  exists n raw,
    length (searchLog w) <= n /\ S n = length (searchLog w') /\
    searchYields env n message raw /\
    reply = generateResponse message (JArray (arrayOrEmpty raw)) /\
    sources = map toSource (firstn 3 (arrayOrEmpty raw)).
Proof.
  intros Hchat Hbody message.
  destruct (Js.truthy (reqMessage req) && Js.truthy (reqSessionId req)) eqn:Hv.
  2: { rewrite (chat_invalid req w Hv) in Hchat.
       injection Hchat as <- <-. discriminate. }
  apply andb_true_iff in Hv as [Hm Hs].
  rewrite (chat_cases req w Hm Hs) in Hchat. cbv zeta in Hchat.
  fold message in Hchat.
  set (sessionId := Js.orElse (reqSessionId req) "") in *.
  pose proof (entered_log sessionId message w) as Hlog.
  set (session := fst (entered env sessionId message w)) in *.
  set (w1 := snd (entered env sessionId message w)) in *.
  destruct (firstHalf_frame message session w1) as [_ Hlog2].
  destruct (firstHalf env message session w1) as [[r|e] w2];
    simpl in Hchat, Hlog2.
  2: { injection Hchat as <- <-. discriminate. }
  destruct (searchKnowledgeBase_inv message w2)
    as [(raw & Hy & E) | (err & _ & E)]; rewrite E in Hchat; simpl in Hchat.
  2: { injection Hchat as <- <-. discriminate. }
  injection Hchat as <- <-. simpl in Hbody. injection Hbody as <- _ <-.
  exists (length (searchLog w2)), raw.
  split; [rewrite Hlog2, Hlog, length_app; lia|].
  split; [simpl; rewrite length_app; simpl; lia|].
  split; [exact Hy | split; reflexivity].
Qed.

Lemma logSearch_wf w query : wfWorld w -> wfWorld (logSearch w query).
Proof. intros Hwf. exact Hwf. Qed.

Lemma answered_wf sessionId session reply docs w :
  wfWorld w -> session < length (heap w) ->
  wfWorld (answered env sessionId session reply docs w).
Proof.
  intros Hwf Hlt sid l. unfold answered. simpl. rewrite length_alter.
  destruct (decide (sessionId = sid)) as [->|Hne].
  - rewrite lookup_insert_eq. intros [= <-]. exact Hlt.
  - rewrite lookup_insert_ne by exact Hne. apply Hwf.
Qed.

(** Every stored identifier keeps pointing to a session object, however
    the turn ends. *)
Lemma chat_preserves_wf req w :
  wfWorld w -> wfWorld (snd (chat env req w)).
Proof.
  intros Hwf.
  destruct (Js.truthy (reqMessage req) && Js.truthy (reqSessionId req)) eqn:Hv.
  - apply andb_true_iff in Hv as [Hm Hs].
    rewrite (chat_cases req w Hm Hs). cbv zeta.
    set (message := Js.orElse (reqMessage req) "").
    set (sessionId := Js.orElse (reqSessionId req) "").
    pose proof (entered_wf sessionId message w Hwf) as Hwf1.
    pose proof (entered_deref sessionId message w Hwf) as Hder.
    set (session := fst (entered env sessionId message w)) in *.
    set (w1 := snd (entered env sessionId message w)) in *.
    destruct (firstHalf_frame message session w1) as [Hsame _].
    pose proof (sameStore_wf _ _ Hsame Hwf1) as Hwf2.
    destruct Hsame as (Hheap & _ & _).
    destruct (firstHalf env message session w1) as [[r|e] w2];
      simpl in *; [|exact Hwf2].
    destruct (fst (searchKnowledgeBase env message 5 w2)); simpl.
    + apply answered_wf; [exact Hwf2 | simpl; rewrite Hheap; exact Hder].
    + exact Hwf2.
  - rewrite (chat_invalid req w Hv). exact Hwf.
Qed.

(** ** Replies *)

(** C1 (amended): for a message that contains a personalized-account
    phrase, in a turn whose searches all end well, the reply is the
    disclaimer template that [handlePersonalizedQuery] selects for the
    message, whether or not the message also holds order-tracking or
    product keywords. *)
Theorem personalized_takes_priority req w raw :
  wfWorld w ->
  let message := Js.orElse (reqMessage req) "" in
  let sessionId := Js.orElse (reqSessionId req) "" in
  let n := length (searchLog w) in
  isPersonalizedQuery message = true ->
  Js.truthy (reqSessionId req) = true ->
  (isOrderTrackingQuery message = false ->
     exists r0, searchYields env n message r0) ->
  searchYields env (if isOrderTrackingQuery message then n else S n) message raw ->
  exists sources,
    fst (chat env req w)
    = mkResponse 200 (ChatBody (handlePersonalizedQuery message) sessionId sources) /\
    In (handlePersonalizedQuery message) disclaimers.
Proof.
  intros Hwf message sessionId n Hp Hs Hfirst Hlast.
  destruct (chat_ok req w raw Hwf (isPersonalizedQuery_truthy _ Hp) Hs
              Hfirst Hlast) as (w' & k & E & _).
  rewrite E. simpl fst.
  rewrite generateResponse_personalized by exact Hp.
  eexists. split; [reflexivity | apply handlePersonalizedQuery_template].
Qed.

(** C8 (amended): for the message "my refund status", in a turn whose
    search ends well, the reply is the refund disclaimer, whatever the
    documents retrieved and whatever the session holds. *)
Theorem refund_status_reply sid w raw :
  wfWorld w ->
  sid <> "" ->
  searchYields env (length (searchLog w)) "my refund status" raw ->
  exists sources,
    fst (chat env (chatRequest "my refund status" sid) w)
    = mkResponse 200 (ChatBody refundDisclaimer sid sources).
Proof.
  intros Hwf Hsid Hy.
  destruct (chat_ok (chatRequest "my refund status" sid) w raw Hwf)
    as (w' & k & E & _).
  - reflexivity.
  - apply truthy_Some, Hsid.
  - intros H. vm_compute in H. discriminate.
  - exact Hy.
  - rewrite E. unfold chatRequest. cbn [fst reqSessionId reqMessage].
    rewrite (orElse_Some sid "" Hsid).
    rewrite generateResponse_personalized by reflexivity.
    replace (handlePersonalizedQuery _) with refundDisclaimer
      by (vm_compute; reflexivity).
    eexists. reflexivity.
Qed.

(** C6 (amended): for the hoodie question, in a turn whose two searches
    end well, when the first retrieved document that has a URL and a
    variant or a text for blue and m is among the first three, and its
    first variant matching blue and m costs "$40", is available and has
    no compare-at price, the reply has the line "Price: $40 (in stock)"
    and ends with the line "More details: <url>". *)
Theorem hoodie_price_reply sid w r0 pre d post u v :
  wfWorld w -> sid <> "" ->
  searchYields env (length (searchLog w)) hoodieQuestion r0 ->
  searchYields env (S (length (searchLog w))) hoodieQuestion
    (JArray (pre ++ d :: post)) ->
  length pre < 3 ->
  Forall (fun p => passedOver blue sizeM u p = true) pre ->
  Document.url d = Some u -> u <> "" ->
  List.find (variantMatches blue sizeM) (variantsOf d) = Some v ->
  Variant.price v = Some "$40" ->
  Variant.available v = Some true ->
  Js.trim (Js.orElse (Variant.compare_at_price v) "") = "" ->
  exists reply sources,
    fst (chat env (chatRequest hoodieQuestion sid) w)
    = mkResponse 200 (ChatBody reply sid sources) /\
    (exists before after,
       reply = before +:+ Js.nl +:+ "Price: $40 (in stock)" +:+ Js.nl +:+ after) /\
    (exists before, reply = before +:+ Js.nl +:+ "More details: " +:+ u).
Proof.
  intros Hwf Hsid H0 H1 Hlen Hpre Hurl Hu Hfind Hprice Havail Hwas.
  destruct (chat_ok (chatRequest hoodieQuestion sid) w
              (JArray (pre ++ d :: post)) Hwf) as (w' & k & E & _).
  - reflexivity.
  - apply truthy_Some, Hsid.
  - intros _. exists r0. exact H0.
  - simpl Js.orElse. destruct hoodieQuestion_routed as (-> & _). exact H1.
  - rewrite E. unfold chatRequest. cbn [fst reqSessionId reqMessage].
    rewrite (orElse_Some sid "" Hsid).
    change (Js.orElse (Some hoodieQuestion) "") with hoodieQuestion.
    cbn [arrayOrEmpty].
    rewrite generateResponse_hoodie by exact Hlen.
    pose proof (formatProductAnswer_picks hoodieQuestion pre d
                  (firstn (2 - length pre) post) u) as Hpick.
    cbv zeta in Hpick.
    destruct hoodieQuestion_parsed as (HI & HC & HS).
    rewrite HI, HC, HS in Hpick.
    rewrite Hpick;
      [| left; reflexivity | exact Hpre | exact Hurl | exact Hu
       | eapply find_hasVariant, Hfind].
    destruct (productLines_hoodie d u v Hurl Hu Hfind Hprice Havail Hwas)
      as (options & ->).
    eexists. eexists. split; [reflexivity|]. split.
    + exists (Js.orElse (Document.title d) "Product").
      destruct options as [|o options]; eexists; reflexivity.
    + eexists. apply join_snoc.
Qed.

(** ** Sources *)

(** C5: in every turn answered with a [sources] array, the array is the
    projection of the first three (or fewer) of the documents that the
    last search of the turn returned, in the order of the retriever. *)
Theorem sources_prefix req w res w' reply sid sources :
  chat env req w = (res, w') ->
  body res = ChatBody reply sid (Some sources) ->
  exists n raw,
    (length (searchLog w) <= n /\ S n = length (searchLog w')) /\
    searchYields env n (Js.orElse (reqMessage req) "") raw /\
    sources = map toSource (firstn 3 (arrayOrEmpty raw)) /\
    length sources <= 3 /\
    sources `prefix_of` map toSource (arrayOrEmpty raw).
Proof.
  intros Hchat Hbody.
  destruct (chat_sources_inv _ _ _ _ _ _ _ Hchat Hbody)
    as (n & raw & Hn & Hn' & Hy & _ & ->).
  exists n, raw. split; [split; assumption|]. split; [exact Hy|].
  split; [reflexivity|]. split.
  - rewrite length_map, length_take. lia.
  - exists (map toSource (skipn 3 (arrayOrEmpty raw))).
    rewrite <- map_app, firstn_skipn. reflexivity.
Qed.

(** The source built from a document, property by property. *)
Lemma toSource_fields (d : Document.t) :
  let s := toSource d in
  (forall t, Document.title d = Some t -> prop s "title" = JString t) /\
  (Document.title d = None -> prop s "title" = JUndefined) /\
  (forall u, Document.url d = Some u -> prop s "url" = JString u) /\
  (Document.url d = None -> prop s "url" = JUndefined) /\
  (forall q, Document.score d = Some q -> prop s "score" = JNumber q) /\
  (Document.score d = None -> prop s "score" = JUndefined) /\
  keys s = ["title"; "url"; "score"] /\
  (forall k, In k (keys (stringified s)) <->
     (k = "title" /\ Document.title d <> None) \/
     (k = "url" /\ Document.url d <> None) \/
     (k = "score" /\ Document.score d <> None)) /\
  (forall k, prop (stringified s) k = prop s k).
Proof.
  cbv zeta. unfold toSource.
  repeat split; try (intros ? ->; reflexivity); try (intros ->; reflexivity).
  3: { intros k. unfold stringified.
       destruct (Document.title d), (Document.url d), (Document.score d);
         cbn [List.filter snd prop strValue numValue];
         destruct (String.eqb_spec "title" k) as [<-|_]; try reflexivity;
         destruct (String.eqb_spec "url" k) as [<-|_]; try reflexivity;
         destruct (String.eqb_spec "score" k) as [<-|_]; reflexivity. }
  - unfold stringified, keys.
    destruct (Document.title d), (Document.url d), (Document.score d);
      simpl; intuition congruence.
  - unfold stringified, keys.
    destruct (Document.title d), (Document.url d), (Document.score d);
      simpl; intuition congruence.
Qed.

(** C9: in every turn answered with a [sources] array, the source at an
    index carries the title, the url and the score of the retrieved
    document at that index: the very string or number when the document
    has the field, [undefined] when it has not.  The object has no other
    property; in the JSON body, where a property that is [undefined] is
    left out, a source holds of these three the ones its document has,
    with the same values, and neither [text] nor [product_info]. *)
Theorem source_fields req w res w' reply sid sources :
  chat env req w = (res, w') ->
  body res = ChatBody reply sid (Some sources) ->
  exists n raw,
    (length (searchLog w) <= n /\ S n = length (searchLog w')) /\
    searchYields env n (Js.orElse (reqMessage req) "") raw /\
    forall i s, sources !! i = Some s ->
      exists d, arrayOrEmpty raw !! i = Some d /\
        (forall t, Document.title d = Some t -> prop s "title" = JString t) /\
        (Document.title d = None -> prop s "title" = JUndefined) /\
        (forall u, Document.url d = Some u -> prop s "url" = JString u) /\
        (Document.url d = None -> prop s "url" = JUndefined) /\
        (forall q, Document.score d = Some q -> prop s "score" = JNumber q) /\
        (Document.score d = None -> prop s "score" = JUndefined) /\
        keys s = ["title"; "url"; "score"] /\
        (forall k, In k (keys (stringified s)) <->
           (k = "title" /\ Document.title d <> None) \/
           (k = "url" /\ Document.url d <> None) \/
           (k = "score" /\ Document.score d <> None)) /\
        (forall k, prop (stringified s) k = prop s k) /\
        prop s "text" = JUndefined /\
        prop s "product_info" = JUndefined.
Proof.
  intros Hchat Hbody.
  destruct (chat_sources_inv _ _ _ _ _ _ _ Hchat Hbody)
    as (n & raw & Hn & Hn' & Hy & _ & ->).
  exists n, raw. split; [split; assumption|]. split; [exact Hy|].
  intros i s Hi.
  rewrite list_lookup_fmap in Hi.
  destruct (firstn 3 (arrayOrEmpty raw) !! i) as [d|] eqn:Hd; [|discriminate].
  injection Hi as <-.
  exists d. split.
  - apply lookup_take_Some in Hd. tauto.
  - destruct (toSource_fields d) as (H1 & H2 & H3 & H4 & H5 & H6 & H7 & H8 & H9).
    repeat split; try assumption; try reflexivity; apply H8.
Qed.

(** ** Several turns of one session *)

(** With a search that always ends well, [N] turns of a session append
    [2N] messages to what the session held, a user message then an
    assistant message per turn, stamped with clock readings taken in that
    order; what the session held before is kept. *)
Lemma healthy_turns sid msgs w :
  healthy env -> wfWorld w -> sid <> "" ->
  Forall (fun m => m <> "") msgs ->
  exists added ks,
    default [] (storedMessages (turns env sid msgs w) sid)
    = default [] (storedMessages w sid) ++ added /\
    length added = 2 * length msgs /\
    map Message.role added = turnRoles (length msgs) /\
    map Message.content (List.filter
          (fun m => match Message.role m with user => true | assistant => false end)
          added) = msgs /\
    map Message.timestamp added = map (now env) ks /\
    Forall (fun k => clockReads w <= k) ks /\
    StronglySorted lt ks.
Proof.
  intros Hhealthy Hwf Hsid Hmsgs. revert w Hwf.
  induction Hmsgs as [|m rest Hm _ IH]; intros w Hwf.
  - exists [], []. simpl. rewrite app_nil_r.
    repeat split; constructor.
  - destruct (Hhealthy (if isOrderTrackingQuery m then length (searchLog w)
                        else S (length (searchLog w))) m) as [raw Hraw].
    destruct (chat_ok (chatRequest m sid) w raw Hwf) as
      (w' & k & E & _ & (Hk & Hclock) & Hstored).
    + apply truthy_Some, Hm.
    + apply truthy_Some, Hsid.
    + intros _. apply Hhealthy.
    + unfold chatRequest. cbn [reqMessage]. rewrite (orElse_Some m "" Hm).
      exact Hraw.
    + unfold chatRequest in Hstored. cbn [reqMessage reqSessionId] in Hstored.
      rewrite (orElse_Some m "" Hm), (orElse_Some sid "" Hsid) in Hstored.
      pose proof (chat_preserves_wf (chatRequest m sid) w Hwf) as Hwf'.
      cbn [turns]. rewrite E in Hwf' |- *. cbn [snd] in Hwf' |- *.
      destruct (IH w' Hwf') as (added & ks & Hadd & Hlen & Hroles & Hcont & Hts & Hks & Hsorted).
      rewrite Hstored in Hadd.
      change (default [] (Some ?l)) with l in Hadd.
      exists (Message.mk user m (now env k) None
              :: Message.mk assistant
                   (generateResponse m (JArray (arrayOrEmpty raw)))
                   (now env (S k)) (Some (map toSource (arrayOrEmpty raw)))
              :: added), (k :: S k :: ks).
      split; [rewrite Hadd, <- app_assoc; reflexivity|].
      split; [cbn [length]; lia|].
      split; [cbn [map length turnRoles Message.role]; now rewrite Hroles|].
      split; [cbn [List.filter map Message.role Message.content]; now rewrite Hcont|].
      split; [cbn [map Message.timestamp]; now rewrite Hts|].
      rewrite Hclock in Hks.
      split.
      * constructor; [exact Hk|]. constructor; [lia|].
        eapply Forall_impl; [exact Hks|]. cbn beta. intros; lia.
      * constructor; [constructor; [exact Hsorted|]|].
        -- eapply Forall_impl; [exact Hks|]. cbn beta. intros; lia.
        -- constructor; [lia|].
           eapply Forall_impl; [exact Hks|]. cbn beta. intros; lia.
Qed.

End Turn.

(** ** The claims on concrete turns *)

Lemma personalized_takes_priority_witness :
  isOrderTrackingQuery "Track my order and its price" = true /\
  isProductQuery "Track my order and its price" = true /\
  exists sources,
    fst (chat (searchReturns [])
           (chatRequest "Track my order and its price" "s1") initialWorld)
    = mkResponse 200 (ChatBody orderDisclaimer "s1" sources).
Proof.
  split; [reflexivity | split; [reflexivity|]].
  destruct (personalized_takes_priority (searchReturns [])
              (chatRequest "Track my order and its price" "s1") initialWorld
              (JArray []) wfWorld_initial)
    as (sources & E & _).
  - reflexivity.
  - reflexivity.
  - intros H. vm_compute in H. discriminate.
  - split; reflexivity.
  - exists sources. exact E.
Defined.

(** C1 as stated fails when the search of the turn fails: the message
    holds a personalized-account phrase and the reply is the apology. *)
Lemma personalized_takes_priority_counterexample :
  isPersonalizedQuery "Where is my order?" = true /\
  fst (chat searchDown (chatRequest "Where is my order?" "s1") initialWorld)
  = mkResponse 200 (ChatBody searchTrouble "s1" None) /\
  searchTrouble <> handlePersonalizedQuery "Where is my order?".
Proof. split; [reflexivity | split; [reflexivity | discriminate]]. Qed.

Lemma refund_status_reply_witness :
  exists sources,
    fst (chat (searchReturns [hoodie; mug]) (chatRequest "my refund status" "s1")
           initialWorld)
    = mkResponse 200 (ChatBody refundDisclaimer "s1" sources).
Proof.
  apply (refund_status_reply (searchReturns [hoodie; mug]) "s1" initialWorld
           (JArray [hoodie; mug])).
  - apply wfWorld_initial.
  - discriminate.
  - split; reflexivity.
Defined.

(** C8 as stated fails when the search of the turn fails: the reply to
    "my refund status" is then the apology. *)
Lemma refund_status_reply_counterexample :
  fst (chat searchDown (chatRequest "my refund status" "s1") initialWorld)
  = mkResponse 200 (ChatBody searchTrouble "s1" None) /\
  searchTrouble <> refundDisclaimer.
Proof. split; [reflexivity | discriminate]. Qed.

Lemma hoodie_price_reply_witness :
  exists reply sources,
    fst (chat (searchReturns [hoodieNoUrl; hoodie; mug])
           (chatRequest hoodieQuestion "s1") initialWorld)
    = mkResponse 200 (ChatBody reply "s1" sources) /\
    (exists before after,
       reply = before +:+ Js.nl +:+ "Price: $40 (in stock)" +:+ Js.nl +:+ after) /\
    (exists before,
       reply = before +:+ Js.nl +:+ "More details: "
               +:+ "https://shop.example/products/hoodie").
Proof.
  apply (hoodie_price_reply (searchReturns [hoodieNoUrl; hoodie; mug]) "s1"
           initialWorld (JArray [hoodieNoUrl; hoodie; mug]) [hoodieNoUrl] hoodie
           [mug] "https://shop.example/products/hoodie" hoodieVariant).
  - apply wfWorld_initial.
  - discriminate.
  - split; reflexivity.
  - split; reflexivity.
  - simpl. lia.
  - repeat constructor.
  - reflexivity.
  - discriminate.
  - reflexivity.
  - reflexivity.
  - reflexivity.
  - reflexivity.
Defined.

(** C6 as stated fails when another document comes first: the retrieved
    documents include the hoodie with its blue variant of size m at $40,
    and the reply, built from the scarf, has no price line. *)
Lemma hoodie_price_reply_counterexample :
  In hoodie [scarf; hoodie] /\
  In hoodieVariant (variantsOf hoodie) /\
  exists reply,
    fst (chat (searchReturns [scarf; hoodie]) (chatRequest hoodieQuestion "s1")
           initialWorld)
    = mkResponse 200
        (ChatBody reply "s1" (Some (map toSource [scarf; hoodie]))) /\
    reply = Js.join Js.nl
              ["Wool scarf"; "Blue merino scarf, medium weight…";
               "More details: https://shop.example/products/scarf"] /\
    Js.includes reply "Price: $40 (in stock)" = false.
Proof.
  split; [right; left; reflexivity|].
  split; [left; reflexivity|].
  eexists. split; [reflexivity|]. split; vm_compute; reflexivity.
Qed.

Lemma sources_prefix_witness :
  exists n raw,
    (0 <= n /\ S n = 2) /\
    searchYields (searchReturns fourDocs) n "hello" raw /\
    map toSource [hoodie; mug; hoodieNoUrl]
    = map toSource (firstn 3 (arrayOrEmpty raw)) /\
    3 <= 3 /\
    map toSource [hoodie; mug; hoodieNoUrl] `prefix_of` map toSource (arrayOrEmpty raw).
Proof.
  exact (sources_prefix (searchReturns fourDocs) (chatRequest "hello" "s1")
           initialWorld
           (fst (chat (searchReturns fourDocs) (chatRequest "hello" "s1") initialWorld))
           (snd (chat (searchReturns fourDocs) (chatRequest "hello" "s1") initialWorld))
           _ "s1" (map toSource [hoodie; mug; hoodieNoUrl])
           eq_refl eq_refl).
Defined.

Lemma source_fields_witness :
  exists n raw,
    (0 <= n /\ S n = 2) /\
    searchYields (searchReturns fourDocs) n "hello" raw /\
    forall i s, map toSource [hoodie; mug; hoodieNoUrl] !! i = Some s ->
      exists d, arrayOrEmpty raw !! i = Some d /\
        (forall t, Document.title d = Some t -> prop s "title" = JString t) /\
        (Document.title d = None -> prop s "title" = JUndefined) /\
        (forall u, Document.url d = Some u -> prop s "url" = JString u) /\
        (Document.url d = None -> prop s "url" = JUndefined) /\
        (forall q, Document.score d = Some q -> prop s "score" = JNumber q) /\
        (Document.score d = None -> prop s "score" = JUndefined) /\
        keys s = ["title"; "url"; "score"] /\
        (forall k, In k (keys (stringified s)) <->
           (k = "title" /\ Document.title d <> None) \/
           (k = "url" /\ Document.url d <> None) \/
           (k = "score" /\ Document.score d <> None)) /\
        (forall k, prop (stringified s) k = prop s k) /\
        prop s "text" = JUndefined /\
        prop s "product_info" = JUndefined.
Proof.
  exact (source_fields (searchReturns fourDocs) (chatRequest "hello" "s1")
           initialWorld
           (fst (chat (searchReturns fourDocs) (chatRequest "hello" "s1") initialWorld))
           (snd (chat (searchReturns fourDocs) (chatRequest "hello" "s1") initialWorld))
           _ "s1" (map toSource [hoodie; mug; hoodieNoUrl])
           eq_refl eq_refl).
Defined.

(** C2: with a message that is not an order-tracking one and a search
    script that exits with code 1, the turn is answered with status 500
    and the internal-error body, not with the apology; with an
    order-tracking message the same failure is answered with status 200
    and the apology. *)
Theorem hello_search_down :
  isOrderTrackingQuery "hello" = false /\
  searchFails searchDown 0 "hello" /\
  fst (chat searchDown (chatRequest "hello" "s1") initialWorld)
  = mkResponse 500
      (ErrorBody "Internal server error"
         (Some "Failed to process your message. Please try again.")) /\
  fst (chat searchDown (chatRequest "track it" "s1") initialWorld)
  = mkResponse 200 (ChatBody searchTrouble "s1" None).
Proof.
  split; [reflexivity | split; [left; discriminate | split; reflexivity]].
Qed.

(** C3 (amended): for the message "track my order" and a session that
    holds no order identifier, [handleOrderTracking] computes the prompt
    for an order identifier, but the prompt is not the reply.  The turn
    runs the search exactly once; when the search ends well the reply is
    the order disclaimer, which the phrase "my order" selects, and when it
    fails the reply is the apology. *)
Theorem track_my_order_reply (env : Env) (sid : string) (w : World) :
  wfWorld w ->
  sid <> "" ->
  (forall s, storedSession w sid = Some s ->
     Js.truthy (orderId (Session.context s)) = false) ->
  let req := chatRequest "track my order" sid in
  let entry := entered env sid "track my order" w in
  handleOrderTracking env "track my order" (fst entry) (snd entry)
  = (inl askForOrderId, snd entry) /\
  searchLog (snd (chat env req w)) = searchLog w ++ [("track my order", 5)] /\
  (forall raw,
     searchYields env (length (searchLog w)) "track my order" raw ->
     fst (chat env req w)
     = mkResponse 200
         (ChatBody orderDisclaimer sid
            (Some (map toSource (firstn 3 (arrayOrEmpty raw)))))) /\
  (searchFails env (length (searchLog w)) "track my order" ->
   fst (chat env req w) = mkResponse 200 (ChatBody searchTrouble sid None)) /\
  orderDisclaimer <> askForOrderId.
Proof.
  intros Hwf Hsid Hno req entry.
  assert (Hprompt :
            handleOrderTracking env "track my order" (fst entry) (snd entry)
            = (inl askForOrderId, snd entry)).
  { unfold entry, entered. unfold storedSession in Hno.
    destruct (userSessions w !! sid) as [l|] eqn:Hl.
    - destruct (lookup_lt_is_Some_2 (heap w) l (Hwf _ _ Hl)) as [s Hs].
      eapply handleOrderTracking_asks.
      + simpl. rewrite list_lookup_alter_eq, Hs. reflexivity.
      + simpl. apply Hno. exact Hs.
    - eapply handleOrderTracking_asks.
      + simpl. apply list_lookup_middle. reflexivity.
      + reflexivity. }
  pose proof (entered_log env sid "track my order" w) as Hlog.
  fold entry in Hlog.
  assert (Hchat :
            chat env req w
            = match fst (searchKnowledgeBase env "track my order" 5 (snd entry)) with
              | inr _ =>
                  (mkResponse 200 (ChatBody searchTrouble sid None),
                   logSearch (snd entry) "track my order")
              | inl raw =>
                  (mkResponse 200
                     (ChatBody orderDisclaimer sid
                        (Some (map toSource (firstn 3 (arrayOrEmpty raw))))),
                   answered env sid (fst entry) orderDisclaimer (arrayOrEmpty raw)
                     (logSearch (snd entry) "track my order"))
              end).
  { rewrite (chat_cases env req w eq_refl (truthy_Some sid Hsid)). cbv zeta.
    unfold req, chatRequest. cbn [reqMessage reqSessionId].
    rewrite (orElse_Some sid "" Hsid).
    change (Js.orElse (Some "track my order") "") with "track my order".
    fold entry. unfold firstHalf.
    change (isOrderTrackingQuery "track my order") with true. cbv iota.
    rewrite Hprompt. cbn [fst snd].
    destruct (fst (searchKnowledgeBase env "track my order" 5 (snd entry)));
      reflexivity. }
  split; [exact Hprompt|]. split; [|split; [|split]].
  - rewrite Hchat.
    destruct (fst (searchKnowledgeBase env "track my order" 5 (snd entry)));
      simpl; rewrite Hlog; reflexivity.
  - intros raw Hy. rewrite Hchat.
    rewrite (searchKnowledgeBase_yields env "track my order" raw (snd entry))
      by (rewrite Hlog; exact Hy).
    reflexivity.
  - intros Hf. rewrite Hchat.
    destruct (searchKnowledgeBase_fails env "track my order" (snd entry))
      as [err ->]; [rewrite Hlog; exact Hf | reflexivity].
  - discriminate.
Qed.

Lemma track_my_order_reply_witness :
  let env := searchReturns [hoodie] in
  let w := snd (chat env (chatRequest "hello there" "s1") initialWorld) in
  let req := chatRequest "track my order" "s1" in
  let entry := entered env "s1" "track my order" w in
  handleOrderTracking env "track my order" (fst entry) (snd entry)
  = (inl askForOrderId, snd entry) /\
  searchLog (snd (chat env req w)) = searchLog w ++ [("track my order", 5)] /\
  (forall raw,
     searchYields env (length (searchLog w)) "track my order" raw ->
     fst (chat env req w)
     = mkResponse 200
         (ChatBody orderDisclaimer "s1"
            (Some (map toSource (firstn 3 (arrayOrEmpty raw)))))) /\
  (searchFails env (length (searchLog w)) "track my order" ->
   fst (chat env req w) = mkResponse 200 (ChatBody searchTrouble "s1" None)) /\
  orderDisclaimer <> askForOrderId.
Proof.
  apply (track_my_order_reply (searchReturns [hoodie]) "s1").
  - apply chat_preserves_wf, wfWorld_initial.
  - discriminate.
  - intros s H. vm_compute in H. injection H as <-. reflexivity.
Defined.

(** C3 as stated fails on a fresh server whose search ends well: the
    handler computes the prompt for an order identifier, then runs the
    search and answers with the order disclaimer. *)
Lemma track_my_order_reply_counterexample :
  let env := searchReturns [] in
  let req := chatRequest "track my order" "s1" in
  let entry := entered env "s1" "track my order" initialWorld in
  handleOrderTracking env "track my order" (fst entry) (snd entry)
  = (inl askForOrderId, snd entry) /\
  fst (chat env req initialWorld)
  = mkResponse 200 (ChatBody orderDisclaimer "s1" (Some [])) /\
  searchLog (snd (chat env req initialWorld)) = [("track my order", 5)] /\
  orderDisclaimer <> askForOrderId.
Proof.
  repeat split; try reflexivity. discriminate.
Qed.

(** C4: a session with one completed turn, then a turn whose search
    fails: the second turn is answered with the apology, and the stored
    session then holds three messages, the last one a user message with
    no assistant message after it. *)
Theorem early_return_leaves_user_message :
  let req := chatRequest "track my order" "s1" in
  let turn1 := chat searchOnce req initialWorld in
  let turn2 := chat searchOnce req (snd turn1) in
  option_map (map Message.role) (storedMessages (snd turn1) "s1")
  = Some [user; assistant] /\
  fst turn2 = mkResponse 200 (ChatBody searchTrouble "s1" None) /\
  option_map (map Message.role) (storedMessages (snd turn2) "s1")
  = Some [user; assistant; user] /\
  option_map (@length Message.t) (storedMessages (snd turn2) "s1") = Some 3.
Proof.
  repeat split; vm_compute; reflexivity.
Qed.

(** Once an order identifier is stored for the session, order tracking
    computes a status line; the reply of the turn is still the order
    disclaimer. *)
Example tracked_order_turn :
  let env := searchReturns [] in
  let w := snd (trackOrder env (mkTrackRequest (Some "A-1001") (Some "s1") None)
                  initialWorld) in
  let entry := entered env "s1" "track my order" w in
  fst (handleOrderTracking env "track my order" (fst entry) (snd entry))
  = inl "Your order A-1001 status: Processing. Your order is being prepared for shipment." /\
  fst (chat env (chatRequest "track my order" "s1") w)
  = mkResponse 200 (ChatBody orderDisclaimer "s1" (Some [])).
Proof. split; vm_compute; reflexivity. Qed.

(** A first turn that ends in the early return leaves no stored session
    at all. *)
Example early_return_on_new_session :
  let turn := chat searchDown (chatRequest "track my order" "s1") initialWorld in
  fst turn = mkResponse 200 (ChatBody searchTrouble "s1" None) /\
  storedMessages (snd turn) "s1" = None.
Proof. split; vm_compute; reflexivity. Qed.

(** * Further properties *)

(** ** Substrings and case *)

Lemma stripPrefix_Some p s r :
  Js.stripPrefix p s = Some r <-> s = p +:+ r.
Proof.
  revert s. induction p as [|a p IH]; intros s; simpl.
  - split; [intros [= ->]; reflexivity | intros ->; reflexivity].
  - destruct s as [|b s].
    + split; [discriminate | intros H; discriminate].
    + rewrite append_cons. destruct (Ascii.eqb_spec a b) as [->|Hne].
      * rewrite IH. split; [intros ->; reflexivity | intros [= ->]; reflexivity].
      * split; [discriminate | intros [= H _]; congruence].
Qed.

(** [includes] is the substring test. *)
Lemma includes_iff s p :
  Js.includes s p = true <-> exists a b, s = a +:+ p +:+ b.
Proof.
  induction s as [|c s IH].
  - simpl. rewrite orb_false_r. unfold Js.startsWith.
    destruct (Js.stripPrefix p "") as [r|] eqn:E.
    + apply stripPrefix_Some in E. split; [|reflexivity].
      intros _. exists "", r. exact E.
    + split; [discriminate|]. intros (a & b & H).
      destruct a as [|x a]; [|discriminate].
      assert (Js.stripPrefix p "" = Some b) by (apply stripPrefix_Some; exact H).
      congruence.
  - cbn [Js.includes]. rewrite orb_true_iff, IH. unfold Js.startsWith.
    split.
    + intros [H | (a & b & ->)].
      * destruct (Js.stripPrefix p (String c s)) as [r|] eqn:E; [|discriminate].
        apply stripPrefix_Some in E. exists "", r. exact E.
      * exists (String c a), b. reflexivity.
    + intros (a & b & H). destruct a as [|x a].
      * left. change ("" +:+ p +:+ b) with (p +:+ b) in H.
        apply stripPrefix_Some in H. now rewrite H.
      * right. rewrite append_cons in H. injection H as _ ->. eauto.
Qed.

Lemma includes_part s x p y :
  Js.includes s (x +:+ p +:+ y) = true -> Js.includes s p = true.
Proof.
  rewrite !includes_iff. intros (a & b & ->).
  exists (a +:+ x), (y +:+ b). now rewrite !append_assoc.
Qed.

Lemma lowerChar_idem c : Js.lowerChar (Js.lowerChar c) = Js.lowerChar c.
Proof.
  destruct c as [[] [] [] [] [] [] [] []]; reflexivity.
Qed.

Lemma toLowerCase_idem s : Js.toLowerCase (Js.toLowerCase s) = Js.toLowerCase s.
Proof.
  induction s as [|c s IH]; simpl; [reflexivity|].
  now rewrite lowerChar_idem, IH.
Qed.

Lemma some_includes (lower k : string) (keywords : list string) :
  In k keywords -> Js.includes lower k = true ->
  Js.some (fun keyword => Js.includes lower keyword) keywords = true.
Proof.
  intros Hin Hk. unfold Js.some. apply existsb_exists. eauto.
Qed.

(** X1: the three classifiers and the choice of the disclaimer do not
    depend on the case of ASCII letters: a message and its lower-cased
    form are treated alike. *)
Theorem classification_ignores_case (message : string) :
  isPersonalizedQuery (Js.toLowerCase message) = isPersonalizedQuery message /\
  isOrderTrackingQuery (Js.toLowerCase message) = isOrderTrackingQuery message /\
  isProductQuery (Js.toLowerCase message) = isProductQuery message /\
  handlePersonalizedQuery (Js.toLowerCase message) = handlePersonalizedQuery message.
Proof.
  unfold isPersonalizedQuery, isOrderTrackingQuery, isProductQuery,
    handlePersonalizedQuery.
  rewrite !toLowerCase_idem. repeat split; reflexivity.
Qed.

(** X2: a message that holds "my order", "my delivery" or "i ordered" (in
    any case) is a personalized query and an order-tracking query at
    once, and its disclaimer is the order one, whatever else it mentions;
    "my package" gives the order disclaimer too. *)
Theorem order_phrases_overlap (message phrase : string) :
  Js.includes (Js.toLowerCase message) phrase = true ->
  (In phrase ["my order"; "my delivery"; "i ordered"] ->
     isPersonalizedQuery message = true /\
     isOrderTrackingQuery message = true /\
     handlePersonalizedQuery message = orderDisclaimer) /\
  (phrase = "my package" ->
     isPersonalizedQuery message = true /\
     handlePersonalizedQuery message = orderDisclaimer).
Proof.
  intros Hinc. split.
  - intros Hin.
    assert (Hp : isPersonalizedQuery message = true).
    { apply (some_includes _ phrase); [|exact Hinc].
      simpl in Hin. unfold personalKeywords. simpl.
      intuition (subst; auto 20). }
    assert (Hkey : Js.includes (Js.toLowerCase message) "order" = true \/
                   Js.includes (Js.toLowerCase message) "delivery" = true).
    { destruct Hin as [<- | [<- | [<- | []]]].
      - left. apply (includes_part _ "my " "order" ""). exact Hinc.
      - right. apply (includes_part _ "my " "delivery" ""). exact Hinc.
      - left. apply (includes_part _ "i " "order" "ed"). exact Hinc. }
    split; [exact Hp|]. split.
    + destruct Hkey as [Hk | Hk].
      * apply (some_includes _ "order"); [simpl; auto | exact Hk].
      * apply (some_includes _ "delivery"); [simpl; auto 10 | exact Hk].
    + unfold handlePersonalizedQuery.
      destruct Hkey as [-> | ->]; [reflexivity|].
      now rewrite orb_true_r.
  - intros ->. split.
    + apply (some_includes _ "my package"); [simpl; auto 10 | exact Hinc].
    + unfold handlePersonalizedQuery.
      rewrite (includes_part _ "my " "package" "" Hinc).
      now rewrite !orb_true_r.
Qed.

Lemma order_phrases_overlap_witness :
  isPersonalizedQuery "Refund for MY ORDER please" = true /\
  isOrderTrackingQuery "Refund for MY ORDER please" = true /\
  handlePersonalizedQuery "Refund for MY ORDER please" = orderDisclaimer.
Proof.
  apply (order_phrases_overlap "Refund for MY ORDER please" "my order").
  - reflexivity.
  - left. reflexivity.
Defined.

(** ** De-duplication by URL *)

Lemma dedupeLoop_keep h rest seen u :
  Document.url h = Some u -> u <> "" -> u ∉ seen ->
  dedupeLoop (h :: rest) seen [] = h :: dedupeLoop rest ({[u]} ∪ seen) [].
Proof.
  intros Hu Hne Hseen. simpl. rewrite Hu.
  destruct (String.eqb_spec u ""); [contradiction|].
  rewrite bool_decide_eq_false_2 by exact Hseen. simpl.
  now rewrite dedupeLoop_acc.
Qed.

Lemma dedupeLoop_seen h rest seen u :
  Document.url h = Some u -> u ∈ seen ->
  dedupeLoop (h :: rest) seen [] = dedupeLoop rest seen [].
Proof.
  intros Hu Hseen. simpl. rewrite Hu.
  rewrite bool_decide_eq_true_2 by exact Hseen.
  now rewrite andb_false_r.
Qed.

(** The three outcomes of one step of the loop. *)
Lemma dedupeLoop_step h rest seen :
  (Js.truthy (Document.url h) = false /\
     dedupeLoop (h :: rest) seen [] = dedupeLoop rest seen []) \/
  (exists u, Document.url h = Some u /\ u <> "" /\ (u ∈ seen) /\
     dedupeLoop (h :: rest) seen [] = dedupeLoop rest seen []) \/
  (exists u, Document.url h = Some u /\ u <> "" /\ (u ∉ seen) /\
     dedupeLoop (h :: rest) seen [] = h :: dedupeLoop rest ({[u]} ∪ seen) []).
Proof.
  destruct (Js.truthy (Document.url h)) eqn:Ht.
  - destruct (Document.url h) as [u|] eqn:Hu; [|discriminate].
    simpl in Ht. apply negb_true_iff, String.eqb_neq in Ht.
    destruct (decide (u ∈ seen)) as [Hin|Hout].
    + right. left. exists u. rewrite (dedupeLoop_seen h rest seen u Hu Hin). auto.
    + right. right. exists u.
      rewrite (dedupeLoop_keep h rest seen u Hu Ht Hout). auto.
  - left. split; [reflexivity|]. apply dedupeLoop_skip, Ht.
Qed.

Lemma dedupeLoop_result hits seen :
  let kept := dedupeLoop hits seen [] in
  sublist kept hits /\
  Forall (fun r => exists u, Document.url r = Some u /\ u <> "" /\ u ∉ seen) kept /\
  NoDup (map Document.url kept).
Proof.
  revert seen. induction hits as [|h rest IH]; intros seen.
  - simpl. repeat split; constructor.
  - cbv zeta.
    destruct (dedupeLoop_step h rest seen)
      as [[_ ->] | [(u & _ & _ & _ & ->) | (u & Hu & Hne & Hout & ->)]].
    + destruct (IH seen) as (Hs & Hf & Hn).
      split; [apply sublist_cons, Hs | auto].
    + destruct (IH seen) as (Hs & Hf & Hn).
      split; [apply sublist_cons, Hs | auto].
    + destruct (IH ({[u]} ∪ seen)) as (Hs & Hf & Hn).
      split; [apply sublist_skip, Hs|]. split.
      * constructor; [eauto|].
        eapply Forall_impl; [exact Hf|]. cbn beta.
        intros r (u' & Hu' & Hne' & Hout').
        exists u'. repeat split; auto.
        rewrite elem_of_union in Hout'. tauto.
      * cbn [map]. constructor; [|exact Hn].
        rewrite Hu. intros Hin.
        apply list_elem_of_In, in_map_iff in Hin as (r & Hr & Hrin).
        rewrite Forall_forall in Hf.
        destruct (Hf r (proj2 (list_elem_of_In _ _) Hrin)) as (u' & Hu' & _ & Hout').
        rewrite Hu' in Hr. injection Hr as ->.
        apply Hout'. rewrite elem_of_union, elem_of_singleton. auto.
Qed.

Lemma dedupeLoop_fixed l seen :
  Forall (fun r => exists u, Document.url r = Some u /\ u <> "" /\ u ∉ seen) l ->
  NoDup (map Document.url l) ->
  dedupeLoop l seen [] = l.
Proof.
  revert seen. induction l as [|h rest IH]; intros seen Hf Hn; [reflexivity|].
  apply Forall_cons in Hf as [(u & Hu & Hne & Hout) Hf].
  cbn [map] in Hn. apply NoDup_cons in Hn as [Hnotin Hn].
  rewrite (dedupeLoop_keep h rest seen u Hu Hne Hout). f_equal.
  apply IH; [|exact Hn].
  rewrite Forall_forall in Hf |- *. intros r Hr.
  destruct (Hf r Hr) as (u' & Hu' & Hne' & Hout').
  exists u'. repeat split; auto.
  rewrite elem_of_union, elem_of_singleton. intros [-> | Hin]; [|contradiction].
  apply Hnotin. rewrite Hu. rewrite <- Hu'.
  apply list_elem_of_In, in_map, list_elem_of_In. exact Hr.
Qed.

Lemma dedupeLoop_first pre d post seen u :
  Document.url d = Some u -> u <> "" -> u ∉ seen ->
  Forall (fun p => Document.url p <> Some u) pre ->
  In d (dedupeLoop (pre ++ d :: post) seen []).
Proof.
  intros Hu Hne Hout Hpre. revert seen Hout.
  induction Hpre as [|p pre Hp _ IH]; intros seen Hout.
  - simpl app. rewrite (dedupeLoop_keep d post seen u Hu Hne Hout). now left.
  - change ((p :: pre) ++ d :: post) with (p :: (pre ++ d :: post)).
    destruct (dedupeLoop_step p (pre ++ d :: post) seen)
      as [[_ ->] | [(u' & _ & _ & _ & ->) | (u' & Hu' & _ & _ & ->)]].
    + apply IH, Hout.
    + apply IH, Hout.
    + right. apply IH. rewrite elem_of_union, elem_of_singleton.
      intros [-> | Hin]; [congruence | contradiction].
Qed.

(** X3: [dedupeByUrl] returns a subsequence of its input in which every
    document has a non-empty URL and no URL occurs twice; for each URL it
    keeps the first document that carries it; and applying it again
    changes nothing. *)
Theorem dedupeByUrl_spec (hits : list Document.t) :
  sublist (dedupeByUrl hits) hits /\
  Forall (fun r => Js.truthy (Document.url r) = true) (dedupeByUrl hits) /\
  NoDup (map Document.url (dedupeByUrl hits)) /\
  (forall pre d post,
     hits = pre ++ d :: post -> Js.truthy (Document.url d) = true ->
     Forall (fun p => Document.url p <> Document.url d) pre ->
     In d (dedupeByUrl hits)) /\
  dedupeByUrl (dedupeByUrl hits) = dedupeByUrl hits.
Proof.
  unfold dedupeByUrl.
  destruct (dedupeLoop_result hits ∅) as (Hs & Hf & Hn).
  split; [exact Hs|]. split; [|split; [exact Hn|split]].
  - eapply Forall_impl; [exact Hf|]. cbn beta.
    intros r (u & -> & Hne & _). apply truthy_Some, Hne.
  - intros pre d post -> Hd Hpre.
    destruct (Document.url d) as [u|] eqn:Hu; [|discriminate].
    simpl in Hd. apply negb_true_iff, String.eqb_neq in Hd.
    apply (dedupeLoop_first pre d post ∅ u Hu Hd); [apply not_elem_of_empty|].
    exact Hpre.
  - apply dedupeLoop_fixed; assumption.
Qed.

(** ** The attribute filter, again *)

Lemma filter_idem {A} (f : A -> bool) (l : list A) :
  List.filter f (List.filter f l) = List.filter f l.
Proof.
  induction l as [|x l IH]; simpl; [reflexivity|].
  destruct (f x) eqn:Hx; simpl; [now rewrite Hx, IH | exact IH].
Qed.

Lemma filterByAttributes_eq hits color size :
  filterByAttributes hits color size
  = if negb (Js.truthy color) && negb (Js.truthy size) then hits
    else match List.filter (attributeMatch color size) hits with
         | [] => hits
         | x :: l => x :: l
         end.
Proof.
  unfold filterByAttributes. rewrite filterLoop_filter. simpl app.
  destruct (negb (Js.truthy color) && negb (Js.truthy size)); [reflexivity|].
  destruct (List.filter (attributeMatch color size) hits); reflexivity.
Qed.

(** X4: filtering twice by the same color and size is filtering once; and
    when an attribute is requested and some document passes the test,
    every returned document passes it. *)
Theorem filterByAttributes_idempotent (hits : list Document.t)
    (color size : option string) :
  filterByAttributes (filterByAttributes hits color size) color size
  = filterByAttributes hits color size /\
  (Js.truthy color = true \/ Js.truthy size = true ->
   Exists (fun h => attributeMatch color size h = true) hits ->
   Forall (fun h => attributeMatch color size h = true)
     (filterByAttributes hits color size)).
Proof.
  rewrite !filterByAttributes_eq.
  destruct (negb (Js.truthy color) && negb (Js.truthy size)) eqn:Hreq.
  - split; [reflexivity|]. intros [H | H] _; rewrite H in Hreq; simpl in Hreq;
      [discriminate | now rewrite andb_false_r in Hreq].
  - destruct (List.filter (attributeMatch color size) hits) as [|x l] eqn:Hsub.
    + rewrite Hsub. split; [reflexivity|].
      intros _ Hex. apply Exists_exists in Hex as (h & Hin & Hh).
      assert (In h (List.filter (attributeMatch color size) hits))
        by (apply filter_In; split; [apply list_elem_of_In; exact Hin | exact Hh]).
      rewrite Hsub in H. destruct H.
    + rewrite <- Hsub, filter_idem, Hsub. split; [reflexivity|].
      intros _ _. rewrite <- Hsub. apply Forall_forall. intros h Hin.
      apply list_elem_of_In, filter_In in Hin. tauto.
Qed.

Lemma filterByAttributes_idempotent_witness :
  Forall (fun h => attributeMatch blue sizeM h = true)
    (filterByAttributes [mug; hoodie; scarf] blue sizeM).
Proof.
  apply (filterByAttributes_idempotent [mug; hoodie; scarf] blue sizeM).
  - left. reflexivity.
  - right. left. reflexivity.
Defined.

Lemma filterByAttributes_In hits color size d :
  In d (filterByAttributes hits color size) -> In d hits.
Proof.
  rewrite filterByAttributes_eq.
  destruct (negb (Js.truthy color) && negb (Js.truthy size)); [auto|].
  destruct (List.filter (attributeMatch color size) hits) as [|x l] eqn:E; [auto|].
  rewrite <- E. intros H. apply filter_In in H. tauto.
Qed.

Lemma filterByAttributes_nonempty hits color size :
  hits <> [] -> filterByAttributes hits color size <> [].
Proof.
  intros Hne. rewrite filterByAttributes_eq.
  destruct (negb (Js.truthy color) && negb (Js.truthy size)); [exact Hne|].
  destruct (List.filter (attributeMatch color size) hits); [exact Hne | discriminate].
Qed.

(** ** Requested attributes *)

Lemma matchWordFrom_In alts prev s a :
  Js.matchWordFrom alts prev s = Some a ->
  In a alts /\ exists x y, s = x +:+ a +:+ y.
Proof.
  revert prev. induction s as [|c s IH]; intros prev; cbn [Js.matchWordFrom].
  - destruct (List.find (Js.matchWordAt prev "") alts) as [b|] eqn:E; [|discriminate].
    intros [= ->]. apply List.find_some in E as [Hin Hm]. split; [exact Hin|].
    unfold Js.matchWordAt in Hm. apply andb_true_iff in Hm as [_ Hm].
    destruct (Js.stripPrefix a "") as [r|] eqn:Hp; [|discriminate].
    apply stripPrefix_Some in Hp. exists "", r. exact Hp.
  - destruct (List.find (Js.matchWordAt prev (String c s)) alts) as [b|] eqn:E.
    + intros [= ->]. apply List.find_some in E as [Hin Hm]. split; [exact Hin|].
      unfold Js.matchWordAt in Hm. apply andb_true_iff in Hm as [_ Hm].
      destruct (Js.stripPrefix a (String c s)) as [r|] eqn:Hp; [|discriminate].
      apply stripPrefix_Some in Hp. exists "", r. exact Hp.
    + intros H. destruct (IH _ H) as (Hin & x & y & ->).
      split; [exact Hin|]. exists (String c x), y. reflexivity.
Qed.

(** X5: the color read from a message is one of the eight color names and
    occurs in the message; the size read from it is one of xs, s, m, l,
    xl, xxl, never "small", "medium" or "large". *)
Theorem requested_attributes_range (lower : string) :
  (forall c, colorOf lower = Some c ->
     In c colorNames /\ Js.includes lower c = true) /\
  (forall s, sizeOf lower = Some s ->
     In s normalSizes /\ Js.includes lower s = true).
Proof.
  split.
  - intros c H. unfold colorOf, Js.matchWord in H.
    apply matchWordFrom_In in H as (Hin & x & y & ->).
    split; [exact Hin|]. apply includes_iff. eauto.
  - intros s H. unfold sizeOf, Js.matchWord in H.
    destruct (Js.matchWordFrom sizeNames None lower) as [raw|] eqn:E; [|discriminate].
    injection H as <-.
    apply matchWordFrom_In in E as (Hin & x & y & ->).
    unfold sizeNames in Hin. simpl in Hin.
    destruct Hin as [<-|[<-|[<-|[<-|[<-|[<-|[<-|[<-|[<-|[]]]]]]]]]];
      (split; [vm_compute; tauto|]); apply includes_iff.
    + exists x, y. reflexivity.
    + exists x, y. reflexivity.
    + exists x, y. reflexivity.
    + exists x, y. reflexivity.
    + exists x, y. reflexivity.
    + exists x, y. reflexivity.
    + exists x, ("mall" +:+ y). reflexivity.
    + exists x, ("edium" +:+ y). reflexivity.
    + exists x, ("arge" +:+ y). reflexivity.
Qed.

Lemma requested_attributes_range_witness :
  (In "blue" colorNames /\ Js.includes (Js.toLowerCase hoodieQuestion) "blue" = true) /\
  (In "m" normalSizes /\ Js.includes "a medium mug" "m" = true).
Proof.
  split.
  - apply (requested_attributes_range (Js.toLowerCase hoodieQuestion)). reflexivity.
  - apply (requested_attributes_range "a medium mug"). reflexivity.
Defined.

Lemma dedupeByUrl_spec_witness :
  In hoodie (dedupeByUrl [hoodieNoUrl; mug; hoodie; hoodie]) /\
  dedupeByUrl [hoodieNoUrl; mug; hoodie; hoodie] = [mug; hoodie].
Proof.
  split; [|reflexivity].
  apply (dedupeByUrl_spec [hoodieNoUrl; mug; hoodie; hoodie])
    with (pre := [hoodieNoUrl; mug]) (post := [hoodie]).
  - reflexivity.
  - reflexivity.
  - repeat constructor; discriminate.
Defined.

(** ** The shape of a product answer *)

Lemma pushIf_appends c lines line :
  exists added, pushIf c lines line = lines ++ added.
Proof.
  destruct c; simpl; [exists [line] | exists []; rewrite app_nil_r]; reflexivity.
Qed.

Lemma pricePart_appends i pi vMatch lines :
  exists added, pricePart i pi vMatch lines = lines ++ added.
Proof. unfold pricePart. appends_by_cases. Qed.

Lemma availabilityPart_appends i vMatch lines :
  exists added, availabilityPart i vMatch lines = lines ++ added.
Proof. unfold availabilityPart. appends_by_cases. Qed.

Lemma materialsPart_appends i materials care snippet lines :
  exists added, materialsPart i materials care snippet lines = lines ++ added.
Proof. unfold materialsPart, pushIf. appends_by_cases. Qed.

Lemma optionsPart_appends i variants snippet lines :
  exists added, optionsPart i variants snippet lines = lines ++ added.
Proof. unfold optionsPart, pushIf. appends_by_cases. Qed.

Lemma warrantyPart_appends i warranty lines :
  exists added, warrantyPart i warranty lines = lines ++ added.
Proof. unfold warrantyPart. appends_by_cases. Qed.

Lemma shippingPart_appends i shippingInfo lines :
  exists added, shippingPart i shippingInfo lines = lines ++ added.
Proof. unfold shippingPart. appends_by_cases. Qed.

Lemma imagePart_appends i mainImageSrc lines :
  exists added, imagePart i mainImageSrc lines = lines ++ added.
Proof. unfold imagePart. appends_by_cases. Qed.

Lemma weightPart_appends i vMatch lines :
  exists added, weightPart i vMatch lines = lines ++ added.
Proof. unfold weightPart. appends_by_cases. Qed.

Lemma generalPart_appends i pi variants vMatch materials care snippet lines :
  exists added,
    generalPart i pi variants vMatch materials care snippet lines = lines ++ added.
Proof.
  unfold generalPart.
  destruct (negb (priceIntent i) && negb (availabilityIntent i)
            && negb (materialIntent i) && negb (optionsIntent i)
            && negb (warrantyIntent i) && negb (shippingIntent i)
            && negb (imageIntent i) && negb (weightIntent i));
    [|exists []; now rewrite app_nil_r].
  cbv zeta.
  destruct (pushIf_appends (Js.truthy (ProductInfo.best_price pi)) lines
              ("Price from: " +:+ Js.orElse (ProductInfo.best_price pi) ""))
    as [a1 ->].
  destruct (pushIf_appends (nonEmpty materials) (lines ++ a1)
              ("Materials: " +:+ materials)) as [a2 ->].
  destruct (pushIf_appends (nonEmpty care) ((lines ++ a1) ++ a2)
              ("Care: " +:+ care)) as [a3 ->].
  match goal with
  | |- context [pushIf ?c ?l ?x] =>
      destruct (pushIf_appends c l x) as [a5 ->];
      assert (exists a4, l = (((lines ++ a1) ++ a2) ++ a3) ++ a4) as [a4 ->]
  end.
  { destruct variants; [exists []; now rewrite app_nil_r|].
    destruct vMatch as [v|]; [|exists []; now rewrite app_nil_r].
    destruct (Variant.available v);
      [eexists; reflexivity | exists []; now rewrite app_nil_r]. }
  eexists. rewrite <- !app_assoc. reflexivity.
Qed.

(** The lines of one product answer: the title, or "Product", then the
    facts, then the link. *)
Lemma productLines_shape i color size r :
  exists facts,
    productLines i color size r
    = Js.orElse (Document.title r) "Product"
      :: facts ++ ["More details: " +:+ Js.orElse (Document.url r) ""].
Proof.
  unfold productLines. cbv zeta.
  set (pi := default ProductInfo.empty (Document.product_info r)).
  set (variants := default [] (ProductInfo.variants pi)).
  set (vMatch := match List.find (variantMatches color size) variants with
                 | Some v => Some v
                 | None => head variants
                 end).
  set (snippet := Js.trim (Js.take 220 (Js.orElse (Document.text r) ""))).
  set (materials := Js.trim (Js.orElse (ProductInfo.materials pi) "")).
  set (care := Js.trim (Js.orElse (ProductInfo.care pi) "")).
  destruct (pricePart_appends i pi vMatch [Js.orElse (Document.title r) "Product"])
    as [a1 ->].
  destruct (availabilityPart_appends i vMatch
              ([Js.orElse (Document.title r) "Product"] ++ a1)) as [a2 ->].
  match goal with |- context [materialsPart i materials care snippet ?l] =>
    destruct (materialsPart_appends i materials care snippet l) as [a3 ->] end.
  match goal with |- context [optionsPart i variants snippet ?l] =>
    destruct (optionsPart_appends i variants snippet l) as [a4 ->] end.
  match goal with |- context [warrantyPart i ?x ?l] =>
    destruct (warrantyPart_appends i x l) as [a5 ->] end.
  match goal with |- context [shippingPart i ?x ?l] =>
    destruct (shippingPart_appends i x l) as [a6 ->] end.
  match goal with |- context [imagePart i ?x ?l] =>
    destruct (imagePart_appends i x l) as [a7 ->] end.
  match goal with |- context [weightPart i vMatch ?l] =>
    destruct (weightPart_appends i vMatch l) as [a8 ->] end.
  match goal with |- context [generalPart i pi variants vMatch materials care snippet ?l] =>
    destruct (generalPart_appends i pi variants vMatch materials care snippet l)
      as [a9 ->] end.
  exists (a1 ++ a2 ++ a3 ++ a4 ++ a5 ++ a6 ++ a7 ++ a8 ++ a9).
  rewrite <- !app_assoc. reflexivity.
Qed.

Lemma dedupeLoop_nil_seen hits seen :
  dedupeLoop hits seen [] = [] ->
  Forall (fun h => Js.truthy (Document.url h) = false \/
                   exists u, Document.url h = Some u /\ u ∈ seen) hits.
Proof.
  induction hits as [|h rest IH]; intros H; [constructor|].
  destruct (dedupeLoop_step h rest seen)
    as [[Ht E] | [(u & Hu & _ & Hin & E) | (u & _ & _ & _ & E)]];
    rewrite E in H; [| |discriminate].
  - constructor; [left; exact Ht | apply IH, H].
  - constructor; [right; eauto | apply IH, H].
Qed.

Lemma dedupeLoop_nil hits :
  dedupeLoop hits ∅ [] = [] ->
  Forall (fun h => Js.truthy (Document.url h) = false) hits.
Proof.
  intros H. eapply Forall_impl; [apply (dedupeLoop_nil_seen hits ∅ H)|].
  cbn beta. intros h [Ht | (u & _ & Hin)]; [exact Ht|].
  now apply not_elem_of_empty in Hin.
Qed.

Lemma join_two_nonempty sep x y l : sep <> "" -> Js.join sep (x :: y :: l) <> "".
Proof.
  intros Hsep. rewrite join_cons2. destruct x; [|discriminate].
  destruct sep; [contradiction | discriminate].
Qed.

(** X6: a product answer is empty exactly when no hit has a URL;
    otherwise it is one block about one hit that has a URL: first the
    title of that hit (or "Product"), last the line "More details: " with
    its URL. *)
Theorem formatProductAnswer_shape (query : string) (hits : list Document.t) :
  (Forall (fun h => Js.truthy (Document.url h) = false) hits /\
   formatProductAnswer query hits = "") \/
  (exists d facts,
     In d hits /\ Js.truthy (Document.url d) = true /\
     formatProductAnswer query hits
     = Js.join Js.nl
         (Js.orElse (Document.title d) "Product"
          :: facts ++ ["More details: " +:+ Js.orElse (Document.url d) ""]) /\
     formatProductAnswer query hits <> "").
Proof.
  unfold formatProductAnswer.
  destruct (dedupeLoop_result hits ∅) as (Hsub & Hkept & _).
  destruct (dedupeLoop hits ∅ []) as [|u0 us] eqn:Hu.
  - left. split; [apply dedupeLoop_nil, Hu|].
    unfold filterByAttributes. destruct (negb _ && negb _); reflexivity.
  - right.
    set (color := colorOf (Js.toLowerCase query)).
    set (size := sizeOf (Js.toLowerCase query)).
    pose proof (filterByAttributes_nonempty (u0 :: us) color size) as Hne.
    pose proof (filterByAttributes_In (u0 :: us) color size) as Hin.
    destruct (filterByAttributes (u0 :: us) color size) as [|d rest];
      [exfalso; apply Hne; [discriminate | reflexivity]|].
    assert (Hd : In d (u0 :: us)) by (apply Hin; now left).
    destruct (productLines_shape (intentsOf (Js.toLowerCase query)) color size d)
      as [facts Hlines].
    exists d, facts.
    split; [apply list_elem_of_In; eapply elem_of_sublist;
            [apply list_elem_of_In; exact Hd | exact Hsub]|].
    split.
    + rewrite Forall_forall in Hkept.
      destruct (Hkept d (proj2 (list_elem_of_In _ _) Hd)) as (u & -> & Hne' & _).
      apply truthy_Some, Hne'.
    + cbn [firstn map Js.join]. rewrite Hlines. split; [reflexivity|].
      destruct facts as [|f facts]; apply join_two_nonempty; discriminate.
Qed.

(** ** Replies built from documents *)

(** X7: a reply depends on the first three documents only, and a search
    result that is not an array counts as no document. *)
Theorem generateResponse_top_three (message : string) (docs : list Document.t) :
  generateResponse message (JArray docs)
  = generateResponse message (JArray (firstn 3 docs)) /\
  generateResponse message JOther = generateResponse message (JArray []).
Proof.
  unfold generateResponse. cbn [arrayOrEmpty].
  rewrite take_take, Nat.min_id. split; reflexivity.
Qed.

Lemma length_append (a b : string) :
  String.length (a +:+ b) = String.length a + String.length b.
Proof.
  induction a as [|c a IH]; [reflexivity|].
  rewrite append_cons. simpl. now rewrite IH.
Qed.

Lemma length_take (n : nat) (s : string) : String.length (Js.take n s) <= n.
Proof.
  revert s. induction n as [|n IH]; intros s; [reflexivity|].
  destruct s as [|c s]; simpl; [lia|]. specialize (IH s). lia.
Qed.

(** X8: the reply to a message that is neither personalized nor about a
    product has at most 1020 characters, whatever the search returned:
    at most 300 characters of each of at most three documents are
    quoted. *)
Theorem general_reply_bounded (message : string) (results : Json) :
  isPersonalizedQuery message = false ->
  isProductQuery message = false ->
  String.length (generateResponse message results) <= generalReplyBound.
Proof.
  intros Hp Hq. unfold generateResponse. rewrite Hp, Hq.
  destruct (Nat.eqb (length (firstn 3 (arrayOrEmpty results))) 0);
    [vm_compute; lia|].
  rewrite !length_append.
  change (String.length "Based on the information I found:") with 33.
  change (String.length Js.nl) with 1.
  change (String.length "Would you like me to provide more specific details about any particular aspect?") with 79.
  unfold generalReplyBound.
  enough (String.length
            (Js.join (Js.nl +:+ Js.nl)
               (map (fun r => Js.take 300 (Js.orElse (Document.text r) ""))
                  (firstn 3 (arrayOrEmpty results)))) <= 904) by lia.
  destruct (arrayOrEmpty results) as [|d1 [|d2 [|d3 rest]]];
    cbn [firstn map Js.join];
    try change (firstn 0 rest) with (@nil Document.t);
    cbn [map]; rewrite ?length_append;
    change (String.length Js.nl) with 1;
    try pose proof (length_take 300 (Js.orElse (Document.text d1) ""));
    try pose proof (length_take 300 (Js.orElse (Document.text d2) ""));
    try pose proof (length_take 300 (Js.orElse (Document.text d3) ""));
    change (String.length "") with 0; lia.
Qed.

Lemma general_reply_bounded_witness :
  String.length (generateResponse "hello there" (JArray fourDocs)) <= generalReplyBound.
Proof.
  apply (general_reply_bounded "hello there" (JArray fourDocs)); reflexivity.
Defined.

(** ** The chat handler: refusals, failures and the store *)

Section Handlers.

Variable env : Env.

Lemma searchResult_yields n query raw :
  searchResult env n query = Some raw <-> searchYields env n query raw.
Proof.
  unfold searchResult, searchYields.
  destruct (Z.eqb_spec (exitCode (runSearch env n query 5)) 0) as [Hc|Hc].
  - destruct (parsed (runSearch env n query 5)) as [r|msg].
    + split; [intros [= ->]; auto | intros [_ [= ->]]; reflexivity].
    + split; [discriminate | intros [_ H]; discriminate].
  - split; [discriminate | intros [H _]; contradiction].
Qed.

Lemma searchResult_fails n query :
  searchResult env n query = None <-> searchFails env n query.
Proof.
  unfold searchResult, searchFails.
  destruct (Z.eqb_spec (exitCode (runSearch env n query 5)) 0) as [Hc|Hc].
  - destruct (parsed (runSearch env n query 5)) as [r|msg].
    + split; [discriminate | intros [H | [m H]]; [contradiction | discriminate]].
    + split; [eauto | reflexivity].
  - split; [auto | reflexivity].
Qed.

(** X9: the chat handler answers 400 exactly when the message or the
    session identifier is missing or empty, and then nothing changes: no
    session is created, no message stored, no search run. *)
Theorem chat_refusal (req : ChatRequest) (w : World) :
  (Js.truthy (reqMessage req) && Js.truthy (reqSessionId req) = false ->
   chat env req w
   = (mkResponse 400 (ErrorBody "Message and sessionId are required" None), w)) /\
  (Js.truthy (reqMessage req) && Js.truthy (reqSessionId req) = true ->
   status (fst (chat env req w)) <> 400).
Proof.
  split; [apply chat_invalid|].
  intros Hv. apply andb_true_iff in Hv as [Hm Hs].
  rewrite (chat_cases env req w Hm Hs). cbv zeta.
  destruct (fst (firstHalf _ _ _ _)); [|discriminate].
  destruct (fst (searchKnowledgeBase _ _ _ _)); discriminate.
Qed.

(** X10: for a request whose message and session identifier are texts
    that are not empty, and searches whose documents have the typed
    fields of the data model: the status is 500 exactly when the message
    is not an order-tracking one and its first search fails, and 200
    otherwise; the turn runs one search for an order-tracking message and
    two otherwise, or one when the first fails.  (A message that is not a
    text, or a document field of another type, makes the handler throw a
    [TypeError], answered 500; the request and the documents of the model
    leave these out.) *)
Theorem chat_outcome (req : ChatRequest) (w : World) :
  wfWorld w ->
  Js.truthy (reqMessage req) = true ->
  Js.truthy (reqSessionId req) = true ->
  let message := Js.orElse (reqMessage req) "" in
  status (fst (chat env req w))
  = (if isOrderTrackingQuery message then 200
     else match searchResult env (length (searchLog w)) message with
          | Some _ => 200
          | None => 500
          end) /\
  length (searchLog (snd (chat env req w)))
  = length (searchLog w) + searchesOfTurn env message w.
Proof.
  intros Hwf Hm Hs message.
  rewrite (chat_cases env req w Hm Hs). cbv zeta. fold message.
  set (sessionId := Js.orElse (reqSessionId req) "").
  pose proof (entered_log env sessionId message w) as Hlog.
  pose proof (entered_deref env sessionId message w Hwf) as Hder.
  set (session := fst (entered env sessionId message w)) in *.
  set (w1 := snd (entered env sessionId message w)) in *.
  destruct (firstHalf_frame env message session w1) as [_ Hlog2].
  unfold searchesOfTurn.
  destruct (isOrderTrackingQuery message) eqn:Htrack.
  - destruct (firstHalf_returns env message session w1 Hder) as [r Hr];
      [intros H; rewrite Htrack in H; discriminate|].
    rewrite Hr. pose proof (search_logs env message (snd (firstHalf env message session w1))) as Hsl.
    destruct (searchKnowledgeBase env message 5 (snd (firstHalf env message session w1)))
      as [[raw|e] w3]; simpl in Hsl |- *;
      rewrite length_app, Hlog2, app_nil_r, Hlog; simpl; split; reflexivity || lia.
  - destruct (searchResult env (length (searchLog w)) message) as [r0|] eqn:Hres.
    + apply searchResult_yields in Hres.
      destruct (firstHalf_returns env message session w1 Hder) as [r Hr];
        [intros _; rewrite Hlog; eauto|].
      rewrite Hr.
      destruct (searchKnowledgeBase env message 5 (snd (firstHalf env message session w1)))
        as [[raw|e] w3]; simpl;
        rewrite length_app, Hlog2, length_app, Hlog; simpl; split; reflexivity || lia.
    + apply searchResult_fails in Hres. rewrite <- Hlog in Hres.
      destruct (firstHalf_throws env message session w1 Htrack Hres) as [err Herr].
      rewrite Herr. simpl. rewrite Hlog2, length_app, Hlog. simpl.
      split; reflexivity || lia.
Qed.

Lemma entered_store sessionId message w :
  userSessions (snd (entered env sessionId message w)) = userSessions w.
Proof. unfold entered. destruct (userSessions w !! sessionId); reflexivity. Qed.

Lemma entered_owns sessionId message w :
  goodStore w -> owns w sessionId (fst (entered env sessionId message w)).
Proof.
  intros [Hwf Hd] sid Hsid. unfold entered in Hsid.
  destruct (userSessions w !! sessionId) as [l|] eqn:Hl; simpl in Hsid.
  - exact (Hd _ _ _ Hsid Hl).
  - apply Hwf in Hsid. lia.
Qed.

(** Entering a turn leaves the objects of the other sessions alone. *)
Lemma entered_other sessionId message w l' :
  wfWorld w -> l' < length (heap w) ->
  l' <> fst (entered env sessionId message w) ->
  heap (snd (entered env sessionId message w)) !! l' = heap w !! l'.
Proof.
  intros Hwf Hlt. unfold entered.
  destruct (userSessions w !! sessionId) as [l|]; simpl; intros Hne.
  - apply list_lookup_alter_ne. congruence.
  - apply lookup_app_l. exact Hlt.
Qed.

(** The user message is pushed onto the stored object itself. *)
Lemma entered_same sessionId message w l s :
  userSessions w !! sessionId = Some l -> heap w !! l = Some s ->
  fst (entered env sessionId message w) = l /\
  heap (snd (entered env sessionId message w)) !! l
  = Some (pushed (Message.mk user message (now env (clockReads w)) None) s).
Proof.
  intros Hl Hs. unfold entered. rewrite Hl. simpl. split; [reflexivity|].
  rewrite list_lookup_alter_eq, Hs. reflexivity.
Qed.

(** The world at the end of a turn with a message and a session
    identifier: the world after the user message, with or without the
    assistant message pushed and the session stored. *)
Lemma chat_world req w :
  Js.truthy (reqMessage req) = true ->
  Js.truthy (reqSessionId req) = true ->
  let message := Js.orElse (reqMessage req) "" in
  let sessionId := Js.orElse (reqSessionId req) "" in
  let session := fst (entered env sessionId message w) in
  let w1 := snd (entered env sessionId message w) in
  let w' := snd (chat env req w) in
  (heap w' = heap w1 /\ userSessions w' = userSessions w) \/
  (exists a,
     Message.role a = assistant /\
     heap w' = alter (pushed a) session (heap w1) /\
     userSessions w' = <[sessionId := session]> (userSessions w)).
Proof.
  intros Hm Hs message sessionId session w1 w'. unfold w'.
  rewrite (chat_cases env req w Hm Hs). cbv zeta.
  fold message sessionId session w1.
  pose proof (entered_store sessionId message w) as Hst. fold w1 in Hst.
  destruct (firstHalf_frame env message session w1) as [(Hh & Hu & _) _].
  destruct (firstHalf env message session w1) as [[r|e] w2]; simpl in *.
  - destruct (fst (searchKnowledgeBase env message 5 w2)) as [raw|e]; simpl.
    + right. eexists. split; [|split].
      2: { rewrite Hh. reflexivity. }
      * reflexivity.
      * rewrite Hu, Hst. reflexivity.
    + left. rewrite Hh, Hu, Hst. auto.
  - left. rewrite Hh, Hu, Hst. auto.
Qed.

(** The handler keeps the store well formed, with one object per
    identifier. *)
Lemma chat_preserves_good req w :
  goodStore w -> goodStore (snd (chat env req w)).
Proof.
  intros Hgood. split; [apply chat_preserves_wf, Hgood|].
  destruct (Js.truthy (reqMessage req) && Js.truthy (reqSessionId req)) eqn:Hv.
  2: { rewrite (chat_invalid env req w Hv). apply Hgood. }
  apply andb_true_iff in Hv as [Hm Hs].
  pose proof (entered_owns (Js.orElse (reqSessionId req) "")
                (Js.orElse (reqMessage req) "") w Hgood) as Hown.
  destruct (chat_world req w Hm Hs) as [[_ Hu] | (a & _ & _ & Hu)];
    intros x y l; rewrite Hu.
  - apply Hgood.
  - destruct (decide (Js.orElse (reqSessionId req) "" = x)) as [<-|Hx],
             (decide (Js.orElse (reqSessionId req) "" = y)) as [<-|Hy];
      rewrite ?lookup_insert_eq, ?lookup_insert_ne by assumption.
    + reflexivity.
    + intros [= <-] Hy'. symmetry. apply Hown, Hy'.
    + intros Hx' [= <-]. apply Hown, Hx'.
    + apply Hgood.
Qed.

(** A turn of one session never touches another session: what is
    stored under any other identifier is the same before and after,
    however the turn ends. *)
Lemma chat_frame_others (req : ChatRequest) (w : World) (other : string) :
  goodStore w ->
  other <> Js.orElse (reqSessionId req) "" ->
  storedSession (snd (chat env req w)) other = storedSession w other.
Proof.
  intros Hgood Hother.
  destruct (Js.truthy (reqMessage req) && Js.truthy (reqSessionId req)) eqn:Hv.
  2: { now rewrite (chat_invalid env req w Hv). }
  apply andb_true_iff in Hv as [Hm Hs].
  set (sessionId := Js.orElse (reqSessionId req) "") in *.
  set (message := Js.orElse (reqMessage req) "").
  pose proof (entered_owns sessionId message w Hgood) as Hown.
  unfold storedSession.
  assert (Hlook : userSessions (snd (chat env req w)) !! other
                  = userSessions w !! other).
  { destruct (chat_world req w Hm Hs) as [[_ ->] | (a & _ & _ & ->)];
      [reflexivity|].
    apply lookup_insert_ne. fold sessionId. congruence. }
  rewrite Hlook. destruct (userSessions w !! other) as [l'|] eqn:Hl'; [|reflexivity].
  assert (Hne : l' <> fst (entered env sessionId message w)).
  { intros ->. apply Hother. apply Hown, Hl'. }
  destruct Hgood as [Hwf _].
  rewrite <- (entered_other sessionId message w l' Hwf (Hwf _ _ Hl') Hne).
  destruct (chat_world req w Hm Hs) as [[-> _] | (a & _ & -> & _)];
    [reflexivity|].
  apply list_lookup_alter_ne. fold sessionId message. congruence.
Qed.

(** X11: a turn of one session never touches another session: what is
    stored under any other identifier is the same before and after,
    however the turn ends. *)
Theorem chat_other_sessions (req : ChatRequest) (w : World) (other : string) :
  goodStore w ->
  other <> Js.orElse (reqSessionId req) "" ->
  storedSession (snd (chat env req w)) other = storedSession w other.
Proof. exact (chat_frame_others req w other). Qed.

(** X12: when a request is handled from its arrival to its answer with
    no other request in between, the history of a stored session only
    grows: after the request the session is still stored, with the same
    identifier, creation time and context, and its messages are the old
    ones followed by at most two new ones. *)
Theorem chat_append_only (req : ChatRequest) (w : World) (sid : string)
    (s : Session.t) :
  goodStore w ->
  storedSession w sid = Some s ->
  exists s' added,
    storedSession (snd (chat env req w)) sid = Some s' /\
    Session.messages s' = Session.messages s ++ added /\
    length added <= 2 /\
    Session.id s' = Session.id s /\
    Session.createdAt s' = Session.createdAt s /\
    Session.context s' = Session.context s.
Proof.
  intros Hgood Hstored.
  assert (Hsame : forall w', storedSession w' sid = Some s ->
            exists s' added,
              storedSession w' sid = Some s' /\
              Session.messages s' = Session.messages s ++ added /\
              length added <= 2 /\
              Session.id s' = Session.id s /\
              Session.createdAt s' = Session.createdAt s /\
              Session.context s' = Session.context s).
  { intros w' H. exists s, []. rewrite app_nil_r. simpl. repeat split; auto. }
  destruct (decide (sid = Js.orElse (reqSessionId req) "")) as [->|Hne].
  2: { apply Hsame. now rewrite chat_frame_others. }
  destruct (Js.truthy (reqMessage req) && Js.truthy (reqSessionId req)) eqn:Hv.
  2: { apply Hsame. now rewrite (chat_invalid env req w Hv). }
  apply andb_true_iff in Hv as [Hm Hs].
  set (sessionId := Js.orElse (reqSessionId req) "") in *.
  set (message := Js.orElse (reqMessage req) "").
  unfold storedSession in Hstored.
  destruct (userSessions w !! sessionId) as [l|] eqn:Hl; [|discriminate].
  destruct (entered_same sessionId message w l s Hl Hstored) as [Hfst Hheap].
  unfold storedSession.
  destruct (chat_world req w Hm Hs) as [[-> ->] | (a & _ & -> & ->)];
    fold sessionId message.
  - rewrite Hl, Hheap. eexists _, [_]. split; [reflexivity|].
    simpl. repeat split; auto.
  - rewrite lookup_insert_eq, Hfst, list_lookup_alter_eq, Hheap. simpl.
    eexists _, [_; a]. split; [reflexivity|].
    simpl. rewrite <- app_assoc. repeat split; auto.
Qed.

(** X13: in a turn whose searches all end well and during which no other
    request is handled, the reply sent is the content of the assistant
    message stored last, after the user message; that message keeps a
    source for every retrieved document, of which the response carries
    the first three. *)
Theorem chat_reply_recorded (req : ChatRequest) (w : World) (raw : Json) :
  wfWorld w ->
  Js.truthy (reqMessage req) = true ->
  Js.truthy (reqSessionId req) = true ->
  let message := Js.orElse (reqMessage req) "" in
  let sessionId := Js.orElse (reqSessionId req) "" in
  let n := length (searchLog w) in
  (isOrderTrackingQuery message = false ->
     exists r0, searchYields env n message r0) ->
  searchYields env (if isOrderTrackingQuery message then n else S n) message raw ->
  exists reply sources earlier u a kept,
    body (fst (chat env req w)) = ChatBody reply sessionId (Some sources) /\
    storedMessages (snd (chat env req w)) sessionId = Some (earlier ++ [u; a]) /\
    Message.role u = user /\ Message.content u = message /\
    Message.role a = assistant /\ Message.content a = reply /\
    Message.searchResults a = Some kept /\
    length kept = length (arrayOrEmpty raw) /\
    sources = firstn 3 kept.
Proof.
  intros Hwf Hm Hs message sessionId n Hfirst Hlast.
  destruct (chat_ok env req w raw Hwf Hm Hs Hfirst Hlast)
    as (w' & k & E & _ & _ & Hstored).
  rewrite E. simpl fst. simpl snd. simpl body.
  do 6 eexists. split; [reflexivity|]. split; [exact Hstored|].
  simpl. repeat split; try reflexivity.
  - apply length_map.
  - symmetry. apply firstn_map.
Qed.

(** X14: with a search that always ends well, [N] turns of one session,
    each answered before the next request arrives, append [2N] messages
    to it, a user message then an assistant message per turn, the user
    messages being the ones sent; the time stamps are clock readings
    taken in that order, so they increase strictly when the clock
    does. *)
Theorem turns_append_pairs (sid : string) (msgs : list string) (w : World) :
  healthy env -> wfWorld w -> sid <> "" ->
  Forall (fun m => m <> "") msgs ->
  exists added,
    default [] (storedMessages (turns env sid msgs w) sid)
    = default [] (storedMessages w sid) ++ added /\
    length added = 2 * length msgs /\
    map Message.role added = turnRoles (length msgs) /\
    map Message.content (List.filter
          (fun m => match Message.role m with user => true | assistant => false end)
          added) = msgs /\
    ((forall i j, i < j -> (now env i < now env j)%Z) ->
     StronglySorted Z.lt (map Message.timestamp added)).
Proof.
  intros Hh Hwf Hsid Hmsgs.
  destruct (healthy_turns env sid msgs w Hh Hwf Hsid Hmsgs)
    as (added & ks & Hadd & Hlen & Hroles & Hcont & Hts & _ & Hsorted).
  exists added. repeat split; auto.
  intros Hclock. rewrite Hts. clear - Hsorted Hclock.
  induction Hsorted as [|k ks _ IH Hall]; simpl; constructor; [exact IH|].
  apply Forall_forall. intros t Ht.
  apply list_elem_of_In, in_map_iff in Ht as (j & <- & Hj).
  apply Hclock. rewrite Forall_forall in Hall.
  apply Hall, list_elem_of_In, Hj.
Qed.

(** ** Order tracking *)

Lemma statuses_nth i :
  In (nth (i mod 5) statuses (mkTracking "" "")) statuses.
Proof.
  apply nth_In. change (length statuses) with 5.
  apply Nat.mod_upper_bound. discriminate.
Qed.


(** [handleOrderTracking] only reads the session and draws at most
    one random number: sessions, store, search log and clock stay as they
    are.  Without an order identifier in the session it asks for one and
    draws nothing; with one it draws exactly one number and gives the
    status line of the status at that index, one of the five fixed
    statuses. *)
Lemma handleOrderTracking_cases (message : string) (l : nat) (w : World)
    (s : Session.t) :
  heap w !! l = Some s ->
  let r := handleOrderTracking env message l w in
  sameStore w (snd r) /\ searchLog (snd r) = searchLog w /\
  (Js.truthy (orderId (Session.context s)) = false ->
     r = (inl askForOrderId, w)) /\
  (Js.truthy (orderId (Session.context s)) = true ->
     exists info, In info statuses /\
       fst r = inl (statusLine (Js.orElse (orderId (Session.context s)) "") info) /\
       nth_error statuses (randomIndex env (randomDraws w) mod 5) = Some info /\
       randomDraws (snd r) = S (randomDraws w)).
Proof.
  intros Hs r.
  destruct (handleOrderTracking_frame env message l w) as [Hsame Hlog].
  split; [exact Hsame|]. split; [exact Hlog|]. split.
  - intros Ho. apply (handleOrderTracking_asks env message l w s Hs Ho).
  - intros Ho. unfold r, handleOrderTracking, bind, deref,
      generateMockTrackingInfo, bind, drawRandom, ret.
    rewrite Hs, Ho. cbn [fst snd randomDraws].
    exists (nth (randomIndex env (randomDraws w) mod 5) statuses (mkTracking "" "")).
    split; [apply statuses_nth|]. split; [reflexivity|].
    split; [|reflexivity].
    apply nth_error_nth'. change (length statuses) with 5.
    apply Nat.mod_upper_bound. discriminate.
Qed.

(** X15: [handleOrderTracking] only reads the session and draws at most
    one random number: sessions, store, search log and clock stay as they
    are.  Without an order identifier in the session it asks for one and
    draws nothing; with one it draws exactly one number and gives the
    status line of the status at that index, one of the five fixed
    statuses. *)
Theorem order_tracking_reply (message : string) (l : nat) (w : World)
    (s : Session.t) :
  heap w !! l = Some s ->
  let r := handleOrderTracking env message l w in
  sameStore w (snd r) /\ searchLog (snd r) = searchLog w /\
  (Js.truthy (orderId (Session.context s)) = false ->
     r = (inl askForOrderId, w)) /\
  (Js.truthy (orderId (Session.context s)) = true ->
     exists info, In info statuses /\
       fst r = inl (statusLine (Js.orElse (orderId (Session.context s)) "") info) /\
       nth_error statuses (randomIndex env (randomDraws w) mod 5) = Some info /\
       randomDraws (snd r) = S (randomDraws w)).
Proof. exact (handleOrderTracking_cases message l w s). Qed.

Lemma trackOrder_invalid req w :
  Js.truthy (trkOrderId req) && Js.truthy (trkSessionId req) = false ->
  trackOrder env req w
  = (mkResponse 400 (ErrorBody "Order ID and session ID are required" None), w).
Proof.
  intros H. unfold trackOrder, trackOrderTry.
  destruct (Js.truthy (trkOrderId req)), (Js.truthy (trkSessionId req));
    try discriminate; reflexivity.
Qed.

Lemma trackOrder_valid req w :
  Js.truthy (trkOrderId req) = true ->
  Js.truthy (trkSessionId req) = true ->
  trackOrder env req w
  = (mkResponse 200
       (TrackBody true (Js.orElse (trkOrderId req) "")
          (nth (randomIndex env (randomDraws w) mod 5) statuses (mkTracking "" ""))),
     tracked env req w).
Proof.
  intros Ho Hs.
  unfold trackOrder, trackOrderTry, tracked, located. rewrite Ho, Hs. simpl.
  unfold bind, getOrCreate, mutate, setSession, generateMockTrackingInfo, bind,
    drawRandom, ret, readClock, alloc, bind, trackedContext.
  destruct (userSessions w !! Js.orElse (trkSessionId req) ""); reflexivity.
Qed.

(** X16: the order-tracking endpoint answers 400 exactly when the order
    identifier or the session identifier is missing or empty, and then
    nothing changes; otherwise it answers 200 with the order identifier
    and one of the five fixed statuses, and never 500. *)
Theorem trackOrder_answers (req : TrackRequest) (w : World) :
  (Js.truthy (trkOrderId req) && Js.truthy (trkSessionId req) = false ->
   trackOrder env req w
   = (mkResponse 400 (ErrorBody "Order ID and session ID are required" None), w)) /\
  (Js.truthy (trkOrderId req) && Js.truthy (trkSessionId req) = true ->
   exists info,
     In info statuses /\
     fst (trackOrder env req w)
     = mkResponse 200 (TrackBody true (Js.orElse (trkOrderId req) "") info)).
Proof.
  split; [apply trackOrder_invalid|].
  intros Hv. apply andb_true_iff in Hv as [Ho Hs].
  rewrite (trackOrder_valid req w Ho Hs). simpl.
  eexists. split; [apply statuses_nth | reflexivity].
Qed.

Lemma located_store sessionId w :
  userSessions (snd (located env sessionId w)) = userSessions w /\
  searchLog (snd (located env sessionId w)) = searchLog w.
Proof. unfold located. destruct (userSessions w !! sessionId); auto. Qed.

Lemma located_owns sessionId w :
  goodStore w -> owns w sessionId (fst (located env sessionId w)).
Proof.
  intros [Hwf Hd] sid Hsid. unfold located in Hsid.
  destruct (userSessions w !! sessionId) as [l|] eqn:Hl; simpl in Hsid.
  - exact (Hd _ _ _ Hsid Hl).
  - apply Hwf in Hsid. lia.
Qed.

Lemma located_bound sessionId w :
  wfWorld w ->
  fst (located env sessionId w) < length (heap (snd (located env sessionId w))).
Proof.
  intros Hwf. unfold located.
  destruct (userSessions w !! sessionId) as [l|] eqn:Hl; simpl.
  - eapply Hwf, Hl.
  - rewrite length_app. simpl. lia.
Qed.

Lemma located_other sessionId w l' :
  l' < length (heap w) ->
  heap (snd (located env sessionId w)) !! l' = heap w !! l'.
Proof.
  intros Hlt. unfold located.
  destruct (userSessions w !! sessionId); simpl; [reflexivity|].
  apply lookup_app_l, Hlt.
Qed.

(** The session that the endpoint works on: the stored one, or a new one
    without context and without messages. *)
Lemma located_session sessionId w :
  wfWorld w ->
  exists s,
    heap (snd (located env sessionId w)) !! fst (located env sessionId w) = Some s /\
    Session.messages s = default [] (storedMessages w sessionId) /\
    match storedSession w sessionId with
    | Some s0 => s = s0
    | None => Session.context s = mkContext None None
    end.
Proof.
  intros Hwf. unfold located, storedMessages, storedSession.
  destruct (userSessions w !! sessionId) as [l|] eqn:Hl; simpl.
  - destruct (lookup_lt_is_Some_2 (heap w) l (Hwf _ _ Hl)) as [s Hs].
    rewrite Hs. exists s. auto.
  - eexists. rewrite lookup_app_r by lia. rewrite Nat.sub_diag. simpl.
    split; [reflexivity|]. auto.
Qed.

Lemma tracked_good req w : goodStore w -> goodStore (tracked env req w).
Proof.
  intros Hgood. pose proof Hgood as [Hwf Hd].
  set (sessionId := Js.orElse (trkSessionId req) "").
  pose proof (located_owns sessionId w Hgood) as Hown.
  pose proof (located_bound sessionId w Hwf) as Hb.
  destruct (located_store sessionId w) as [Hu _].
  split.
  - intros sid l. unfold tracked. fold sessionId. simpl. rewrite length_alter, Hu.
    destruct (decide (sessionId = sid)) as [<-|Hne].
    + rewrite lookup_insert_eq. intros [= <-]. exact Hb.
    + rewrite lookup_insert_ne by exact Hne. intros H. apply Hwf in H.
      unfold located. destruct (userSessions w !! sessionId); simpl; [exact H|].
      rewrite length_app. lia.
  - intros x y l. unfold tracked. fold sessionId. simpl. rewrite Hu.
    destruct (decide (sessionId = x)) as [<-|Hx],
             (decide (sessionId = y)) as [<-|Hy];
      rewrite ?lookup_insert_eq, ?lookup_insert_ne by assumption.
    + reflexivity.
    + intros [= <-] Hy'. symmetry. apply Hown, Hy'.
    + intros Hx' [= <-]. apply Hown, Hx'.
    + apply Hd.
Qed.

(** A complete order-tracking request stores the order identifier in
    the context of the session, creating the session when it is new; it
    replaces the customer information only when some is given; it leaves
    the messages of the session, every other session and the search log
    as they were. *)
Lemma tracked_session (req : TrackRequest) (w : World) :
  goodStore w ->
  Js.truthy (trkOrderId req) = true ->
  Js.truthy (trkSessionId req) = true ->
  let sessionId := Js.orElse (trkSessionId req) "" in
  let w' := snd (trackOrder env req w) in
  goodStore w' /\
  searchLog w' = searchLog w /\
  (forall other, other <> sessionId ->
     storedSession w' other = storedSession w other) /\
  exists s',
    storedSession w' sessionId = Some s' /\
    orderId (Session.context s') = Some (Js.orElse (trkOrderId req) "") /\
    Session.messages s' = default [] (storedMessages w sessionId) /\
    customerInfo (Session.context s')
    = (if Js.truthy (trkCustomerInfo req) then trkCustomerInfo req
       else match storedSession w sessionId with
            | Some s => customerInfo (Session.context s)
            | None => None
            end).
Proof.
  intros Hgood Ho Hs sessionId w'. unfold w'.
  rewrite (trackOrder_valid req w Ho Hs). simpl snd.
  pose proof Hgood as [Hwf Hd].
  pose proof (located_owns sessionId w Hgood) as Hown.
  destruct (located_store sessionId w) as [Hu Hlog].
  split; [apply tracked_good, Hgood|]. split; [exact Hlog|]. split.
  - intros other Hother. unfold storedSession, tracked. fold sessionId. simpl.
    rewrite lookup_insert_ne, Hu by congruence.
    destruct (userSessions w !! other) as [l'|] eqn:Hl'; [|reflexivity].
    rewrite list_lookup_alter_ne.
    + apply located_other. eapply Hwf, Hl'.
    + intros E. apply Hother. apply Hown. fold sessionId in E.
      rewrite E. exact Hl'.
  - destruct (located_session sessionId w Hwf) as (s & Hs0 & Hmsgs & Hctx).
    assert (Hnew : storedSession (tracked env req w) sessionId
                   = Some (Session.mk (Session.id s) (Session.createdAt s)
                             (trackedContext req s) (Session.messages s))).
    { unfold storedSession, tracked. fold sessionId. simpl.
      rewrite lookup_insert_eq, list_lookup_alter_eq, Hs0. reflexivity. }
    rewrite Hnew. eexists. split; [reflexivity|].
    cbn [Session.context Session.messages].
    split; [reflexivity|]. split; [exact Hmsgs|].
    unfold trackedContext. cbn [customerInfo].
    destruct (Js.truthy (trkCustomerInfo req)); [reflexivity|].
    destruct (storedSession w sessionId) as [s0|]; [now subst s|].
    now rewrite Hctx.
Qed.

(** X17: a complete order-tracking request stores the order identifier in
    the context of the session, creating the session when it is new; it
    replaces the customer information only when some is given; it leaves
    the messages of the session, every other session and the search log
    as they were. *)
Theorem trackOrder_stores (req : TrackRequest) (w : World) :
  goodStore w ->
  Js.truthy (trkOrderId req) = true ->
  Js.truthy (trkSessionId req) = true ->
  let sessionId := Js.orElse (trkSessionId req) "" in
  let w' := snd (trackOrder env req w) in
  goodStore w' /\
  searchLog w' = searchLog w /\
  (forall other, other <> sessionId ->
     storedSession w' other = storedSession w other) /\
  exists s',
    storedSession w' sessionId = Some s' /\
    orderId (Session.context s') = Some (Js.orElse (trkOrderId req) "") /\
    Session.messages s' = default [] (storedMessages w sessionId) /\
    customerInfo (Session.context s')
    = (if Js.truthy (trkCustomerInfo req) then trkCustomerInfo req
       else match storedSession w sessionId with
            | Some s => customerInfo (Session.context s)
            | None => None
            end).
Proof. exact (tracked_session req w). Qed.


End Handlers.

(** ** The handlers on concrete requests *)

Lemma goodStore_initial : goodStore initialWorld.
Proof.
  split; [apply wfWorld_initial|].
  intros a b l H. simpl in H. rewrite lookup_empty in H. discriminate.
Qed.

(** A store with one session, "s2", after one turn. *)
Lemma goodStore_after_turn :
  goodStore (snd (chat (searchReturns [hoodie]) (chatRequest "hi" "s2") initialWorld)).
Proof. apply chat_preserves_good, goodStore_initial. Qed.

Lemma chat_refusal_witness :
  chat searchDown (mkChatRequest None (Some "s1")) initialWorld
  = (mkResponse 400 (ErrorBody "Message and sessionId are required" None),
     initialWorld) /\
  status (fst (chat searchDown (chatRequest "hello" "s1") initialWorld)) <> 400.
Proof.
  split.
  - apply (chat_refusal searchDown (mkChatRequest None (Some "s1")) initialWorld).
    reflexivity.
  - apply (chat_refusal searchDown (chatRequest "hello" "s1") initialWorld).
    reflexivity.
Defined.

Lemma chat_outcome_witness :
  status (fst (chat searchDown (chatRequest "hello" "s1") initialWorld)) = 500 /\
  length (searchLog (snd (chat searchDown (chatRequest "hello" "s1") initialWorld)))
  = 0 + 1.
Proof.
  apply (chat_outcome searchDown (chatRequest "hello" "s1") initialWorld).
  - apply wfWorld_initial.
  - reflexivity.
  - reflexivity.
Defined.

Lemma chat_other_sessions_witness :
  let w := snd (chat (searchReturns [hoodie]) (chatRequest "hi" "s2") initialWorld) in
  storedSession (snd (chat searchDown (chatRequest "track my order" "s1") w)) "s2"
  = storedSession w "s2".
Proof.
  apply (chat_other_sessions searchDown (chatRequest "track my order" "s1")).
  - apply goodStore_after_turn.
  - discriminate.
Defined.

Lemma chat_append_only_witness :
  let w := snd (chat (searchReturns [hoodie]) (chatRequest "hi" "s2") initialWorld) in
  exists s s' added,
    storedSession w "s2" = Some s /\
    storedSession (snd (chat searchDown (chatRequest "track my order" "s2") w)) "s2"
    = Some s' /\
    Session.messages s' = Session.messages s ++ added /\
    length added <= 2 /\
    Session.id s' = Session.id s /\
    Session.createdAt s' = Session.createdAt s /\
    Session.context s' = Session.context s.
Proof.
  intros w.
  destruct (storedSession w "s2") as [s|] eqn:Hs; [|discriminate].
  destruct (chat_append_only searchDown (chatRequest "track my order" "s2") w "s2" s
              goodStore_after_turn Hs) as (s' & added & H).
  exists s, s', added. split; [reflexivity | exact H].
Defined.

Lemma chat_reply_recorded_witness :
  exists reply sources earlier u a kept,
    body (fst (chat (searchReturns fourDocs) (chatRequest "hello" "s1") initialWorld))
    = ChatBody reply "s1" (Some sources) /\
    storedMessages
      (snd (chat (searchReturns fourDocs) (chatRequest "hello" "s1") initialWorld)) "s1"
    = Some (earlier ++ [u; a]) /\
    Message.role u = user /\ Message.content u = "hello" /\
    Message.role a = assistant /\ Message.content a = reply /\
    Message.searchResults a = Some kept /\
    length kept = 4 /\
    sources = firstn 3 kept.
Proof.
  apply (chat_reply_recorded (searchReturns fourDocs) (chatRequest "hello" "s1")
           initialWorld (JArray fourDocs)).
  - apply wfWorld_initial.
  - reflexivity.
  - reflexivity.
  - intros _. exists (JArray fourDocs). split; reflexivity.
  - split; reflexivity.
Defined.

Lemma turns_append_pairs_witness :
  exists added,
    default [] (storedMessages
                  (turns (searchReturns [hoodie]) "s1" ["hello"; "track my order"]
                     initialWorld) "s1")
    = default [] (storedMessages initialWorld "s1") ++ added /\
    length added = 2 * 2 /\
    map Message.role added = [user; assistant; user; assistant] /\
    map Message.content (List.filter
          (fun m => match Message.role m with user => true | assistant => false end)
          added) = ["hello"; "track my order"] /\
    ((forall i j, i < j -> (sampleClock i < sampleClock j)%Z) ->
     StronglySorted Z.lt (map Message.timestamp added)).
Proof.
  apply (turns_append_pairs (searchReturns [hoodie]) "s1" ["hello"; "track my order"]
           initialWorld).
  - intros n query. exists (JArray [hoodie]). split; reflexivity.
  - apply wfWorld_initial.
  - discriminate.
  - repeat constructor; discriminate.
Defined.

Lemma trackOrder_answers_witness :
  trackOrder searchDown (mkTrackRequest (Some "A-1001") None None) initialWorld
  = (mkResponse 400 (ErrorBody "Order ID and session ID are required" None),
     initialWorld) /\
  exists info,
    In info statuses /\
    fst (trackOrder searchDown trackA1001 initialWorld)
    = mkResponse 200 (TrackBody true "A-1001" info).
Proof.
  split.
  - apply (trackOrder_answers searchDown (mkTrackRequest (Some "A-1001") None None)
             initialWorld). reflexivity.
  - apply (trackOrder_answers searchDown trackA1001 initialWorld). reflexivity.
Defined.

Lemma trackOrder_stores_witness :
  let w := snd (chat (searchReturns [hoodie]) (chatRequest "hi" "s2") initialWorld) in
  let w' := snd (trackOrder searchDown trackA1001 w) in
  goodStore w' /\
  searchLog w' = searchLog w /\
  (forall other, other <> "s1" -> storedSession w' other = storedSession w other) /\
  exists s',
    storedSession w' "s1" = Some s' /\
    orderId (Session.context s') = Some "A-1001" /\
    Session.messages s' = [] /\
    customerInfo (Session.context s') = None.
Proof.
  apply (trackOrder_stores searchDown trackA1001).
  - apply goodStore_after_turn.
  - reflexivity.
  - reflexivity.
Defined.


Lemma order_tracking_reply_witness :
  let w := snd (trackOrder searchDown trackA1001 initialWorld) in
  let r := handleOrderTracking searchDown "track it" 0 w in
  exists info, In info statuses /\
    fst r = inl (statusLine "A-1001" info) /\
    nth_error statuses (randomIndex searchDown (randomDraws w) mod 5) = Some info /\
    randomDraws (snd r) = S (randomDraws w).
Proof.
  intros w r.
  destruct (heap w !! 0) as [s|] eqn:Hs; [|discriminate].
  destruct (order_tracking_reply searchDown "track it" 0 w s Hs)
    as (_ & _ & _ & Hst).
  vm_compute in Hs. injection Hs as <-. apply Hst. reflexivity.
Defined.

(** ** The chat widget *)

Lemma widget_addMessage_text now r text sources st :
  Widget.addMessage now r (Some text) sources st
  = Some (Widget.mkState (Widget.sessionId st) (Widget.apiUrl st)
            (Widget.apiBaseUrl st)
            (Widget.messages st
               ++ [Widget.mkEntry r text (default [] sources) (now (Widget.clock st))])
            (Widget.inputValue st) (Widget.sendDisabled st)
            (Widget.typingShown st)
            (Widget.bubbles st
               ++ [Widget.mkBubble ("ai-widget-message " +:+ Widget.roleName r)
                     (Widget.messageHtml text (default [] sources))])
            (S (Widget.clock st))).
Proof. reflexivity. Qed.

(** The send button is disabled by the input listener exactly when
    the input is blank, and that is exactly when [sendMessage] does
    nothing: no request, no message, no change. *)
Lemma sendMessage_blank (now : nat -> Timestamp)
    (fetch : Widget.Request -> Widget.Fetched) (value : string)
    (st : Widget.State) :
  let st0 := Widget.onInput value st in
  (Widget.sendDisabled st0 = true <-> Js.trim value = "") /\
  (Widget.sendDisabled st0 = true <->
   Widget.sendMessage now fetch st0 = (st0, None)).
Proof.
  cbv zeta. unfold Widget.sendMessage, Widget.onInput. simpl.
  destruct (String.eqb_spec (Js.trim value) "") as [E|E].
  - repeat split; auto.
  - repeat split; try discriminate; try contradiction.
Qed.

(** X19: the send button is disabled by the input listener exactly when
    the input is blank, and that is exactly when [sendMessage] does
    nothing: no request, no message, no change. *)
Theorem widget_blank_input (now : nat -> Timestamp)
    (fetch : Widget.Request -> Widget.Fetched) (value : string)
    (st : Widget.State) :
  let st0 := Widget.onInput value st in
  (Widget.sendDisabled st0 = true <-> Js.trim value = "") /\
  (Widget.sendDisabled st0 = true <->
   Widget.sendMessage now fetch st0 = (st0, None)).
Proof. exact (sendMessage_blank now fetch value st). Qed.

(** With a non-blank input, [sendMessage] makes one request, whose
    body holds the trimmed input and the session identifier of the
    widget, and appends exactly two messages, whatever [fetch] does: the
    user message, then an assistant message that carries the reply and
    the sources of a usable answer (status 2xx, a JSON body, a reply) and
    the apology, without sources, in every other case.  It leaves the
    input empty, the send button disabled and the typing indicator
    hidden. *)
Lemma sendMessage_nonblank (now : nat -> Timestamp)
    (fetch : Widget.Request -> Widget.Fetched) (st : Widget.State) :
  Js.trim (Widget.inputValue st) <> "" ->
  let message := Js.trim (Widget.inputValue st) in
  let request :=
    Widget.mkRequest (Widget.interpolate (Widget.apiBaseUrl st))
      (mkChatRequest (Some message) (Some (Widget.sessionId st))) in
  let st' := fst (Widget.sendMessage now fetch st) in
  snd (Widget.sendMessage now fetch st) = Some request /\
  Widget.messages st'
  = Widget.messages st
    ++ [Widget.mkEntry user message [] (now (Widget.clock st));
        Widget.mkEntry assistant (fst (shown (fetch request)))
          (snd (shown (fetch request))) (now (S (Widget.clock st)))] /\
  length (Widget.bubbles st') = length (Widget.bubbles st) + 2 /\
  Widget.inputValue st' = "" /\
  Widget.sendDisabled st' = true /\
  Widget.typingShown st' = false /\
  Widget.sessionId st' = Widget.sessionId st.
Proof.
  intros Hne message request st'. unfold st', Widget.sendMessage.
  fold message. destruct (String.eqb_spec message "") as [E|_]; [contradiction|].
  rewrite widget_addMessage_text. cbv zeta.
  cbn [Widget.showTyping Widget.sessionId Widget.apiUrl Widget.apiBaseUrl
       Widget.messages Widget.inputValue Widget.sendDisabled Widget.typingShown
       Widget.bubbles Widget.clock].
  fold request.
  unfold shown, Widget.connectionTrouble.
  destruct (fetch request) as [|status [data|]];
    [| destruct (Widget.ok status);
       [destruct (Widget.response data) as [reply|]|] | destruct (Widget.ok status)];
    cbn [Widget.addMessage Widget.showTyping Widget.sessionId Widget.apiUrl
         Widget.apiBaseUrl Widget.messages Widget.inputValue Widget.sendDisabled
         Widget.typingShown Widget.bubbles Widget.clock fst snd default];
    rewrite <- ?app_assoc, !length_app; simpl;
    repeat split; reflexivity || lia.
Qed.



Lemma generateSessionId_nonempty random36 nowText :
  Widget.generateSessionId random36 nowText <> "".
Proof. discriminate. Qed.

Lemma chat_valid_not_400 env req w :
  Js.truthy (reqMessage req) = true ->
  Js.truthy (reqSessionId req) = true ->
  status (fst (chat env req w)) <> 400.
Proof.
  intros Hm Hs. rewrite (chat_cases env req w Hm Hs). cbv zeta.
  destruct (fst (firstHalf _ _ _ _)); [|discriminate].
  destruct (fst (searchKnowledgeBase _ _ _ _)); discriminate.
Qed.

(** X21: a widget whose session identifier comes from
    [generateSessionId] never sends a request that the chat handler
    refuses: the body of every request it makes has a non-empty message
    and a non-empty session identifier, so the handler does not answer
    400 to it. *)
Theorem widget_request_accepted (now : nat -> Timestamp)
    (fetch : Widget.Request -> Widget.Fetched) (st : Widget.State)
    (random36 nowText : string) (request : Widget.Request)
    (env : Env) (w : World) :
  Widget.sessionId st = Widget.generateSessionId random36 nowText ->
  snd (Widget.sendMessage now fetch st) = Some request ->
  Js.truthy (reqMessage (Widget.payload request)) = true /\
  Js.truthy (reqSessionId (Widget.payload request)) = true /\
  status (fst (chat env (Widget.payload request) w)) <> 400.
Proof.
  intros Hsid Hreq.
  assert (Hv : Js.truthy (reqMessage (Widget.payload request)) = true /\
               Js.truthy (reqSessionId (Widget.payload request)) = true).
  { unfold Widget.sendMessage in Hreq.
    destruct (String.eqb_spec (Js.trim (Widget.inputValue st)) "") as [E|E];
      [discriminate|].
    rewrite widget_addMessage_text in Hreq. simpl in Hreq.
    injection Hreq as <-. simpl. split.
    - destruct (String.eqb_spec (Js.trim (Widget.inputValue st)) "");
        [contradiction | reflexivity].
    - rewrite Hsid. reflexivity. }
  destruct Hv as [Hm Hs]. split; [exact Hm|]. split; [exact Hs|].
  apply chat_valid_not_400; assumption.
Qed.

Lemma widget_request_accepted_witness :
  let request :=
    Widget.mkRequest "undefined"
      (mkChatRequest (Some "Do you ship abroad?")
         (Some "session_4fzyo82mv_1700000000000")) in
  Js.truthy (reqMessage (Widget.payload request)) = true /\
  Js.truthy (reqSessionId (Widget.payload request)) = true /\
  status (fst (chat searchDown (Widget.payload request) initialWorld)) <> 400.
Proof.
  apply (widget_request_accepted sampleClock fetchBroken sampleWidget
           "0.4fzyo82mvyr" "1700000000000"); reflexivity.
Defined.

Lemma includes_nl_cons c s :
  Js.includes (String c s) Js.nl = Ascii.eqb (ascii_of_N 10) c || Js.includes s Js.nl.
Proof.
  cbn [Js.includes]. f_equal. unfold Js.startsWith, Js.nl.
  cbn [Js.stripPrefix].
  destruct (Ascii.eqb (ascii_of_N 10) c); reflexivity.
Qed.

(** The text written has no newline left, and a text without newline is
    written as it is. *)
Lemma breakLines_plain (text : string) :
  Js.includes (Widget.breakLines text) Js.nl = false /\
  (Js.includes text Js.nl = false -> Widget.breakLines text = text).
Proof.
  induction text as [|c text [IH1 IH2]].
  - split; reflexivity.
  - rewrite includes_nl_cons. cbn [Widget.breakLines].
    rewrite (Ascii.eqb_sym (ascii_of_N 10) c).
    destruct (Ascii.eqb c (ascii_of_N 10)) eqn:Hc.
    + split; [|discriminate].
      change ("<br>" +:+ Widget.breakLines text)
        with (String "<" (String "b" (String "r" (String ">" (Widget.breakLines text))))).
      rewrite !includes_nl_cons, IH1. reflexivity.
    + rewrite includes_nl_cons, (Ascii.eqb_sym (ascii_of_N 10) c), Hc.
      cbn [orb]. split; [exact IH1|]. intros H. now rewrite IH2.
Qed.

(** Replacing the newlines goes through a concatenation. *)
Lemma breakLines_app (a b : string) :
  Widget.breakLines (a +:+ b) = Widget.breakLines a +:+ Widget.breakLines b.
Proof.
  induction a as [|c a IH]; [reflexivity|].
  rewrite append_cons. cbn [Widget.breakLines]. rewrite IH.
  destruct (Ascii.eqb c (ascii_of_N 10)).
  - now rewrite append_assoc.
  - now rewrite append_cons.
Qed.

(** X22: [addMessage] appends one element to the messages container, and
    the HTML of that element holds the text of the message with every
    newline replaced by the tag [<br>] and every other character as it
    is: what precedes the first newline is written unchanged, the newline
    becomes [<br>], what follows is treated in the same way, and no
    newline is left. *)
Theorem widget_breakLines (now : nat -> Timestamp) (r : Role)
    (a b : string) (sources : option (list Widget.Source))
    (st : Widget.State) :
  Js.includes a Js.nl = false ->
  let text := a +:+ Js.nl +:+ b in
  Widget.breakLines a = a /\
  Widget.breakLines text = a +:+ "<br>" +:+ Widget.breakLines b /\
  Js.includes (Widget.breakLines text) Js.nl = false /\
  exists st' bubble,
    Widget.addMessage now r (Some text) sources st = Some st' /\
    Widget.bubbles st' = Widget.bubbles st ++ [bubble] /\
    Widget.messages st'
    = Widget.messages st
      ++ [Widget.mkEntry r text (default [] sources) (now (Widget.clock st))] /\
    Js.includes (Widget.innerHTML bubble)
      (a +:+ "<br>" +:+ Widget.breakLines b) = true.
Proof.
  intros Ha text.
  assert (Hplain : Widget.breakLines a = a).
  { apply breakLines_plain, Ha. }
  assert (Htext : Widget.breakLines text = a +:+ "<br>" +:+ Widget.breakLines b).
  { unfold text. rewrite !breakLines_app, Hplain. reflexivity. }
  split; [exact Hplain|]. split; [exact Htext|].
  split; [apply breakLines_plain|].
  rewrite widget_addMessage_text. eexists _, _.
  split; [reflexivity|]. cbn [Widget.bubbles Widget.messages].
  split; [reflexivity|]. split; [reflexivity|].
  cbn [Widget.innerHTML]. unfold Widget.messageHtml. rewrite Htext.
  apply includes_iff.
  exists (Js.nl +:+ Widget.spaces 16
          +:+ "<div class=" +:+ Widget.dq +:+ "ai-widget-message-content"
          +:+ Widget.dq +:+ ">" +:+ Js.nl +:+ Widget.spaces 20).
  eexists. rewrite !append_assoc. reflexivity.
Qed.

Lemma widget_breakLines_witness :
  let text := "Price: $40" +:+ Js.nl +:+ ("In stock" +:+ Js.nl +:+ "Thanks") in
  Widget.breakLines "Price: $40" = "Price: $40" /\
  Widget.breakLines text = "Price: $40" +:+ "<br>" +:+ "In stock<br>Thanks" /\
  Js.includes (Widget.breakLines text) Js.nl = false /\
  exists st' bubble,
    Widget.addMessage sampleClock assistant (Some text) None sampleWidget
    = Some st' /\
    Widget.bubbles st' = Widget.bubbles sampleWidget ++ [bubble] /\
    Widget.messages st'
    = Widget.messages sampleWidget
      ++ [Widget.mkEntry assistant text (default [] None)
            (sampleClock (Widget.clock sampleWidget))] /\
    Js.includes (Widget.innerHTML bubble)
      ("Price: $40" +:+ "<br>" +:+ "In stock<br>Thanks") = true.
Proof.
  exact (widget_breakLines sampleClock assistant "Price: $40"
           ("In stock" +:+ Js.nl +:+ "Thanks") None sampleWidget eq_refl).
Defined.

(** X23: through any sequence of typed and sent values, the widget keeps
    its session identifier and its list of messages only grows: each
    non-blank value adds a user message with the trimmed value and then
    one assistant message, each blank value adds nothing. *)
Theorem widget_history (now : nat -> Timestamp)
    (sends : list (string * (Widget.Request -> Widget.Fetched)))
    (st : Widget.State) :
  exists added,
    Widget.messages (typedAndSent now sends st) = Widget.messages st ++ added /\
    map Widget.role added = turnRoles (length (nonBlank sends)) /\
    map Widget.content
      (List.filter
         (fun m => match Widget.role m with user => true | assistant => false end)
         added) = nonBlank sends /\
    Widget.sessionId (typedAndSent now sends st) = Widget.sessionId st.
Proof.
  revert st. induction sends as [|[value fetch] rest IH]; intros st.
  - exists []. simpl. rewrite app_nil_r. repeat split; reflexivity.
  - cbn [typedAndSent]. unfold nonBlank. cbn [map fst List.filter].
    fold (nonBlank rest).
    destruct (IH (fst (Widget.sendMessage now fetch (Widget.onInput value st))))
      as (added & Hm & Hr & Hc & Hs).
    destruct (String.eqb_spec (Js.trim value) "") as [E|E]; cbn [negb].
    + assert (Hnone : Widget.sendMessage now fetch (Widget.onInput value st)
                      = (Widget.onInput value st, None)).
      { apply (sendMessage_blank now fetch value st). simpl.
        rewrite E. reflexivity. }
      rewrite Hnone in Hm, Hs |- *. simpl in Hm, Hs.
      exists added. repeat split; assumption.
    + destruct (sendMessage_nonblank now fetch (Widget.onInput value st) E)
        as (_ & Hmsgs & _ & _ & _ & _ & Hsid).
      rewrite Hmsgs in Hm. rewrite Hsid in Hs. simpl in Hm, Hs.
      eexists (_ :: _ :: added).
      split; [rewrite Hm, <- app_assoc; reflexivity|].
      split; [cbn [map length turnRoles Widget.role]; now rewrite Hr|].
      split; [cbn [List.filter map Widget.role Widget.content]; now rewrite Hc|].
      exact Hs.
Qed.

(** X24: a product answer is the same for a list of hits, for that list
    without the hits that have no URL, and for that list without
    duplicate URLs. *)
Theorem formatProductAnswer_only_first_urls (query : string)
    (hits : list Document.t) :
  formatProductAnswer query hits
  = formatProductAnswer query
      (List.filter (fun h => Js.truthy (Document.url h)) hits) /\
  formatProductAnswer query hits = formatProductAnswer query (dedupeByUrl hits).
Proof.
  unfold formatProductAnswer. split.
  - now rewrite <- dedupeLoop_drops_no_url.
  - destruct (dedupeLoop_result hits ∅) as (_ & Hf & Hn).
    unfold dedupeByUrl. now rewrite (dedupeLoop_fixed _ ∅ Hf Hn).
Qed.

Lemma sendMessage_urls now fetch st :
  Widget.apiBaseUrl (fst (Widget.sendMessage now fetch st)) = Widget.apiBaseUrl st /\
  Widget.apiUrl (fst (Widget.sendMessage now fetch st)) = Widget.apiUrl st.
Proof.
  unfold Widget.sendMessage.
  destruct (String.eqb (Js.trim (Widget.inputValue st)) ""); [split; reflexivity|].
  rewrite widget_addMessage_text. cbv zeta.
  unfold Widget.connectionTrouble.
  match goal with
  | |- context [match fetch ?r with _ => _ end] =>
      destruct (fetch r) as [|status [data|]]
  end;
    [| destruct (Widget.ok status);
       [destruct (Widget.response data) as [reply|]|] | destruct (Widget.ok status)];
    split; reflexivity.
Qed.

Lemma typedAndSent_urls now sends st :
  Widget.apiBaseUrl (typedAndSent now sends st) = Widget.apiBaseUrl st /\
  Widget.apiUrl (typedAndSent now sends st) = Widget.apiUrl st.
Proof.
  revert st. induction sends as [|[value fetch] rest IH]; intros st.
  - split; reflexivity.
  - cbn [typedAndSent].
    destruct (IH (fst (Widget.sendMessage now fetch (Widget.onInput value st))))
      as [Hb Hu].
    destruct (sendMessage_urls now fetch (Widget.onInput value st)) as [Hb' Hu'].
    rewrite Hb, Hu, Hb', Hu'. split; reflexivity.
Qed.

(** X25: a widget built by the constructor never posts to its [apiUrl]:
    [sendMessage] reads [apiBaseUrl], which nothing assigns, so after any
    sequence of typed and sent values every request goes to the text
    [undefined], while [apiUrl] is still [/api/chat]. *)
Theorem widget_fetch_target (now : nat -> Timestamp)
    (random36 nowText : string)
    (sends : list (string * (Widget.Request -> Widget.Fetched)))
    (value : string) (fetch : Widget.Request -> Widget.Fetched)
    (request : Widget.Request) :
  let st := typedAndSent now sends (Widget.construct random36 nowText) in
  snd (Widget.sendMessage now fetch (Widget.onInput value st)) = Some request ->
  Widget.target request = "undefined" /\
  Widget.apiUrl st = "/api/chat" /\
  Widget.target request <> Widget.apiUrl st.
Proof.
  intros st Hreq.
  destruct (typedAndSent_urls now sends (Widget.construct random36 nowText))
    as [Hb Hu].
  fold st in Hb, Hu. cbn [Widget.construct Widget.apiBaseUrl Widget.apiUrl] in Hb, Hu.
  assert (Ht : Widget.target request = "undefined").
  { unfold Widget.sendMessage in Hreq.
    destruct (String.eqb (Js.trim (Widget.inputValue (Widget.onInput value st))) "");
      [discriminate|].
    cbv zeta in Hreq. cbn [snd] in Hreq. injection Hreq as <-.
    cbn [Widget.target Widget.addMessage Widget.showTyping Widget.apiBaseUrl
         Widget.onInput].
    rewrite Hb. reflexivity. }
  rewrite Ht, Hu. repeat split; discriminate.
Qed.

Lemma widget_fetch_target_witness :
  Widget.target
    (Widget.mkRequest "undefined"
       (mkChatRequest (Some "Do you ship abroad?")
          (Some "session_4fzyo82mv_1700000000000"))) = "undefined" /\
  Widget.apiUrl
    (typedAndSent sampleClock [("Hello", fetchAnswers "Hi!")]
       (Widget.construct "0.4fzyo82mvyr" "1700000000000")) = "/api/chat" /\
  Widget.target
    (Widget.mkRequest "undefined"
       (mkChatRequest (Some "Do you ship abroad?")
          (Some "session_4fzyo82mv_1700000000000")))
  <> Widget.apiUrl
       (typedAndSent sampleClock [("Hello", fetchAnswers "Hi!")]
          (Widget.construct "0.4fzyo82mvyr" "1700000000000")).
Proof.
  apply (widget_fetch_target sampleClock "0.4fzyo82mvyr" "1700000000000"
           [("Hello", fetchAnswers "Hi!")] "  Do you ship abroad?  " fetchBroken).
  vm_compute. reflexivity.
Defined.

(** ** Requests that overlap *)

(** Handled alone, a request goes through its three steps and ends as
    [chat] says. *)
Lemma alone_chat (env : Env) (req : ChatRequest) (w : World) :
  alone env req w = ([Answered (fst (chat env req w))], snd (chat env req w)).
Proof.
  unfold alone. cbn [schedule lookup list_lookup insert list_insert].
  destruct (Js.truthy (reqMessage req) && Js.truthy (reqSessionId req)) eqn:Hv.
  - apply andb_true_iff in Hv as [Hm Hs].
    rewrite (chat_cases env req w Hm Hs). cbv zeta.
    set (message := Js.orElse (reqMessage req) "").
    set (sessionId := Js.orElse (reqSessionId req) "").
    set (session := fst (entered env sessionId message w)).
    set (half := firstHalf env message session (snd (entered env sessionId message w))).
    assert (E1 : resume env (Arrived req) w
                 = (AwaitsFirst message sessionId session (fst half), snd half)).
    { unfold resume. rewrite Hm, Hs. reflexivity. }
    rewrite E1. cbn [fst snd].
    destruct (fst half) as [r|e]; cbn [resume fst snd]; [|reflexivity].
    rewrite (search_logs env message (snd half)).
    destruct (fst (searchKnowledgeBase env message 5 (snd half))) as [raw|e];
      reflexivity.
  - rewrite (chat_invalid env req w Hv).
    assert (E1 : resume env (Arrived req) w
                 = (Answered
                      (mkResponse 400
                         (ErrorBody "Message and sessionId are required" None)), w)).
    { unfold resume.
      destruct (Js.truthy (reqMessage req)), (Js.truthy (reqSessionId req));
        try discriminate; reflexivity. }
    rewrite E1. reflexivity.
Qed.

Lemma extends_refl (s : Session.t) : extends s s.
Proof.
  repeat split. exists []. now rewrite app_nil_r.
Qed.

Lemma extends_trans (s1 s2 s3 : Session.t) :
  extends s1 s2 -> extends s2 s3 -> extends s1 s3.
Proof.
  intros (Hi & Hc & Hx & m & Hm) (Hi' & Hc' & Hx' & m' & Hm').
  repeat split; try congruence.
  exists (m ++ m'). rewrite Hm', Hm, app_assoc. reflexivity.
Qed.

Lemma grown_refl (w : World) : grown w w.
Proof. intros l s Hs. exists s. split; [exact Hs | apply extends_refl]. Qed.

Lemma grown_trans (w1 w2 w3 : World) :
  grown w1 w2 -> grown w2 w3 -> grown w1 w3.
Proof.
  intros H12 H23 l s Hs.
  destruct (H12 l s Hs) as (s2 & Hs2 & He2).
  destruct (H23 l s2 Hs2) as (s3 & Hs3 & He3).
  exists s3. split; [exact Hs3 | eapply extends_trans; eassumption].
Qed.

Lemma grown_same_heap (w w' : World) : heap w' = heap w -> grown w w'.
Proof. intros E l s Hs. rewrite E. exists s. split; [exact Hs | apply extends_refl]. Qed.

(** Pushing a message onto one object. *)
Lemma grown_push (w w' : World) (l : nat) (m : Message.t) :
  heap w' = alter (pushed m) l (heap w) -> grown w w'.
Proof.
  intros E l' s Hs. rewrite E.
  destruct (decide (l' = l)) as [->|Hne].
  - rewrite list_lookup_alter_eq, Hs. eexists. split; [reflexivity|].
    repeat split. exists [m]. reflexivity.
  - rewrite list_lookup_alter_ne by congruence.
    exists s. split; [exact Hs | apply extends_refl].
Qed.

Lemma grown_alloc (w w' : World) (s0 : Session.t) :
  heap w' = heap w ++ [s0] -> grown w w'.
Proof.
  intros E l s Hs. rewrite E. exists s.
  split; [apply lookup_app_l_Some, Hs | apply extends_refl].
Qed.

Lemma entered_grown (env : Env) (sessionId message : string) (w : World) :
  grown w (snd (entered env sessionId message w)).
Proof.
  unfold entered. destruct (userSessions w !! sessionId) as [l|].
  - eapply grown_push. reflexivity.
  - eapply grown_alloc. reflexivity.
Qed.

(** One step of one handler only appends to the session objects. *)
Lemma resume_grown (env : Env) (f : Flight) (w : World) :
  grown w (snd (resume env f w)).
Proof.
  destruct f as [req|message sessionId session [r|e]
                |message sessionId session [raw|e]|res]; cbn [resume].
  - destruct (negb (Js.truthy (reqMessage req)) || negb (Js.truthy (reqSessionId req)));
      [apply grown_refl|].
    cbv zeta. cbn [snd]. eapply grown_trans; [apply entered_grown|].
    apply grown_same_heap.
    apply (firstHalf_frame env).
  - cbv zeta. cbn [snd]. rewrite search_logs. apply grown_same_heap. reflexivity.
  - apply grown_refl.
  - cbv zeta. cbn [snd]. eapply grown_push. reflexivity.
  - apply grown_refl.
  - apply grown_refl.
Qed.

(** X26: a request whose handler is resumed three times in a row, with
    no step of another request in between, is answered as the handler run
    in one go answers it, and leaves the same world: [chat] is the
    handler of a request that no other request overlaps. *)
Theorem handled_alone (env : Env) (req : ChatRequest) (w : World) :
  alone env req w = ([Answered (fst (chat env req w))], snd (chat env req w)).
Proof. apply alone_chat. Qed.

(** X27: whatever the requests under way and whatever the order in which
    their handlers are resumed between their [await]s, a session object
    is never replaced, shortened or rewritten: it keeps its address, its
    identifier, its creation time and its context, and its messages are
    only appended to. *)
Theorem overlap_only_appends (env : Env) (picks : list nat)
    (pool : list Flight) (w : World) :
  grown w (snd (schedule env picks pool w)).
Proof.
  revert pool w. induction picks as [|i rest IH]; intros pool w.
  - apply grown_refl.
  - cbn [schedule]. destruct (pool !! i) as [f|]; [|apply IH].
    eapply grown_trans; [apply resume_grown | apply IH].
Qed.




